(** * Timesheet aggregation and cell reconciliation of project-man

  A shallow embedding of the time-tracking core of the application:

  - the server actions of [actions/time-actions.ts]
    ([addManualTimeEntry], [stopTimer], [deleteTimeEntry]);
  - the aggregator [getTimesheetData] of [actions/timesheet-actions.ts];
  - the timesheet page handlers [handleCellClick], [handleCellSave] and
    [handleDeleteTimeForDay], and the week of the page: [getWeekDates],
    the two week buttons, the range and the keys of the columns;
  - the calendar of the week picker: [getDaysInMonth], [getWeekStart],
    [isSameDay], [isInWeek] and the two month buttons.

  Conventions of the embedding.

  - A JavaScript [Date] is its time value: milliseconds since the epoch,
    a [Z].  Timestamps stored by the backend are such instants;
    [started_at] and [ended_at] are nullable, hence [option Z].  Where the
    browser computes with dates, a date may become invalid: there a
    [Date] is an [option Z], and [None] is the invalid date.
  - A JavaScript number holding minutes is a [Z]: every producer of
    minutes in the sources ([parseInt], [Math.round], sums of integers)
    yields an integer, and the arithmetic on them is exact below 2^53.
  - A JavaScript string is a [string]; each [ascii] is one code unit, so
    the embedding covers strings over the code units 0..255.
  - A plain object used as a dictionary ([daily_time], [dailyTotals]) is a
    [gmap string Z]; the [Map] of the aggregator keeps insertion order and
    is an association list updated in place.
  - [String.prototype.localeCompare] is a host function whose result
    depends on the collation data of the runtime: it is a parameter of the
    development. *)

From Stdlib Require Import ZArith Lia Ascii String List Sorted Permutation.
From stdpp Require Import base option list gmap strings fin_maps pretty.

Open Scope string_scope.
Open Scope Z_scope.

(** ** JavaScript dates *)

Module JsDate.

Definition msPerDay : Z := 86400000.

(** [Day(t)] of ECMAScript: the day number of a time value. *)
Definition Day (t : Z) : Z := t / msPerDay.

(** Civil date of a day number (proleptic Gregorian calendar), as
    [YearFromTime], [MonthFromTime] and [DateFromTime] compute it. *)
Definition civil_from_days (days : Z) : Z * Z * Z :=
  let z := days + 719468 in
  let era := z / 146097 in
  let doe := z - era * 146097 in
  let yoe := (doe - doe / 1460 + doe / 36524 - doe / 146096) / 365 in
  let y := yoe + era * 400 in
  let doy := doe - (365 * yoe + yoe / 4 - yoe / 100) in
  let mp := (5 * doy + 2) / 153 in
  let d := doy - (153 * mp + 2) / 5 + 1 in
  let m := if mp <? 10 then mp + 3 else mp - 9 in
  (if m <=? 2 then y + 1 else y, m, d).

(** [MakeDay] of ECMAScript on a civil date. *)
Definition days_from_civil (y m d : Z) : Z :=
  let y := if m <=? 2 then y - 1 else y in
  let era := y / 400 in
  let yoe := y - era * 400 in
  let doy := (153 * (if 2 <? m then m - 3 else m + 9) + 2) / 5 + d - 1 in
  let doe := yoe * 365 + yoe / 4 - yoe / 100 + doy in
  era * 146097 + doe - 719468.

Definition isLeap (y : Z) : bool :=
  ((y mod 4 =? 0) && negb (y mod 100 =? 0)) || (y mod 400 =? 0).

Definition daysInMonth (y m : Z) : Z :=
  if m =? 2 then (if isLeap y then 29 else 28)
  else if (m =? 4) || (m =? 6) || (m =? 9) || (m =? 11) then 30
  else 31.

Definition digitChar (n : Z) : ascii := ascii_of_N (Z.to_N (48 + n mod 10)).

(** The decimal digits of [n], zero padded to [width] characters. *)
Fixpoint pad (width : nat) (n : Z) (acc : string) : string :=
  match width with
  | O => acc
  | S w => pad w (n / 10) (String (digitChar n) acc)
  end.

(** [new Date(t).toISOString().split('T')[0]]: the UTC calendar date of
    the instant, "YYYY-MM-DD"; years outside 0..9999 are written with a
    sign and six digits. *)
Definition isoDate (t : Z) : string :=
  let '(y, m, d) := civil_from_days (Day t) in
  let year :=
    if (0 <=? y) && (y <=? 9999) then pad 4 y ""
    else String (if y <? 0 then "-"%char else "+"%char) (pad 6 (Z.abs y) "") in
  year +:+ "-" +:+ pad 2 m "" +:+ "-" +:+ pad 2 d "".

Definition digit (c : ascii) : option Z :=
  let n := Z.of_N (N_of_ascii c) in
  if (48 <=? n) && (n <=? 57) then Some (n - 48) else None.

Fixpoint number (s : string) (acc : Z) : option Z :=
  match s with
  | EmptyString => Some acc
  | String c s' =>
      match digit c with
      | Some n => number s' (10 * acc + n)
      | None => None
      end
  end.

(** The digits of [s] between [start] and [start + len], as a number. *)
Definition field (s : string) (start len : nat) : option Z :=
  let f := substring start len s in
  if Nat.eqb (String.length f) len then number f 0 else None.

(** The fields of a date-time string without offset whose year is written
    with [w] digits: "Y..Y-MM-DDTHH:mm:ss".  Such a string denotes local
    time; [tz] is the offset of the local zone, in minutes east of UTC. *)
Definition parseFields (tz sign : Z) (w : nat) (s : string) : option Z :=
  if negb (Nat.eqb (String.length s) (w + 15)) then None else
  if negb (String.eqb (substring w 1 s) "-" && String.eqb (substring (w + 3) 1 s) "-"
           && String.eqb (substring (w + 6) 1 s) "T"
           && String.eqb (substring (w + 9) 1 s) ":"
           && String.eqb (substring (w + 12) 1 s) ":")
  then None else
  match field s 0 w, field s (w + 1) 2, field s (w + 4) 2,
        field s (w + 7) 2, field s (w + 10) 2, field s (w + 13) 2 with
  | Some y, Some m, Some d, Some hh, Some mm, Some ss =>
      let y := sign * y in
      if (1 <=? m) && (m <=? 12) && (1 <=? d) && (d <=? daysInMonth y m)
         && (hh <=? 23) && (mm <=? 59) && (ss <=? 59)
      then Some (days_from_civil y m d * msPerDay
                 + hh * 3600000 + mm * 60000 + ss * 1000 - tz * 60000)
      else None
  | _, _, _, _, _, _ => None
  end.

(** [TimeClip]: a date holds a time value of at most 8.64e15 ms on either
    side of the epoch, and is invalid beyond. *)
Definition TimeClip (time : Z) : option Z :=
  if Z.abs time <=? 8640000000000000 then Some time else None.

(** [new Date(s)] for the strings the page builds, a date of
    [toISOString] followed by a time of day: a four-digit year, or a sign
    and a six-digit year ("-000000" is not a year).  The date holds the
    parsed time clipped to the range of time values.  On any other string
    the result of [new Date] is left to the implementation, and the model
    takes the invalid date, [None]. *)
Definition parseLocal (tz : Z) (s : string) : option Z :=
  tv ← match s with
       | String "+" r => parseFields tz 1 6 r
       | String "-" r => if String.eqb (substring 0 6 r) "000000" then None
                         else parseFields tz (-1) 6 r
       | _ => parseFields tz 1 4 s
       end;
  TimeClip tv.

(** [a >= b] and [a <= b] on dates, false when either is invalid. *)
Definition geDate (a b : option Z) : bool :=
  match a, b with Some x, Some y => y <=? x | _, _ => false end.
Definition leDate (a b : option Z) : bool :=
  match a, b with Some x, Some y => x <=? y | _, _ => false end.

End JsDate.

(** ** JavaScript strings *)

Module JsString.

(** [StrWhiteSpaceChar] among the code units 0..255: TAB, LF, VT, FF, CR,
    SP and NBSP. *)
Definition isWhiteSpace (c : ascii) : bool :=
  let n := Z.of_N (N_of_ascii c) in
  ((9 <=? n) && (n <=? 13)) || (n =? 32) || (n =? 160).

Fixpoint trimStart (s : string) : string :=
  match s with
  | String c s' => if isWhiteSpace c then trimStart s' else s
  | EmptyString => EmptyString
  end.

(** The value of [c] as a digit in the given radix, if it is one. *)
Definition digitValue (radix : Z) (c : ascii) : option Z :=
  let n := Z.of_N (N_of_ascii c) in
  let v :=
    if (48 <=? n) && (n <=? 57) then Some (n - 48)
    else if (97 <=? n) && (n <=? 122) then Some (n - 87)
    else if (65 <=? n) && (n <=? 90) then Some (n - 55)
    else None in
  match v with
  | Some d => if d <? radix then Some d else None
  | None => None
  end.

(** The longest prefix of [s] made of digits, as a number; [acc] is [None]
    until a first digit is read. *)
Fixpoint digits (radix : Z) (s : string) (acc : option Z) : option Z :=
  match s with
  | String c s' =>
      match digitValue radix c with
      | Some d => digits radix s' (Some (radix * default 0 acc + d))
      | None => acc
      end
  | EmptyString => acc
  end.

(** [parseInt(s)] with no radix argument; [None] is NaN.  Leading white
    space is skipped, a sign is read, a "0x" prefix selects radix 16, and
    the digits stop at the first character that is not one. *)
Definition parseInt (s : string) : option Z :=
  let s1 := trimStart s in
  let '(sign, s2) :=
    match s1 with
    | String "-" r => (-1, r)
    | String "+" r => (1, r)
    | _ => (1, s1)
    end in
  let '(radix, s3) :=
    match s2 with
    | String "0" (String "x" r) => (16, r)
    | String "0" (String "X" r) => (16, r)
    | _ => (10, s2)
    end in
  match digits radix s3 None with
  | Some n => Some (sign * n)
  | None => None
  end.

(** [parseInt(x) || 0] where [x] is an array element that may be
    [undefined]: [parseInt(undefined)] parses the string "undefined", and
    NaN and zero are both falsy. *)
Definition parseIntOr0 (x : option string) : Z :=
  default 0 (parseInt (default "undefined" x)).

(** [s.split(sep)] for a one-character separator. *)
Fixpoint split (sep : ascii) (s : string) : list string :=
  match s with
  | EmptyString => [""]
  | String c s' =>
      if Ascii.eqb c sep then "" :: split sep s'
      else match split sep s' with
           | h :: t => String c h :: t
           | [] => [String c ""]
           end
  end.

(** [a >= b] and [a <= b] on strings: code unit order. *)
Definition ge (a b : string) : bool := String.leb b a.
Definition le (a b : string) : bool := String.leb a b.

End JsString.

(** The collation of the runtime, behind [a.localeCompare(b)]: negative,
    zero or positive as [a] sorts before, with or after [b]. *)
Class Collator := localeCompare : string -> string -> Z.

(** A collation by code units, used to run the model on examples. *)
Definition codeUnitCollator : Collator :=
  fun a b =>
    match String.compare a b with
    | Lt => -1
    | Eq => 0
    | Gt => 1
    end.

(** ** Data model *)

Module Task.
Record t := mk {
  id : string;
  title : string;
  status : string;
  assignee_id : option string
}.
End Task.

Module TimeEntry.
Record t := mk {
  id : string;
  task_id : string;
  user_id : string;
  minutes : Z;
  description : option string;
  started_at : option Z;
  ended_at : option Z;
  created_at : Z
}.
End TimeEntry.

Module TimesheetTaskData.
Record t := mk {
  task_id : string;
  task_title : string;
  task_status : string;
  assignee_id : option string;
  daily_time : gmap string Z;
  total_minutes : Z
}.
End TimesheetTaskData.

Module TimesheetData.
Record t := mk {
  tasks : list TimesheetTaskData.t;
  daily_totals : gmap string Z;
  week_total : Z
}.
End TimesheetData.

(** The result of a server action: [{ data }] or [{ error }]. *)
Inductive Result (A : Type) : Type :=
| Data (data : A)
| Error (message : string).
Arguments Data {A} data.
Arguments Error {A} message.

(** ** The persistence collaborator *)

(** Modelled from the spec: the persistence collaborator, whose schema is
    not among the sources.  It holds the tables the core reads and writes
    and the session of the requesting user ([None] when not
    authenticated), and stands for what the code cannot control: the
    clock, the identifiers handed out to new rows, and the requests that
    fail (the deletes of the rows listed in [delete_faults], every insert
    under [insert_fault], every query under [select_fault]).  A row
    inserted without [created_at] gets the time of the insertion. *)
Record Backend := mkBackend {
  session : option string;
  tasks : list Task.t;
  time_entries : list TimeEntry.t;
  next_id : N;
  clock : Z;
  delete_faults : list string;
  insert_fault : bool;
  select_fault : bool
}.

(** The message of a failed request. *)
Definition remoteFailure : string := "remote operation failed".

(** [.single()]: the row when the query matches exactly one. *)
Definition single {A} (rows : list A) : option A :=
  match rows with
  | [r] => Some r
  | _ => None
  end.

(** [x || null] on an optional string: the empty string is falsy. *)
Definition orNull (x : option string) : option string :=
  match x with
  | Some "" => None
  | _ => x
  end.

(** [.from('time_entries').insert(row).select().single()]: [row] lacks the
    columns the backend fills in, the identifier and [created_at]. *)
Definition insertTimeEntry (row : string -> Z -> TimeEntry.t) (b : Backend)
  : Result TimeEntry.t * Backend :=
  if insert_fault b then (Error remoteFailure, b)
  else
    let e := row ("te-" +:+ pretty (next_id b)) (clock b) in
    (Data e,
     mkBackend (session b) (tasks b) (time_entries b ++ [e]) (N.succ (next_id b))
       (clock b) (delete_faults b) (insert_fault b) (select_fault b)).

(** [.from('tasks').select('assignee_id').eq('id', taskId).single()]
    followed by [!task || task.assignee_id !== user.id]. *)
Definition notAssignee (taskId user : string) (b : Backend) : bool :=
  match single (filter (fun t => Task.id t = taskId) (tasks b)) with
  | Some task => negb (bool_decide (Task.assignee_id task = Some user))
  | None => true
  end.

Module AddManualTimeEntryInput.
Record t := mk {
  task_id : string;
  minutes : Z;
  description : option string
}.
End AddManualTimeEntryInput.

(** Enforce minimum 1 minute: [m < 1 ? 1 : m]. *)
Definition enforceMinimum (m : Z) : Z := if m <? 1 then 1 else m.

Definition addManualTimeEntry (input : AddManualTimeEntryInput.t) (b : Backend)
  : Result TimeEntry.t * Backend :=
  match session b with
  | None => (Error "Not authenticated", b)
  | Some user =>
      if notAssignee (AddManualTimeEntryInput.task_id input) user b
      then (Error "Not authorized to track time for this task", b)
      else
        let minutes := enforceMinimum (AddManualTimeEntryInput.minutes input) in
        insertTimeEntry
          (fun id now =>
             TimeEntry.mk id (AddManualTimeEntryInput.task_id input) user minutes
               (orNull (AddManualTimeEntryInput.description input)) None None now)
          b
  end.

(** [Math.round(n / d)] for integers [n] and [d > 0]: the nearest integer,
    a tie going up, [floor(n / d + 1/2)].  The floating-point quotient of
    an elapsed time by 60000 rounds to the same integer for any time a
    timer can show (below 2^52 ms). *)
Definition Math_round_div (n d : Z) : Z := (2 * n + d) / (2 * d).

(** [stopTimer(taskId, startedAt)]: [startedAt] is the instant the timer
    was started, [new Date()] reads the clock. *)
Definition stopTimer (taskId : string) (startedAt : Z) (b : Backend)
  : Result TimeEntry.t * Backend :=
  match session b with
  | None => (Error "Not authenticated", b)
  | Some user =>
      if notAssignee taskId user b
      then (Error "Not authorized to track time for this task", b)
      else
        let startTime := startedAt in
        let endTime := clock b in
        let calculatedMinutes := Math_round_div (endTime - startTime) (1000 * 60) in
        let minutes := enforceMinimum calculatedMinutes in
        insertTimeEntry
          (fun id now =>
             TimeEntry.mk id taskId user minutes None (Some startTime) (Some endTime) now)
          b
  end.

Definition deleteTimeEntry (timeEntryId : string) (b : Backend)
  : Result unit * Backend :=
  match session b with
  | None => (Error "Not authenticated", b)
  | Some user =>
      match single (filter (fun e => TimeEntry.id e = timeEntryId) (time_entries b)) with
      | None => (Error "Time entry not found", b)
      | Some timeEntry =>
          if negb (bool_decide (TimeEntry.user_id timeEntry = user))
          then (Error "Not authorized to delete this time entry", b)
          else if bool_decide (timeEntryId ∈ delete_faults b)
          then (Error remoteFailure, b)
          else
            (Data tt,
             mkBackend (session b) (tasks b)
               (filter (fun e => TimeEntry.id e ≠ timeEntryId) (time_entries b))
               (next_id b) (clock b) (delete_faults b) (insert_fault b) (select_fault b))
      end
  end.

(** ** The timesheet aggregator *)

(** A [Map<string, V>]: keys in insertion order, [set] on a present key
    replaces the value where it stands. *)
Fixpoint Map_set {V} (k : string) (v : V) (m : list (string * V)) : list (string * V) :=
  match m with
  | [] => [(k, v)]
  | (k', v') :: r => if String.eqb k' k then (k, v) :: r else (k', v') :: Map_set k v r
  end.

Fixpoint Map_get {V} (k : string) (m : list (string * V)) : option V :=
  match m with
  | [] => None
  | (k', v) :: r => if String.eqb k' k then Some v else Map_get k r
  end.

Definition Map_values {V} (m : list (string * V)) : list V := map snd m.

(** [!obj[key]]: the key is absent or holds zero. *)
Definition falsy (x : option Z) : bool :=
  match x with
  | None => true
  | Some v => v =? 0
  end.

(** [if (!obj[key]) obj[key] = 0; obj[key] += n]. *)
Definition addTo (key : string) (n : Z) (obj : gmap string Z) : gmap string Z :=
  let obj0 := if falsy (obj !! key) then <[key := 0]> obj else obj in
  <[key := default 0 (obj0 !! key) + n]> obj0.

(** The date an entry is attributed to: [started_at] if available,
    otherwise [created_at]. *)
Definition entryDate (entry : TimeEntry.t) : string :=
  match TimeEntry.started_at entry with
  | Some started => JsDate.isoDate started
  | None => JsDate.isoDate (TimeEntry.created_at entry)
  end.

Definition inRange (startDate endDate : string) (entry : TimeEntry.t) : bool :=
  JsString.ge (entryDate entry) startDate && JsString.le (entryDate entry) endDate.

Definition seedRow (task : Task.t) : TimesheetTaskData.t :=
  TimesheetTaskData.mk (Task.id task) (Task.title task) (Task.status task)
    (Task.assignee_id task) ∅ 0.

(** Initialize task map with all user's tasks. *)
Definition initTaskMap (tasks : list Task.t) : list (string * TimesheetTaskData.t) :=
  fold_left (fun m task => Map_set (Task.id task) (seedRow task) m) tasks [].

(** The row of a task after [minutes] were added to the day [date]. *)
Definition addToRow (date : string) (minutes : Z) (task : TimesheetTaskData.t)
  : TimesheetTaskData.t :=
  TimesheetTaskData.mk
    (TimesheetTaskData.task_id task) (TimesheetTaskData.task_title task)
    (TimesheetTaskData.task_status task) (TimesheetTaskData.assignee_id task)
    (addTo date minutes (TimesheetTaskData.daily_time task))
    (TimesheetTaskData.total_minutes task + minutes).

(** The body of the loop over the time entries: the state is the task map
    and [dailyTotals]. *)
Definition processEntry (startDate endDate : string)
  (st : list (string * TimesheetTaskData.t) * gmap string Z) (entry : TimeEntry.t)
  : list (string * TimesheetTaskData.t) * gmap string Z :=
  let '(taskMap, dailyTotals) := st in
  if inRange startDate endDate entry then
    match Map_get (TimeEntry.task_id entry) taskMap with
    | Some task =>
        (Map_set (TimeEntry.task_id entry)
           (addToRow (entryDate entry) (TimeEntry.minutes entry) task) taskMap,
         addTo (entryDate entry) (TimeEntry.minutes entry) dailyTotals)
    | None =>
        (taskMap, addTo (entryDate entry) (TimeEntry.minutes entry) dailyTotals)
    end
  else st.

(** The comparator of the sort: total minutes descending, then title. *)
Definition compareRows `{collation : Collator} (a b : TimesheetTaskData.t) : Z :=
  if negb (TimesheetTaskData.total_minutes b =? TimesheetTaskData.total_minutes a)
  then TimesheetTaskData.total_minutes b - TimesheetTaskData.total_minutes a
  else localeCompare (TimesheetTaskData.task_title a) (TimesheetTaskData.task_title b).

(** [Array.prototype.sort(cmp)]: the language asks for a stable sort that
    orders by [cmp] when [cmp] is a consistent comparator; it is modelled
    by insertion, an element going before the first one it does not sort
    after. *)
Fixpoint insertSorted {A} (cmp : A -> A -> Z) (x : A) (l : list A) : list A :=
  match l with
  | [] => [x]
  | y :: r => if cmp x y <=? 0 then x :: l else y :: insertSorted cmp x r
  end.

Definition sort {A} (cmp : A -> A -> Z) (l : list A) : list A :=
  foldr (insertSorted cmp) [] l.

(** [Object.values(obj).reduce((sum, minutes) => sum + minutes, 0)]. *)
Definition sumValues (obj : gmap string Z) : Z :=
  map_fold (fun _ minutes sum => sum + minutes) 0 obj.

(** The aggregation proper: [getTimesheetData] once both queries have
    returned. *)
Definition aggregate `{collation : Collator} (timeEntries : list TimeEntry.t)
  (tasks : list Task.t) (startDate endDate : string) : TimesheetData.t :=
  let '(taskMap, dailyTotals) :=
    fold_left (processEntry startDate endDate) timeEntries (initTaskMap tasks, ∅) in
  let sortedTasks := sort compareRows (Map_values taskMap) in
  let weekTotal := sumValues dailyTotals in
  TimesheetData.mk sortedTasks dailyTotals weekTotal.

(** [.order('created_at', { ascending: true })]. *)
Definition orderByCreatedAt (rows : list TimeEntry.t) : list TimeEntry.t :=
  sort (fun a b => TimeEntry.created_at a - TimeEntry.created_at b) rows.

Definition getTimesheetData `{collation : Collator} (startDate endDate : string) (b : Backend)
  : Result TimesheetData.t :=
  match session b with
  | None => Error "Not authenticated"
  | Some user =>
      if select_fault b then Error remoteFailure
      else
        let timeEntries :=
          orderByCreatedAt
            (filter (fun e => TimeEntry.user_id e = user) (time_entries b)) in
        let tasks := filter (fun t => Task.assignee_id t = Some user) (tasks b) in
        Data (aggregate timeEntries tasks startDate endDate)
  end.

(** ** The timesheet page

    A handler runs against the world: the backend, the remote calls issued
    so far and the alerts shown so far.  The page state is what the render
    that installed the handler saw. *)

Module Cell.
Record t := mk {
  taskId : string;
  date : string
}.
End Cell.

Record Page := mkPage {
  timesheetData : option TimesheetData.t;
  editingCell : option Cell.t;
  editValue : string;
  contextMenu : option Cell.t;
  startDateStr : string;
  endDateStr : string
}.

(** The browser: the offset of its time zone, in minutes east of UTC and
    taken constant over the dates at hand, and the answer given to
    [confirm]. *)
Record Browser := mkBrowser {
  tz : Z;
  confirms : bool
}.

Inductive RemoteCall : Type :=
| AuthGetUser
| SelectTimeEntries (taskId userId : string)
| CallDeleteTimeEntry (timeEntryId : string)
| CallAddManualTimeEntry (input : AddManualTimeEntryInput.t)
| CallGetTimesheetData (startDate endDate : string).

Record World := mkWorld {
  backend : Backend;
  calls : list RemoteCall;
  alerts : list string
}.

Definition Client (A : Type) : Type := World -> A * World.

Definition ret {A} (a : A) : Client A := fun w => (a, w).

Definition bind {A B} (c : Client A) (k : A -> Client B) : Client B :=
  fun w => let '(a, w') := c w in k a w'.

Notation "'await' x <- c ;; k" := (bind c (fun x => k))
  (at level 10, x name, c at level 99, k at level 200).

(** An awaited request: it is recorded, and acts on the backend. *)
Definition call {A} (request : RemoteCall) (act : Backend -> A * Backend) : Client A :=
  fun w =>
    let '(a, b) := act (backend w) in
    (a, mkWorld b (calls w ++ [request]) (alerts w)).

Definition alert (message : string) : Client unit :=
  fun w => (tt, mkWorld (backend w) (calls w) (alerts w ++ [message])).

(** [supabaseBrowser.auth.getUser()]. *)
Definition authGetUser : Client (option string) :=
  call AuthGetUser (fun b => (session b, b)).

(** [supabaseBrowser.from('time_entries').select('id, started_at,
    created_at').eq('task_id', taskId).eq('user_id', userId)]; [None] is
    the null data of a failed query. *)
Definition selectTimeEntries (taskId userId : string) : Client (option (list TimeEntry.t)) :=
  call (SelectTimeEntries taskId userId)
    (fun b =>
       (if select_fault b then None
        else Some (filter (fun e => TimeEntry.task_id e = taskId
                                    ∧ TimeEntry.user_id e = userId) (time_entries b)),
        b)).

Definition loadTimesheetData `{collation : Collator} (p : Page) : Client Page :=
  await result <- call (CallGetTimesheetData (startDateStr p) (endDateStr p))
              (fun b => (getTimesheetData (startDateStr p) (endDateStr p) b, b)) ;;
  match result with
  | Error _ => ret p
  | Data data =>
      ret (mkPage (Some data) (editingCell p) (editValue p) (contextMenu p)
             (startDateStr p) (endDateStr p))
  end.

(** The entries of the fetched list that the handlers take to be of the
    day [date]: those whose instant ([started_at], else [created_at]) lies
    between [new Date(date + 'T00:00:00')] and
    [new Date(date + 'T23:59:59')], both read in local time. *)
Definition entriesToDelete (br : Browser) (date : string) (timeEntries : list TimeEntry.t)
  : list TimeEntry.t :=
  let dateStart := JsDate.parseLocal (tz br) (date +:+ "T00:00:00") in
  let dateEnd := JsDate.parseLocal (tz br) (date +:+ "T23:59:59") in
  List.filter
    (fun entry =>
       let entryDate :=
         match TimeEntry.started_at entry with
         | Some started => Some started
         | None => Some (TimeEntry.created_at entry)
         end in
       JsDate.geDate entryDate dateStart && JsDate.leDate entryDate dateEnd)
    timeEntries.

(** The delete loop of [handleDeleteTimeForDay]: it stops at the first
    delete that fails, and alerts. *)
Fixpoint deleteUntilError (entries : list TimeEntry.t) : Client unit :=
  match entries with
  | [] => ret tt
  | entry :: rest =>
      await result <- call (CallDeleteTimeEntry (TimeEntry.id entry))
                  (deleteTimeEntry (TimeEntry.id entry)) ;;
      match result with
      | Error message => alert message
      | Data _ => deleteUntilError rest
      end
  end.

(** The delete loop of [handleCellSave]: the result of a delete is not
    looked at. *)
Fixpoint deleteEach (entries : list TimeEntry.t) : Client unit :=
  match entries with
  | [] => ret tt
  | entry :: rest =>
      await _ <- call (CallDeleteTimeEntry (TimeEntry.id entry))
             (deleteTimeEntry (TimeEntry.id entry)) ;;
      deleteEach rest
  end.

Definition handleDeleteTimeForDay `{collation : Collator} (br : Browser)
  (taskId date : string) (p : Page) : Client Page :=
  if negb (confirms br) then ret p
  else
    await user <- authGetUser ;;
    match user with
    | None => ret p
    | Some user =>
        await timeEntries <- selectTimeEntries taskId user ;;
        match timeEntries with
        | None => ret p
        | Some [] => ret p
        | Some timeEntries =>
            await _ <- deleteUntilError (entriesToDelete br date timeEntries) ;;
            loadTimesheetData
              (mkPage (timesheetData p) (editingCell p) (editValue p) None
                 (startDateStr p) (endDateStr p))
        end
    end.

(** [hours * 60 + minutes] of the edited text, split at ':'. *)
Definition parseTotalMinutes (editValue : string) : Z :=
  let parts := JsString.split ":" editValue in
  let hours := JsString.parseIntOr0 (parts !! 0%nat) in
  let minutes := JsString.parseIntOr0 (parts !! 1%nat) in
  hours * 60 + minutes.

(** [task?.daily_time[date] || 0] in the report last loaded. *)
Definition currentMinutes (p : Page) (cell : Cell.t) : Z :=
  let task :=
    match timesheetData p with
    | Some data =>
        find (fun t => String.eqb (TimesheetTaskData.task_id t) (Cell.taskId cell))
          (TimesheetData.tasks data)
    | None => None
    end in
  match task with
  | Some t => default 0 (TimesheetTaskData.daily_time t !! Cell.date cell)
  | None => 0
  end.

(** The call of [addManualTimeEntry] made by the page, and the alert on an
    error. *)
Definition saveTimeEntry (cell : Cell.t) (minutes : Z) : Client unit :=
  let input :=
    AddManualTimeEntryInput.mk (Cell.taskId cell) minutes
      (Some ("Timesheet entry for " +:+ Cell.date cell)) in
  await result <- call (CallAddManualTimeEntry input) (addManualTimeEntry input) ;;
  match result with
  | Error message => alert message
  | Data _ => ret tt
  end.

(** The branch [difference < 0]: delete the entries of the day, then add
    the new amount if it is positive. *)
Definition reduceCell (br : Browser) (cell : Cell.t) (totalMinutes : Z) : Client unit :=
  await user <- authGetUser ;;
  match user with
  | None => ret tt
  | Some user =>
      await timeEntries <- selectTimeEntries (Cell.taskId cell) user ;;
      await _ <- match timeEntries with
           | Some timeEntries => deleteEach (entriesToDelete br (Cell.date cell) timeEntries)
           | None => ret tt
           end ;;
      if 0 <? totalMinutes then saveTimeEntry cell totalMinutes else ret tt
  end.

Definition handleCellSave `{collation : Collator} (br : Browser) (p : Page) : Client Page :=
  match editingCell p with
  | None => ret p
  | Some cell =>
      let totalMinutes := parseTotalMinutes (editValue p) in
      if totalMinutes <? 0 then
        await _ <- alert "Time cannot be negative" ;; ret p
      else
        let totalMinutes :=
          if (0 <? totalMinutes) && (totalMinutes <? 1) then 1 else totalMinutes in
        let difference := totalMinutes - currentMinutes p cell in
        await p' <- (if negb (difference =? 0) then
                 await _ <- (if difference <? 0 then reduceCell br cell totalMinutes
                       else saveTimeEntry cell difference) ;;
                 loadTimesheetData p
               else ret p) ;;
        ret (mkPage (timesheetData p') None "" (contextMenu p')
               (startDateStr p') (endDateStr p'))
  end.

(** A world in which nothing was called or shown yet. *)
Definition freshWorld (b : Backend) : World := mkWorld b [] [].

(** ** Notions the properties are stated with *)

(** The sum of the minutes of a list of entries. *)
Definition sumMinutes (entries : list TimeEntry.t) : Z :=
  foldr (fun entry sum => TimeEntry.minutes entry + sum) 0 entries.

(** The entries attributed to the day [date]. *)
Definition onDate (date : string) (entry : TimeEntry.t) : bool :=
  String.eqb (entryDate entry) date.

(** The entries of the task [taskId]. *)
Definition ofTask (taskId : string) (entry : TimeEntry.t) : bool :=
  String.eqb taskId (TimeEntry.task_id entry).

(** The entries of one of the tasks with the ids [taskIds]. *)
Definition ofTasks (taskIds : list string) (entry : TimeEntry.t) : bool :=
  existsb (fun taskId => ofTask taskId entry) taskIds.

(** The sum of the totals of a list of rows. *)
Definition sumTotals (rows : list TimesheetTaskData.t) : Z :=
  foldr (fun row sum => TimesheetTaskData.total_minutes row + sum) 0 rows.

(** The minutes of [entries] summed task by task over [taskIds]. *)
Definition sumByTask (taskIds : list string) (entries : list TimeEntry.t) : Z :=
  foldr (fun taskId sum => sumMinutes (List.filter (ofTask taskId) entries) + sum) 0 taskIds.

(** [a] may stand before [b] in the report: more minutes, or as many and a
    title that does not sort after. *)
Definition rowOrder `{collation : Collator} (a b : TimesheetTaskData.t) : Prop :=
  TimesheetTaskData.total_minutes b < TimesheetTaskData.total_minutes a
  \/ (TimesheetTaskData.total_minutes a = TimesheetTaskData.total_minutes b
      /\ localeCompare (TimesheetTaskData.task_title a) (TimesheetTaskData.task_title b)
         <= 0).

(** [dailyTotals] after the entries of [entries] were added to [totals]. *)
Definition addEntries (entries : list TimeEntry.t) (totals : gmap string Z) : gmap string Z :=
  fold_left (fun totals entry => addTo (entryDate entry) (TimeEntry.minutes entry) totals)
    entries totals.

(** What one turn of the loop does to the row stored under a key, and
    what the whole loop does to it. *)
Definition stepRow (startDate endDate : string) (entry : TimeEntry.t)
  (kr : string * TimesheetTaskData.t) : string * TimesheetTaskData.t :=
  if inRange startDate endDate entry && ofTask kr.1 entry
  then (kr.1, addToRow (entryDate entry) (TimeEntry.minutes entry) kr.2)
  else kr.

Definition rowAfter (startDate endDate : string) (entries : list TimeEntry.t)
  (kr : string * TimesheetTaskData.t) : string * TimesheetTaskData.t :=
  fold_left (fun kr entry => stepRow startDate endDate entry kr) entries kr.


(** [initTaskMap] from a map that already holds rows. *)
Definition seedAll (tasks : list Task.t) (m : list (string * TimesheetTaskData.t))
  : list (string * TimesheetTaskData.t) :=
  fold_left (fun m task => Map_set (Task.id task) (seedRow task) m) tasks m.

(** The shape the specification asks of an edited value, "H:MM": one or
    more decimal digits, a colon, two decimal digits. *)
Definition isDigit (c : ascii) : bool := bool_decide (is_Some (JsDate.digit c)).

Definition isHMM (s : string) : bool :=
  match JsString.split ":" s with
  | [h; m] =>
      negb (String.eqb h "") && forallb isDigit (list_ascii_of_string h)
      && Nat.eqb (String.length m) 2 && forallb isDigit (list_ascii_of_string m)
  | _ => false
  end.

(** An entry was there before, or it has at least one minute. *)
Definition oldOrMinuted (b b' : Backend) : Prop :=
  forall e, In e (time_entries b') -> In e (time_entries b) \/ 1 <= TimeEntry.minutes e.

(** A client computation whose effect on the backend stays within [R]. *)
Definition keeps (R : Backend -> Backend -> Prop) {A} (c : Client A) : Prop :=
  forall w, R (backend w) (backend (c w).2).

(** ** A week of January 2024, for running the model *)

Module Scenario.

Definition taskA : Task.t := Task.mk "A" "Alpha" "todo" (Some "u1").
Definition taskB : Task.t := Task.mk "B" "Beta" "in_progress" (Some "u1").

(** 2024-01-03T12:00:00Z. *)
Definition wednesdayNoon : Z := 1704283200000.

Definition utc : Browser := mkBrowser 0 true.
(** A browser one hour east of UTC. *)
Definition cet : Browser := mkBrowser 60 true.

Definition backendWith (entries : list TimeEntry.t) (faults : list string) : Backend :=
  mkBackend (Some "u1") [taskA; taskB] entries 100 wednesdayNoon faults false false.

(** The page showing the week 2023-12-31 .. 2024-01-06 of the backend [b],
    with the cell [cell] being edited to [value]. *)
Definition pageOf (b : Backend) (cell : Cell.t) (value : string) : Page :=
  (loadTimesheetData (collation := codeUnitCollator)
     (mkPage None (Some cell) value None "2023-12-31" "2024-01-06") (freshWorld b)).1.

Definition save (br : Browser) (b : Backend) (cell : Cell.t) (value : string) : Page * World :=
  handleCellSave (collation := codeUnitCollator) br (pageOf b cell value) (freshWorld b).

Definition deleteDay (br : Browser) (b : Backend) (cell : Cell.t) : Page * World :=
  handleDeleteTimeForDay (collation := codeUnitCollator) br
    (Cell.taskId cell) (Cell.date cell) (pageOf b cell "") (freshWorld b).

(** An entry of task A started at 2024-01-01T23:59:59.500Z. *)
Definition lateEntry : TimeEntry.t :=
  TimeEntry.mk "te-1" "A" "u1" 45 None (Some 1704153599500) (Some 1704153599500)
    1704153599500.

(** An entry of task A started at 2024-01-01T23:30:00Z. *)
Definition eveningEntry : TimeEntry.t :=
  TimeEntry.mk "te-1" "A" "u1" 45 None (Some 1704151800000) (Some 1704151800000)
    1704151800000.

(** Two entries of task A on 2024-01-03, at 09:00Z and 10:00Z. *)
Definition morning1 : TimeEntry.t :=
  TimeEntry.mk "te-1" "A" "u1" 30 None (Some 1704272400000) (Some 1704274200000)
    1704274200000.
Definition morning2 : TimeEntry.t :=
  TimeEntry.mk "te-2" "A" "u1" 30 None (Some 1704276000000) (Some 1704277800000)
    1704277800000.

End Scenario.


(** ** Notions for the effect of the handlers on the entries *)

(** An entry that an edit of a cell of [taskId] has no business with: of
    another task, or of another user than the one of the session. *)
Definition foreign (b : Backend) (taskId : string) (entry : TimeEntry.t) : bool :=
  negb (ofTask taskId entry)
  || negb (bool_decide (session b = Some (TimeEntry.user_id entry))).

(** What no handler of the page touches: the session, the tasks and the
    faults of the backend. *)
Definition sameTables (b b' : Backend) : Prop :=
  session b' = session b /\ tasks b' = tasks b /\ clock b' = clock b
  /\ select_fault b' = select_fault b /\ insert_fault b' = insert_fault b
  /\ delete_faults b' = delete_faults b.

(** The entries of [b'] that pass [keep] are those of [b], and the rest of
    the backend is the same. *)
Definition framed (keep : TimeEntry.t -> bool) (b b' : Backend) : Prop :=
  List.filter keep (time_entries b') = List.filter keep (time_entries b)
  /\ sameTables b b'.

(** The entries that count for a cell of the report of [user] over the
    range: the user's own, dated in the range, of the task and of the day of the
    cell. *)
Definition inCell (user startDate endDate : string) (cell : Cell.t)
  (entry : TimeEntry.t) : bool :=
  bool_decide (TimeEntry.user_id entry = user)
  && inRange startDate endDate entry
  && ofTask (Cell.taskId cell) entry
  && onDate (Cell.date cell) entry.

(** The task [taskId] is among those assigned to [user]. *)
Definition assignedTo (user : string) (tasks : list Task.t) (taskId : string) : bool :=
  existsb (String.eqb taskId)
    (map Task.id (filter (fun t => Task.assignee_id t = Some user) tasks)).

(** The page once the edit is closed: [setEditingCell(null)] and
    [setEditValue("")]. *)
Definition closeEdit (p : Page) : Page :=
  mkPage (timesheetData p) None "" (contextMenu p) (startDateStr p) (endDateStr p).


(** ** Opening a cell *)

(** [n.toString()] of an integer: its decimal digits, after a minus sign
    when it is negative. *)
Definition Number_toString (n : Z) : string := pretty n.

(** [s.padStart(target, c)] for a one-character filler. *)
Definition padStart (target : nat) (c : ascii) (s : string) : string :=
  string_of_list_ascii (repeat c (target - String.length s)) +:+ s.

(** The text [handleCellClick] puts in the editor for a cell that holds
    [minutes]: [hours] is [Math.floor(minutes / 60)] and [mins] is
    [minutes % 60], the remainder with the sign of [minutes]. *)
Definition editText (minutes : Z) : string :=
  let hours := minutes / 60 in
  let mins := Z.rem minutes 60 in
  if (0 <? hours) || (0 <? mins)
  then Number_toString hours +:+ ":" +:+ padStart 2 "0" (Number_toString mins)
  else "".

(** [handleCellClick]: the secondary button, 2, opens the context menu of a
    cell that holds time; any other button opens the editor.  The page
    keeps the cell of the menu, not the place of the pointer. *)
Definition handleCellClick (button : Z) (taskId date : string) (p : Page) : Page :=
  let minutes := currentMinutes p (Cell.mk taskId date) in
  if button =? 2 then
    if 0 <? minutes
    then mkPage (timesheetData p) (editingCell p) (editValue p)
           (Some (Cell.mk taskId date)) (startDateStr p) (endDateStr p)
    else p
  else
    mkPage (timesheetData p) (Some (Cell.mk taskId date)) (editText minutes)
      (contextMenu p) (startDateStr p) (endDateStr p).

(** A string of decimal digits only. *)
Fixpoint decimal (s : string) : Prop :=
  match s with
  | EmptyString => True
  | String c r => isDigit c = true /\ decimal r
  end.

(** The entries whose id is not that of one of [picked]. *)
Definition notPicked (picked : list TimeEntry.t) (entry : TimeEntry.t) : bool :=
  negb (existsb (String.eqb (TimeEntry.id entry)) (map TimeEntry.id picked)).


(** ** Dates of the browser

    A [Date] object holds a time value, or is invalid: [None], the NaN of
    ECMAScript.  A number read from an invalid date is NaN, [None] as well,
    and arithmetic on NaN gives NaN.  Local time is UTC shifted by the
    offset [tz] of the zone, in minutes east of UTC. *)

Module Number.

Definition add (a b : option Z) : option Z := x ← a; y ← b; Some (x + y).
Definition sub (a b : option Z) : option Z := x ← a; y ← b; Some (x - y).

(** [a === b]: NaN is equal to nothing. *)
Definition eq (a b : option Z) : bool :=
  match a, b with Some x, Some y => x =? y | _, _ => false end.

End Number.

Module Date.

Definition t : Type := option Z.

Definition LocalTime (tz time : Z) : Z := time + tz * 60000.
Definition UTC (tz time : Z) : Z := time - tz * 60000.

Definition TimeWithinDay (time : Z) : Z := time mod JsDate.msPerDay.
Definition WeekDay (time : Z) : Z := (JsDate.Day time + 4) mod 7.
Definition YearFromTime (time : Z) : Z := (JsDate.civil_from_days (JsDate.Day time)).1.1.
(** Months count from 0. *)
Definition MonthFromTime (time : Z) : Z := (JsDate.civil_from_days (JsDate.Day time)).1.2 - 1.
Definition DateFromTime (time : Z) : Z := (JsDate.civil_from_days (JsDate.Day time)).2.

Definition MakeTime (hour min sec ms : Z) : Z :=
  hour * 3600000 + min * 60000 + sec * 1000 + ms.

(** The day number of the day [date] of the month [month] (from 0, and
    carried into the year when outside 0..11) of [year]; [date] counts on
    from the first of the month, below 1 and beyond its end. *)
Definition MakeDay (year month date : Z) : Z :=
  JsDate.days_from_civil (year + month / 12) (month mod 12 + 1) 1 + date - 1.

Definition MakeDate (day time : Z) : Z := day * JsDate.msPerDay + time.

Definition getFullYear (tz : Z) (d : t) : option Z :=
  time ← d; Some (YearFromTime (LocalTime tz time)).
Definition getMonth (tz : Z) (d : t) : option Z :=
  time ← d; Some (MonthFromTime (LocalTime tz time)).
Definition getDate (tz : Z) (d : t) : option Z :=
  time ← d; Some (DateFromTime (LocalTime tz time)).
Definition getDay (tz : Z) (d : t) : option Z :=
  time ← d; Some (WeekDay (LocalTime tz time)).

(** [d.setDate(date)]: the date after the call. *)
Definition setDate (tz : Z) (d : t) (date : option Z) : t :=
  time ← d; dt ← date;
  let local := LocalTime tz time in
  JsDate.TimeClip (UTC tz (MakeDate (MakeDay (YearFromTime local) (MonthFromTime local) dt)
                      (TimeWithinDay local))).

(** [d.setHours(hour, min, sec, ms)]: the date after the call. *)
Definition setHours (tz : Z) (d : t) (hour min sec ms : Z) : t :=
  time ← d;
  JsDate.TimeClip (UTC tz (MakeDate (JsDate.Day (LocalTime tz time)) (MakeTime hour min sec ms))).

(** [new Date(year, month, date)]: a year from 0 to 99 stands for 1900 +
    year. *)
Definition make (tz : Z) (year month date : option Z) : t :=
  y ← year; m ← month; dt ← date;
  let yr := if (0 <=? y) && (y <=? 99) then 1900 + y else y in
  JsDate.TimeClip (UTC tz (MakeDate (MakeDay yr m dt) (MakeTime 0 0 0 0))).

(** [d.toISOString().split('T')[0]]; [toISOString] throws on an invalid
    date, which is [None]. *)
Definition isoDate (d : t) : option string := JsDate.isoDate <$> d.

End Date.

(** ** The week of the timesheet page *)

Module WeekDates.
(** [end_] is the field [end] of the source. *)
Record t := mk {
  start : Date.t;
  end_ : Date.t;
  dates : list Date.t
}.
End WeekDates.

(** The source changes [start] and [end] in place, [setDate] before
    [setHours]; the model names the date after both calls. *)
Definition getWeekDates (tz : Z) (date : Date.t) : WeekDates.t :=
  let dateCopy := date in
  let day := Date.getDay tz dateCopy in
  let diff := Number.sub (Date.getDate tz dateCopy) day in
  let start := Date.setHours tz (Date.setDate tz dateCopy diff) 0 0 0 0 in
  let end_ :=
    Date.setHours tz (Date.setDate tz start (Number.add (Date.getDate tz start) (Some 6)))
      23 59 59 999 in
  let dates :=
    map (fun i => Date.setDate tz start (Number.add (Date.getDate tz start) (Some i)))
      (seqZ 0 7) in
  WeekDates.mk start end_ dates.

(** The new [currentWeek] after the handlers of the two week buttons;
    [now] is [new Date()]. *)
Definition handlePreviousWeek (tz : Z) (currentWeek : Date.t) : Date.t :=
  let newDate := currentWeek in
  Date.setDate tz newDate (Number.sub (Date.getDate tz newDate) (Some 7)).

Definition handleNextWeek (tz : Z) (now : Z) (currentWeek : Date.t) : Date.t :=
  let newDate := currentWeek in
  let newDate := Date.setDate tz newDate (Number.add (Date.getDate tz newDate) (Some 7)) in
  if JsDate.leDate newDate (Some now) then newDate else currentWeek.

(** The range the page asks for and the keys of its seven columns. *)
Definition weekRange (tz : Z) (currentWeek : Date.t) : option (string * string) :=
  let weekDates := getWeekDates tz currentWeek in
  startDateStr ← Date.isoDate (WeekDates.start weekDates);
  endDateStr ← Date.isoDate (WeekDates.end_ weekDates);
  Some (startDateStr, endDateStr).

Definition columnKeys (tz : Z) (currentWeek : Date.t) : option (list string) :=
  mapM Date.isoDate (WeekDates.dates (getWeekDates tz currentWeek)).

(** ** The calendar of the week picker *)

Module Calendar.

(** A loop over [startDay - 1 .. 0] or [1 .. lastDay.getDate()] does not
    run when its bound is NaN. *)
Definition getDaysInMonth (tz : Z) (date : Date.t) : list Date.t :=
  let year := Date.getFullYear tz date in
  let month := Date.getMonth tz date in
  let firstDay := Date.make tz year month (Some 1) in
  let lastDay := Date.make tz year (Number.add month (Some 1)) (Some 0) in
  let startDay := Date.getDay tz firstDay in
  let previous :=
    match startDay with
    | Some startDay =>
        map (fun i => Date.make tz year month (Some (- i))) (reverse (seqZ 0 startDay))
    | None => []
    end in
  let current :=
    match Date.getDate tz lastDay with
    | Some last => map (fun day => Date.make tz year month (Some day)) (seqZ 1 last)
    | None => []
    end in
  let days := (previous ++ current)%list in
  let remaining := 42 - Z.of_nat (length days) in
  (days ++ map (fun day => Date.make tz year (Number.add month (Some 1)) (Some day))
             (seqZ 1 remaining))%list.

Definition isSameDay (tz : Z) (date1 date2 : Date.t) : bool :=
  Number.eq (Date.getFullYear tz date1) (Date.getFullYear tz date2)
  && Number.eq (Date.getMonth tz date1) (Date.getMonth tz date2)
  && Number.eq (Date.getDate tz date1) (Date.getDate tz date2).

Definition isInWeek (tz : Z) (date weekStart : Date.t) : bool :=
  let weekEnd := Date.setDate tz weekStart (Number.add (Date.getDate tz weekStart) (Some 6)) in
  JsDate.geDate date weekStart && JsDate.leDate date weekEnd.

(** [getWeekStart(date)] changes its argument: [date.setDate(diff)].  The
    result is the returned date and the argument after the call. *)
Definition getWeekStart (tz : Z) (date : Date.t) : Date.t * Date.t :=
  let day := Date.getDay tz date in
  let diff := Number.sub (Date.getDate tz date) day in
  let date := Date.setDate tz date diff in
  let weekStart := Date.setHours tz date 0 0 0 0 in
  (weekStart, date).

(** The flags of a cell of the grid.  The component calls
    [getWeekStart(selectedDate)] before it draws the cells, so a cell is
    compared with [selectedDate] as that call left it. *)
Definition selectedWeekStart (tz : Z) (selectedDate : Date.t) : Date.t :=
  (getWeekStart tz selectedDate).1.

Definition isCurrentMonth (tz : Z) (currentMonth date : Date.t) : bool :=
  Number.eq (Date.getMonth tz date) (Date.getMonth tz currentMonth).

Definition isSelected (tz : Z) (selectedDate date : Date.t) : bool :=
  isSameDay tz date (getWeekStart tz selectedDate).2.

Definition isInSelectedWeek (tz : Z) (selectedDate date : Date.t) : bool :=
  isInWeek tz date (selectedWeekStart tz selectedDate).

(** What a cell shows of the selection, the two classes of its button that
    depend on it: the style of the selected day, "bg-[#6295ff] text-white
    font-semibold", is drawn for [isSelected]; the week style,
    "bg-blue-500/20", for [isInSelectedWeek && isCurrentMonth]. *)
Definition weekStyle (tz : Z) (selectedDate currentMonth date : Date.t) : bool :=
  isInSelectedWeek tz selectedDate date && isCurrentMonth tz currentMonth date.

(** [currentMonth] as the component first sets it, and after the handlers
    of the two month buttons. *)
Definition initialMonth (tz : Z) (selectedDate : Date.t) : Date.t :=
  Date.make tz (Date.getFullYear tz selectedDate) (Date.getMonth tz selectedDate) (Some 1).

Definition handlePreviousMonth (tz : Z) (currentMonth : Date.t) : Date.t :=
  Date.make tz (Date.getFullYear tz currentMonth)
    (Number.sub (Date.getMonth tz currentMonth) (Some 1)) (Some 1).

Definition handleNextMonth (tz : Z) (maxDate currentMonth : Date.t) : Date.t :=
  let nextMonth :=
    Date.make tz (Date.getFullYear tz currentMonth)
      (Number.add (Date.getMonth tz currentMonth) (Some 1)) (Some 1) in
  if JsDate.leDate nextMonth maxDate then nextMonth else currentMonth.

End Calendar.

(** ** Notions for the calendar proofs *)

(** The day number of 1 March of the year [Y]. *)
Definition yearStart (Y : Z) : Z := 365 * Y + Y / 4 - Y / 100 + Y / 400 - 719468.

(** The dates of the calendar. *)
Definition civilDate (y m d : Z) : Prop :=
  1 <= m <= 12 /\ 1 <= d <= JsDate.daysInMonth y m.

(** The local midnight that begins the Sunday on or before [time]. *)
Definition localSunday (tz time : Z) : Z :=
  let local := Date.LocalTime tz time in
  Date.UTC tz ((JsDate.Day local - Date.WeekDay local) * JsDate.msPerDay).

(** The instants whose year [toISOString] writes with four digits. *)
Definition fourDigitYear (time : Z) : Prop := 0 <= Date.YearFromTime time <= 9999.

(** The instant an entry is dated by: [started_at], else [created_at]. *)
Definition entryInstant (entry : TimeEntry.t) : Z :=
  match TimeEntry.started_at entry with
  | Some started => started
  | None => TimeEntry.created_at entry
  end.

(** The key of the day with the number [day]: its date as [toISOString]
    writes it. *)
Definition dayKey (day : Z) : string := JsDate.isoDate (day * JsDate.msPerDay).

(** The total of a day in a report, as the page reads it:
    [daily_totals[key] || 0]. *)
Definition dayTotal (report : TimesheetData.t) (key : string) : Z :=
  default 0 (TimesheetData.daily_totals report !! key).

Definition sumZ (l : list Z) : Z := foldr Z.add 0 l.

(** The sum over the rows of a report of what they hold for a day. *)
Definition sumDay (rows : list TimesheetTaskData.t) (date : string) : Z :=
  foldr (fun row sum => default 0 (TimesheetTaskData.daily_time row !! date) + sum) 0 rows.

(** The entries of a task that has no row: a task not among [tasks]. *)
Definition withoutRow (tasks : list Task.t) (entry : TimeEntry.t) : bool :=
  negb (ofTasks (map Task.id tasks) entry).

(** The local midnight that begins the month [m] of the year [y]. *)
Definition monthStart (tz y m : Z) : Z :=
  Date.UTC tz (JsDate.days_from_civil y m 1 * JsDate.msPerDay).

(** The month before and the month after the month [m] of the year [y]. *)
Definition monthBefore (y m : Z) : Z * Z := if m =? 1 then (y - 1, 12) else (y, m - 1).
Definition monthAfter (y m : Z) : Z * Z := if m =? 12 then (y + 1, 1) else (y, m + 1).

(** The time values of [Date]. *)
Definition timeValue (time : Z) : Prop := Z.abs time <= 8640000000000000.

(** * Proofs *)

(** ** The calendar on known dates *)

Example isoDate_epoch : JsDate.isoDate 0 = "1970-01-01".
Proof. reflexivity. Qed.

Example isoDate_leap_day : JsDate.isoDate 1709251199999 = "2024-02-29".
Proof. vm_compute. reflexivity. Qed.

Example isoDate_before_epoch : JsDate.isoDate (-1) = "1969-12-31".
Proof. vm_compute. reflexivity. Qed.

Example parseLocal_utc :
  JsDate.parseLocal 0 "2024-01-01T00:00:00" = Some 1704067200000.
Proof. vm_compute. reflexivity. Qed.

Example parseLocal_east :
  JsDate.parseLocal 60 "2024-01-01T00:00:00" = Some 1704063600000.
Proof. vm_compute. reflexivity. Qed.

Example parseLocal_invalid : JsDate.parseLocal 0 "T00:00:00" = None.
Proof. reflexivity. Qed.

Example parseLocal_expanded_year :
  JsDate.isoDate 253402300800000 = "+010000-01-01"
  /\ JsDate.parseLocal 0 "+010000-01-01T00:00:00" = Some 253402300800000.
Proof. vm_compute. split; reflexivity. Qed.

(** The last day of the range of time values begins at its last instant:
    its last second is no date. *)
Example parseLocal_last_day :
  JsDate.isoDate 8640000000000000 = "+275760-09-13"
  /\ JsDate.parseLocal 0 "+275760-09-13T00:00:00" = Some 8640000000000000
  /\ JsDate.parseLocal 0 "+275760-09-13T23:59:59" = None
  /\ JsDate.parseLocal 60 "-271821-04-20T00:00:00" = None.
Proof. vm_compute. repeat split; reflexivity. Qed.

Example parseInt_examples :
  JsString.parseInt "abc" = None
  /\ JsString.parseInt " -12px" = Some (-12)
  /\ JsString.parseInt "0x1f" = Some 31
  /\ JsString.parseInt "-0" = Some 0
  /\ JsString.parseInt "" = None.
Proof. vm_compute. repeat split. Qed.

Example parseTotalMinutes_examples :
  parseTotalMinutes "1:30" = 90
  /\ parseTotalMinutes "2" = 120
  /\ parseTotalMinutes "" = 0
  /\ parseTotalMinutes "-1:30" = -30
  /\ parseTotalMinutes "1:-30" = 30.
Proof. vm_compute. repeat split. Qed.

Example isHMM_examples :
  isHMM "1:30" = true /\ isHMM "0:00" = true /\ isHMM "12:05" = true
  /\ isHMM "abc" = false /\ isHMM "1:3" = false /\ isHMM "" = false
  /\ isHMM "-1:30" = false.
Proof. vm_compute. repeat split. Qed.

(** ** Dictionaries of minutes *)


Section Dictionary.

Implicit Types (obj : gmap string Z) (key : string) (n : Z).

Lemma addTo_insert key n obj :
  addTo key n obj = <[key := default 0 (obj !! key) + n]> obj.
Proof.
  unfold addTo. destruct (obj !! key) as [v|] eqn:Hk; simpl.
  - destruct (Z.eqb_spec v 0) as [->|Hv].
    + rewrite lookup_insert_eq. simpl. by rewrite insert_insert_eq.
    + by rewrite Hk.
  - rewrite lookup_insert_eq. simpl. by rewrite insert_insert_eq.
Qed.

Lemma addTo_lookup key n obj d :
  default 0 (addTo key n obj !! d)
  = default 0 (obj !! d) + (if String.eqb key d then n else 0).
Proof.
  rewrite addTo_insert. destruct (String.eqb_spec key d) as [->|Hne].
  - by rewrite lookup_insert_eq.
  - rewrite lookup_insert_ne by done. lia.
Qed.

Lemma sumValues_insert_fresh key v obj :
  obj !! key = None -> sumValues (<[key := v]> obj) = sumValues obj + v.
Proof.
  intros Hk. unfold sumValues.
  rewrite map_fold_insert_L; [reflexivity | intros; lia | exact Hk].
Qed.

Lemma sumValues_insert key v obj :
  sumValues (<[key := v]> obj) = sumValues obj - default 0 (obj !! key) + v.
Proof.
  destruct (obj !! key) as [x|] eqn:Hk; simpl.
  - rewrite <- (insert_delete_eq obj key v).
    rewrite sumValues_insert_fresh by apply lookup_delete_eq.
    unfold sumValues at 2.
    rewrite (map_fold_delete_L _ _ key x obj); [ | intros; lia | exact Hk].
    fold (sumValues (delete key obj)). lia.
  - rewrite sumValues_insert_fresh by done. lia.
Qed.

Lemma sumValues_addTo key n obj : sumValues (addTo key n obj) = sumValues obj + n.
Proof. rewrite addTo_insert, sumValues_insert. lia. Qed.

Lemma sumValues_empty : sumValues ∅ = 0.
Proof. unfold sumValues. apply map_fold_empty. Qed.

End Dictionary.

Section DailyTotals.

Lemma sumMinutes_app l1 l2 : sumMinutes (l1 ++ l2) = sumMinutes l1 + sumMinutes l2.
Proof. induction l1 as [|x l1 IH]; simpl; [reflexivity | rewrite IH; lia]. Qed.

Lemma addEntries_sum entries totals :
  sumValues (addEntries entries totals) = sumValues totals + sumMinutes entries.
Proof.
  revert totals. induction entries as [|entry entries IH]; intros totals; simpl.
  - lia.
  - unfold addEntries in *. simpl. rewrite IH, sumValues_addTo. lia.
Qed.

Lemma addEntries_lookup entries totals d :
  default 0 (addEntries entries totals !! d)
  = default 0 (totals !! d) + sumMinutes (List.filter (onDate d) entries).
Proof.
  revert totals. induction entries as [|entry entries IH]; intros totals; simpl.
  - lia.
  - unfold addEntries in *. simpl. rewrite IH, addTo_lookup.
    unfold onDate. destruct (String.eqb (entryDate entry) d); simpl; lia.
Qed.

(** A day has a total exactly when an entry was added to it. *)
Lemma addEntries_is_Some entries totals d :
  is_Some (addEntries entries totals !! d)
  <-> is_Some (totals !! d) \/ exists entry, In entry entries /\ entryDate entry = d.
Proof.
  revert totals. induction entries as [|entry entries IH]; intros totals; simpl.
  - split; [auto | intros [?|(? & [] & _)]; done].
  - unfold addEntries in *. simpl. rewrite IH, addTo_insert. split.
    + intros [Hs | (en & Hin & Hd)].
      * destruct (decide (entryDate entry = d)) as [Heq|Hne].
        -- right. exists entry. auto.
        -- rewrite lookup_insert_ne in Hs by done. auto.
      * right. exists en. auto.
    + intros [Hs | (en & [<- | Hin] & Hd)].
      * left. destruct (decide (entryDate entry = d)) as [->|Hne].
        -- rewrite lookup_insert_eq. eauto.
        -- by rewrite lookup_insert_ne.
      * left. subst d. rewrite lookup_insert_eq. eauto.
      * right. exists en. auto.
Qed.

Lemma processEntry_totals startDate endDate entries taskMap totals :
  (fold_left (processEntry startDate endDate) entries (taskMap, totals)).2
  = addEntries (List.filter (inRange startDate endDate) entries) totals.
Proof.
  revert taskMap totals.
  induction entries as [|entry entries IH]; intros taskMap totals; simpl.
  - reflexivity.
  - destruct (inRange startDate endDate entry) eqn:Hin; simpl.
    + destruct (Map_get (TimeEntry.task_id entry) taskMap); apply IH.
    + apply IH.
Qed.

End DailyTotals.

Section TaskMap.

Context {V : Type}.
Implicit Types (m : list (string * V)) (k : string) (v : V).

Lemma Map_get_None k m : Map_get k m = None <-> ~ In k (map fst m).
Proof.
  induction m as [|[k' v'] m IH]; simpl.
  - tauto.
  - destruct (String.eqb_spec k' k) as [->|Hne].
    + split; [discriminate | tauto].
    + rewrite IH. tauto.
Qed.

(** With distinct keys, [set] on a present key rewrites the one pair that
    holds it. *)
Lemma Map_set_present k (f : V -> V) v0 m :
  Map_get k m = Some v0 ->
  NoDup (map fst m) ->
  Map_set k (f v0) m = map (fun kv => if String.eqb kv.1 k then (kv.1, f kv.2) else kv) m.
Proof.
  induction m as [|[k' v'] m IH]; simpl; [discriminate|].
  intros Hget Hnd. apply NoDup_cons in Hnd as [Hnotin Hnd].
  destruct (String.eqb_spec k' k) as [->|Hne].
  - injection Hget as ->. f_equal.
    rewrite <- (List.map_id m) at 1. apply List.map_ext_in. intros [k2 v2] Hin. simpl.
    destruct (String.eqb_spec k2 k) as [->|]; [|reflexivity].
    exfalso. apply Hnotin. apply list_elem_of_In. apply in_map_iff. exists (k, v2). auto.
  - f_equal. apply IH; assumption.
Qed.

Lemma Map_set_absent k (f : V -> V) m :
  Map_get k m = None ->
  m = map (fun kv => if String.eqb kv.1 k then (kv.1, f kv.2) else kv) m.
Proof.
  intros Hget. apply Map_get_None in Hget.
  rewrite <- (List.map_id m) at 1. apply List.map_ext_in. intros [k2 v2] Hin. simpl.
  destruct (String.eqb_spec k2 k) as [->|]; [|reflexivity].
  exfalso. apply Hget. apply in_map_iff. exists (k, v2). auto.
Qed.

Lemma Map_set_fresh k v m :
  ~ In k (map fst m) -> Map_set k v m = (m ++ [(k, v)])%list.
Proof.
  induction m as [|[k' v'] m IH]; simpl; [reflexivity|].
  intros Hnin. destruct (String.eqb_spec k' k) as [->|Hne]; [tauto|].
  f_equal. apply IH. tauto.
Qed.

Lemma Map_set_In k v m j w :
  In (j, w) (Map_set k v m) -> (k, v) = (j, w) \/ In (j, w) m.
Proof.
  induction m as [|[k' v'] m IH]; simpl.
  - tauto.
  - destruct (String.eqb k' k); simpl; intros [Heq|Hin]; auto.
    destruct (IH Hin); auto.
Qed.

Lemma Map_set_keys_present k v m :
  In k (map fst m) -> map fst (Map_set k v m) = map fst m.
Proof.
  induction m as [|[k' v'] m IH]; simpl; [tauto|].
  intros Hin. destruct (String.eqb_spec k' k) as [->|Hne]; simpl.
  - reflexivity.
  - f_equal. apply IH. tauto.
Qed.

Lemma Map_set_keys_fresh k v m :
  ~ In k (map fst m) -> map fst (Map_set k v m) = (map fst m ++ [k])%list.
Proof.
  induction m as [|[k' v'] m IH]; simpl; [reflexivity|].
  intros Hnin. destruct (String.eqb_spec k' k) as [->|Hne]; simpl.
  - tauto.
  - f_equal. apply IH. tauto.
Qed.

Lemma Map_get_set k v m j :
  Map_get j (Map_set k v m) = if String.eqb k j then Some v else Map_get j m.
Proof.
  induction m as [|[k' v'] m IH]; simpl.
  - destruct (String.eqb k j); reflexivity.
  - destruct (String.eqb_spec k' k) as [->|Hne]; simpl.
    + destruct (String.eqb k j); reflexivity.
    + rewrite IH. destruct (String.eqb_spec k' j) as [->|]; [|reflexivity].
      destruct (String.eqb_spec k j); [congruence | reflexivity].
Qed.

End TaskMap.

Section Seeding.

Lemma seedAll_NoDup tasks m : NoDup (map fst m) -> NoDup (map fst (seedAll tasks m)).
Proof.
  revert m. induction tasks as [|t tasks IH]; intros m Hnd; simpl; [assumption|].
  apply IH. destruct (in_dec string_dec (Task.id t) (map fst m)) as [Hin|Hnin].
  - by rewrite Map_set_keys_present.
  - rewrite Map_set_keys_fresh by assumption.
    apply NoDup_app. split; [assumption|]. split.
    + intros k Hk Hk'. apply list_elem_of_singleton in Hk'. subst k.
      apply Hnin. by apply list_elem_of_In.
    + apply NoDup_singleton.
Qed.

Lemma seedAll_In tasks m k row :
  In (k, row) (seedAll tasks m) ->
  In (k, row) m \/ exists t, In t tasks /\ k = Task.id t /\ row = seedRow t.
Proof.
  revert m. induction tasks as [|t tasks IH]; intros m; simpl; [auto|].
  intros Hin. destruct (IH _ Hin) as [Hm | (t' & Ht' & Hk & Hrow)].
  - apply Map_set_In in Hm as [Heq | Hm]; [|auto].
    injection Heq as <- <-. right. exists t. auto.
  - right. exists t'. auto.
Qed.

Lemma seedAll_distinct tasks m :
  NoDup (map fst m ++ map Task.id tasks)%list ->
  seedAll tasks m = (m ++ map (fun t => (Task.id t, seedRow t)) tasks)%list.
Proof.
  revert m. induction tasks as [|t tasks IH]; intros m Hnd; simpl.
  - by rewrite app_nil_r.
  - simpl in Hnd. rewrite Map_set_fresh.
    + rewrite IH.
      * by rewrite <- app_assoc.
      * rewrite map_app. simpl. rewrite <- app_assoc. exact Hnd.
    + apply NoDup_app in Hnd as (_ & Hdisj & _). intros Hin.
      apply (Hdisj (Task.id t)); [by apply list_elem_of_In | left].
Qed.

End Seeding.

Section Rows.

Variables startDate endDate : string.

Abbreviation inside := (List.filter (inRange startDate endDate)).

Lemma stepRow_key entry kr : (stepRow startDate endDate entry kr).1 = kr.1.
Proof. unfold stepRow. destruct (_ && _); reflexivity. Qed.

Lemma rowAfter_key entries kr : (rowAfter startDate endDate entries kr).1 = kr.1.
Proof.
  revert kr. induction entries as [|entry entries IH]; intros kr; simpl; [reflexivity|].
  unfold rowAfter in *. simpl. rewrite IH. apply stepRow_key.
Qed.

(** The row stored under a key after the loop: its identity is kept, its
    minutes are those of the in-range entries of that key. *)
Lemma rowAfter_spec entries kr :
  let row := (rowAfter startDate endDate entries kr).2 in
  let mine := List.filter (ofTask kr.1) (inside entries) in
  TimesheetTaskData.task_id row = TimesheetTaskData.task_id kr.2
  /\ TimesheetTaskData.task_title row = TimesheetTaskData.task_title kr.2
  /\ TimesheetTaskData.task_status row = TimesheetTaskData.task_status kr.2
  /\ TimesheetTaskData.assignee_id row = TimesheetTaskData.assignee_id kr.2
  /\ TimesheetTaskData.daily_time row = addEntries mine (TimesheetTaskData.daily_time kr.2)
  /\ TimesheetTaskData.total_minutes row
     = TimesheetTaskData.total_minutes kr.2 + sumMinutes mine.
Proof.
  revert kr. induction entries as [|entry entries IH]; intros kr; simpl.
  - repeat split; lia.
  - unfold rowAfter in *. simpl.
    specialize (IH (stepRow startDate endDate entry kr)). simpl in IH.
    rewrite stepRow_key in IH.
    destruct IH as (H1 & H2 & H3 & H4 & H5 & H6).
    rewrite H1, H2, H3, H4, H5, H6. unfold stepRow.
    destruct (inRange startDate endDate entry) eqn:Hin; simpl;
      [destruct (ofTask kr.1 entry) eqn:Hof; simpl|]; repeat split; lia.
Qed.

Lemma processEntry_step taskMap totals entry :
  NoDup (map fst taskMap) ->
  (processEntry startDate endDate (taskMap, totals) entry).1
  = map (stepRow startDate endDate entry) taskMap.
Proof.
  intros Hnd. unfold processEntry, stepRow, ofTask.
  destruct (inRange startDate endDate entry) eqn:Hin; simpl.
  - destruct (Map_get (TimeEntry.task_id entry) taskMap) as [task|] eqn:Hget; simpl.
    + apply (Map_set_present _
               (addToRow (entryDate entry) (TimeEntry.minutes entry))); assumption.
    + apply (Map_set_absent _
               (addToRow (entryDate entry) (TimeEntry.minutes entry))); assumption.
  - symmetry. apply List.map_id.
Qed.

Lemma processEntry_taskMap entries taskMap totals :
  NoDup (map fst taskMap) ->
  (fold_left (processEntry startDate endDate) entries (taskMap, totals)).1
  = map (rowAfter startDate endDate entries) taskMap.
Proof.
  revert taskMap totals.
  induction entries as [|entry entries IH]; intros taskMap totals Hnd.
  - simpl. rewrite <- (List.map_id taskMap) at 1. apply List.map_ext. by intros [].
  - cbn [fold_left].
    destruct (processEntry startDate endDate (taskMap, totals) entry) as [tm' dt'] eqn:Hstep.
    assert (Htm : tm' = map (stepRow startDate endDate entry) taskMap).
    { rewrite <- (processEntry_step taskMap totals entry Hnd). by rewrite Hstep. }
    rewrite IH.
    + rewrite Htm, List.map_map. reflexivity.
    + rewrite Htm, List.map_map.
      erewrite List.map_ext; [exact Hnd|]. intros kr. apply stepRow_key.
Qed.

End Rows.

Section Counting.

Lemma sumTotals_perm rows rows' :
  Permutation rows rows' -> sumTotals rows = sumTotals rows'.
Proof.
  induction 1 as [|x l l' _ IH|x y l|l1 l2 l3 _ IH1 _ IH2]; simpl; lia.
Qed.

Lemma seedAll_keys tasks m k :
  In k (map fst (seedAll tasks m)) <-> In k (map fst m) \/ In k (map Task.id tasks).
Proof.
  revert m. induction tasks as [|t tasks IH]; intros m; simpl; [tauto|].
  fold (seedAll tasks (Map_set (Task.id t) (seedRow t) m)). rewrite IH.
  destruct (in_dec string_dec (Task.id t) (map fst m)) as [Hin|Hnin].
  - rewrite Map_set_keys_present by assumption.
    split; [tauto | intros [?|[<-|?]]; auto].
  - rewrite Map_set_keys_fresh, in_app_iff by assumption. simpl. tauto.
Qed.

Lemma existsb_same_elements {A} (f : A -> bool) l1 l2 :
  (forall x, In x l1 <-> In x l2) -> existsb f l1 = existsb f l2.
Proof.
  intros Hsame. apply eq_true_iff_eq. rewrite !existsb_exists.
  split; intros (x & Hx & Hf); exists x; split; try assumption; by apply Hsame.
Qed.

(** Summed task by task over distinct ids, every entry of one of the tasks
    is counted once, and no other entry is counted. *)
Lemma sumByTask_once taskIds entries :
  NoDup taskIds ->
  sumByTask taskIds entries = sumMinutes (List.filter (ofTasks taskIds) entries).
Proof.
  intros Hnd. induction taskIds as [|k ks IH]; simpl.
  - induction entries as [|e es IHe]; simpl; [reflexivity | assumption].
  - apply NoDup_cons in Hnd as [Hk Hks]. rewrite (IH Hks). clear IH.
    induction entries as [|e es IHe]; simpl; [reflexivity|].
    unfold ofTasks at 2. simpl. fold (ofTasks ks e).
    destruct (ofTask k e) eqn:Hke; simpl.
    + assert (ofTasks ks e = false) as ->.
      { apply not_true_iff_false. unfold ofTasks. rewrite existsb_exists.
        intros (k' & Hk' & Hof). unfold ofTask in Hke, Hof.
        apply String.eqb_eq in Hke, Hof. apply Hk, list_elem_of_In. congruence. }
      lia.
    + destruct (ofTasks ks e); simpl;
        change (fun entry => existsb (fun taskId => ofTask taskId entry) ks)
          with (ofTasks ks); lia.
Qed.

End Counting.

Section Sorting.

Context {A : Type} (cmp : A -> A -> Z).

Lemma insertSorted_perm x l : Permutation (insertSorted cmp x l) (x :: l).
Proof.
  induction l as [|y l IH]; simpl.
  - reflexivity.
  - destruct (cmp x y <=? 0); [reflexivity|].
    rewrite IH. apply perm_swap.
Qed.

Lemma sort_perm l : Permutation (sort cmp l) l.
Proof.
  induction l as [|x l IH]; simpl.
  - reflexivity.
  - unfold sort in *. simpl. rewrite insertSorted_perm. by constructor.
Qed.

Hypothesis cmp_total : forall a b, 0 < cmp a b -> cmp b a <= 0.
Hypothesis cmp_trans : forall a b c, cmp a b <= 0 -> cmp b c <= 0 -> cmp a c <= 0.

Lemma insertSorted_sorted x l :
  StronglySorted (fun a b => cmp a b <= 0) l ->
  StronglySorted (fun a b => cmp a b <= 0) (insertSorted cmp x l).
Proof.
  induction l as [|y l IH]; simpl; intros Hs.
  - repeat constructor.
  - apply StronglySorted_inv in Hs as [Hl Hy].
    destruct (Z.leb_spec (cmp x y) 0) as [Hle|Hgt].
    + constructor; [by constructor|]. constructor; [assumption|].
      rewrite List.Forall_forall in *. eauto.
    + constructor; [auto|].
      rewrite List.Forall_forall in *. intros z Hz.
      apply (Permutation_in _ (insertSorted_perm x l)) in Hz as [<-|Hz]; auto.
Qed.

Lemma sort_sorted l : StronglySorted (fun a b => cmp a b <= 0) (sort cmp l).
Proof.
  induction l as [|x l IH]; simpl.
  - constructor.
  - unfold sort in *. simpl. by apply insertSorted_sorted.
Qed.

End Sorting.

Section Report.

Context `{collation : Collator}.

Lemma compareRows_rowOrder a b : compareRows a b <= 0 <-> rowOrder a b.
Proof.
  unfold compareRows, rowOrder.
  destruct (Z.eqb_spec (TimesheetTaskData.total_minutes b)
              (TimesheetTaskData.total_minutes a)); simpl; lia.
Qed.

Variables (timeEntries : list TimeEntry.t) (tasks : list Task.t).
Variables startDate endDate : string.

Abbreviation report := (aggregate timeEntries tasks startDate endDate).
Abbreviation inside := (List.filter (inRange startDate endDate) timeEntries).

Lemma aggregate_daily_totals :
  TimesheetData.daily_totals report = addEntries inside ∅.
Proof.
  unfold aggregate.
  destruct (fold_left _ _ _) as [taskMap totals] eqn:Hfold. simpl.
  rewrite <- (processEntry_totals startDate endDate timeEntries (initTaskMap tasks) ∅).
  by rewrite Hfold.
Qed.

Lemma aggregate_week_total :
  TimesheetData.week_total report = sumValues (TimesheetData.daily_totals report).
Proof. unfold aggregate. destruct (fold_left _ _ _). reflexivity. Qed.

Lemma initTaskMap_NoDup : NoDup (map fst (initTaskMap tasks)).
Proof. apply seedAll_NoDup. constructor. Qed.

(** The rows of the report are the seeded rows after the loop, in sorted
    order. *)
Lemma aggregate_tasks :
  TimesheetData.tasks report
  = sort compareRows
      (map (fun kr => (rowAfter startDate endDate timeEntries kr).2) (initTaskMap tasks)).
Proof.
  unfold aggregate.
  destruct (fold_left _ _ _) as [taskMap totals] eqn:Hfold. simpl.
  assert (taskMap = map (rowAfter startDate endDate timeEntries) (initTaskMap tasks))
    as ->.
  { rewrite <- (processEntry_taskMap startDate endDate timeEntries (initTaskMap tasks) ∅
                  initTaskMap_NoDup).
    by rewrite Hfold. }
  unfold Map_values. by rewrite List.map_map.
Qed.

Lemma aggregate_row row :
  In row (TimesheetData.tasks report) ->
  exists t, In t tasks
    /\ row = (rowAfter startDate endDate timeEntries (Task.id t, seedRow t)).2.
Proof.
  rewrite aggregate_tasks. intros Hin.
  apply (Permutation_in _ (sort_perm _ _)) in Hin.
  apply in_map_iff in Hin as ([k row0] & <- & Hin).
  apply seedAll_In in Hin as [[] | (t & Ht & -> & ->)].
  exists t. auto.
Qed.

(** Summed over the rows, every in-range entry of one of the given tasks
    is counted once. *)
Lemma aggregate_sumTotals :
  sumTotals (TimesheetData.tasks report)
  = sumMinutes (List.filter (ofTasks (map Task.id tasks)) inside).
Proof.
  rewrite aggregate_tasks, (sumTotals_perm _ _ (sort_perm _ _)).
  transitivity (sumByTask (map fst (initTaskMap tasks)) inside).
  - assert (Hseed : forall kr, In kr (initTaskMap tasks) ->
                               TimesheetTaskData.total_minutes kr.2 = 0).
    { intros [k row] Hin. apply seedAll_In in Hin as [[] | (t & _ & _ & ->)].
      reflexivity. }
    induction (initTaskMap tasks) as [|kr m IH]; simpl; [reflexivity|].
    rewrite IH by (intros; apply Hseed; by right).
    pose proof (rowAfter_spec startDate endDate timeEntries kr)
      as (_ & _ & _ & _ & _ & ->).
    rewrite (Hseed kr) by (by left). lia.
  - rewrite sumByTask_once by apply initTaskMap_NoDup.
    f_equal. apply List.filter_ext. intros entry.
    apply existsb_same_elements. intros k.
    unfold initTaskMap. fold (seedAll tasks []). rewrite seedAll_keys. simpl. tauto.
Qed.

End Report.

Lemma filter_perm {A} (f : A -> bool) l l' :
  Permutation l l' -> Permutation (List.filter f l) (List.filter f l').
Proof.
  induction 1 as [|x l l' _ IH|x y l|l1 l2 l3 _ IH1 _ IH2]; simpl.
  - constructor.
  - destruct (f x); [by constructor | assumption].
  - destruct (f x), (f y); try reflexivity. apply perm_swap.
  - by transitivity (List.filter f l2).
Qed.

Lemma filter_none {A} (f : A -> bool) l :
  (forall x, In x l -> f x = false) -> List.filter f l = [].
Proof.
  induction l as [|x l IH]; simpl; intros Hall; [reflexivity|].
  rewrite (Hall x) by auto. apply IH. auto.
Qed.

Lemma StronglySorted_impl {A} (R1 R2 : A -> A -> Prop) l :
  (forall a b, R1 a b -> R2 a b) -> StronglySorted R1 l -> StronglySorted R2 l.
Proof.
  intros Himpl. induction 1 as [|x l _ IH Hx]; constructor; [assumption|].
  eapply List.Forall_impl; [|exact Hx]. auto.
Qed.

Section Claims.

Context `{collation : Collator}.

(** C2. The week total is the sum of the minutes of exactly the entries
    whose effective date lies in the requested range; so is, day by day,
    [daily_totals], whatever task an entry belongs to; the total of a row
    is the sum over the in-range entries of that row's task, which is one
    of the given tasks, so an entry of another task is in no row; and the
    totals of all rows add up to the in-range entries of the given tasks,
    each counted once. *)
Theorem week_total_sums_entries_in_range
  (timeEntries : list TimeEntry.t) (tasks : list Task.t) (startDate endDate : string) :
  let report := aggregate timeEntries tasks startDate endDate in
  let inside := List.filter (inRange startDate endDate) timeEntries in
  TimesheetData.week_total report = sumMinutes inside
  /\ (forall date,
        default 0 (TimesheetData.daily_totals report !! date)
        = sumMinutes (List.filter (onDate date) inside))
  /\ (forall row,
        In row (TimesheetData.tasks report) ->
        In (TimesheetTaskData.task_id row) (map Task.id tasks)
        /\ TimesheetTaskData.total_minutes row
           = sumMinutes (List.filter (ofTask (TimesheetTaskData.task_id row)) inside))
  /\ sumTotals (TimesheetData.tasks report)
     = sumMinutes (List.filter (ofTasks (map Task.id tasks)) inside).
Proof.
  intros report inside. split; [|split; [|split; [|apply aggregate_sumTotals]]].
  - unfold report. rewrite aggregate_week_total, aggregate_daily_totals.
    rewrite addEntries_sum, sumValues_empty. reflexivity.
  - intros date. unfold report. rewrite aggregate_daily_totals.
    rewrite addEntries_lookup, lookup_empty. reflexivity.
  - intros row Hrow. apply aggregate_row in Hrow as (t & Ht & ->).
    pose proof (rowAfter_spec startDate endDate timeEntries (Task.id t, seedRow t))
      as (Hid & _ & _ & _ & _ & Htotal).
    simpl in Hid, Htotal. rewrite Hid. split.
    + apply in_map. assumption.
    + rewrite Htotal. reflexivity.
Qed.

(** C6. Every task of a task set (tasks with distinct ids) has exactly one
    row in the report, carrying its id, title, status and assignee, whether
    or not it has entries in range; with no entry in range the row has
    [total_minutes = 0] and an empty [daily_time]. *)
Theorem every_task_has_exactly_one_row
  (timeEntries : list TimeEntry.t) (tasks : list Task.t) (startDate endDate : string)
  (t : Task.t) :
  NoDup (map Task.id tasks) ->
  In t tasks ->
  let report := aggregate timeEntries tasks startDate endDate in
  exists row,
    List.filter (fun r => String.eqb (TimesheetTaskData.task_id r) (Task.id t))
      (TimesheetData.tasks report) = [row]
    /\ TimesheetTaskData.task_id row = Task.id t
    /\ TimesheetTaskData.task_title row = Task.title t
    /\ TimesheetTaskData.task_status row = Task.status t
    /\ TimesheetTaskData.assignee_id row = Task.assignee_id t
    /\ (List.filter (ofTask (Task.id t))
          (List.filter (inRange startDate endDate) timeEntries) = [] ->
        TimesheetTaskData.total_minutes row = 0
        /\ TimesheetTaskData.daily_time row = ∅).
Proof.
  intros Hnd Ht report.
  set (rowOf := fun t : Task.t =>
                  (rowAfter startDate endDate timeEntries (Task.id t, seedRow t)).2).
  assert (Hid : forall u, TimesheetTaskData.task_id (rowOf u) = Task.id u).
  { intros u. apply (rowAfter_spec startDate endDate timeEntries (Task.id u, seedRow u)). }
  exists (rowOf t).
  pose proof (rowAfter_spec startDate endDate timeEntries (Task.id t, seedRow t))
    as (_ & Htitle & Hstatus & Hassignee & Hdaily & Htotal).
  simpl in Htitle, Hstatus, Hassignee, Hdaily, Htotal.
  split; [|split; [apply Hid|]; repeat (split; [assumption|])].
  - apply Permutation_length_1_inv.
    assert (Hrows : TimesheetData.tasks report = sort compareRows (map rowOf tasks)).
    { unfold report. rewrite aggregate_tasks. unfold initTaskMap.
      fold (seedAll tasks []). rewrite seedAll_distinct by exact Hnd.
      simpl. by rewrite List.map_map. }
    rewrite Hrows. rewrite (filter_perm _ _ _ (sort_perm _ _)).
    clear Hrows report Htitle Hstatus Hassignee Hdaily Htotal.
    induction tasks as [|u us IH]; [destruct Ht|].
    simpl in Hnd. apply NoDup_cons in Hnd as [Hu Hus]. simpl. rewrite Hid.
    destruct Ht as [->|Ht].
    + rewrite String.eqb_refl. constructor.
      rewrite filter_none; [constructor|].
      intros r Hr. apply in_map_iff in Hr as (u & <- & Hin).
      rewrite Hid. apply String.eqb_neq. intros Heq. apply Hu.
      rewrite <- Heq. apply list_elem_of_In, in_map. assumption.
    + destruct (String.eqb_spec (Task.id u) (Task.id t)) as [Heq|Hne]; [|auto].
      exfalso. apply Hu. rewrite Heq. apply list_elem_of_In, in_map. assumption.
  - intros Hnone. unfold rowOf. rewrite Htotal, Hdaily, Hnone. split; reflexivity.
Qed.

(** C7. The rows of the report are ordered by [total_minutes] descending,
    rows with equal totals by [task_title] ascending under
    [localeCompare], for a collation that is a consistent comparator; and
    the ordered rows are the rows of the task map after the loop over the
    entries, each one once: the sort drops no row and adds none. *)
Theorem report_rows_are_sorted
  (lc_total : forall a b, 0 < localeCompare a b -> localeCompare b a <= 0)
  (lc_trans : forall a b c,
      localeCompare a b <= 0 -> localeCompare b c <= 0 -> localeCompare a c <= 0)
  (timeEntries : list TimeEntry.t) (tasks : list Task.t) (startDate endDate : string) :
  StronglySorted rowOrder
    (TimesheetData.tasks (aggregate timeEntries tasks startDate endDate))
  /\ Permutation
       (TimesheetData.tasks (aggregate timeEntries tasks startDate endDate))
       (map (fun kr => (rowAfter startDate endDate timeEntries kr).2) (initTaskMap tasks)).
Proof.
  rewrite aggregate_tasks. split; [|apply sort_perm].
  eapply StronglySorted_impl; [apply compareRows_rowOrder|].
  apply sort_sorted.
  - intros a b. rewrite !compareRows_rowOrder. unfold compareRows, rowOrder.
    destruct (Z.eqb_spec (TimesheetTaskData.total_minutes b)
                (TimesheetTaskData.total_minutes a)); simpl; intros Hab.
    + right. split; [congruence | auto].
    + left. lia.
  - intros a b c. rewrite !compareRows_rowOrder. unfold rowOrder.
    intros [Hab|[Hab Htab]] [Hbc|[Hbc Htbc]]; try (left; lia).
    right. split; [congruence | eauto].
Qed.

End Claims.

Section Keeps.

Variable R : Backend -> Backend -> Prop.
Hypothesis R_refl : forall b, R b b.
Hypothesis R_trans : forall a b c, R a b -> R b c -> R a c.

Lemma keeps_ret {A} (a : A) : keeps R (ret a).
Proof. intros w. apply R_refl. Qed.

Lemma keeps_alert message : keeps R (alert message).
Proof. intros w. apply R_refl. Qed.

Lemma keeps_call {A} request (act : Backend -> A * Backend) :
  (forall b, R b (act b).2) -> keeps R (call request act).
Proof.
  intros Hact w. unfold call. specialize (Hact (backend w)).
  destruct (act (backend w)). exact Hact.
Qed.

Lemma keeps_bind {A B} (c : Client A) (k : A -> Client B) :
  keeps R c -> (forall a, keeps R (k a)) -> keeps R (bind c k).
Proof.
  intros Hc Hk w. unfold bind. specialize (Hc w).
  destruct (c w) as [a w'] eqn:Hcw. specialize (Hk a w').
  eapply R_trans; eassumption.
Qed.

End Keeps.

Section Writers.

Lemma enforceMinimum_spec m :
  1 <= enforceMinimum m
  /\ (m < 1 -> enforceMinimum m = 1)
  /\ (1 <= m -> enforceMinimum m = m).
Proof. unfold enforceMinimum. destruct (Z.ltb_spec m 1); lia. Qed.

Lemma insertTimeEntry_spec row b :
  match insertTimeEntry row b with
  | (Data e, b') =>
      e = row ("te-" +:+ pretty (next_id b)) (clock b)
      /\ time_entries b' = (time_entries b ++ [e])%list
      /\ session b' = session b /\ tasks b' = tasks b
  | (Error _, b') => b' = b
  end.
Proof. unfold insertTimeEntry. destruct (insert_fault b); simpl; auto. Qed.

Lemma addManualTimeEntry_spec input b :
  match addManualTimeEntry input b with
  | (Data e, b') =>
      TimeEntry.minutes e = enforceMinimum (AddManualTimeEntryInput.minutes input)
      /\ TimeEntry.task_id e = AddManualTimeEntryInput.task_id input
      /\ TimeEntry.started_at e = None
      /\ TimeEntry.created_at e = clock b
      /\ time_entries b' = (time_entries b ++ [e])%list
  | (Error _, b') => b' = b
  end.
Proof.
  unfold addManualTimeEntry. destruct (session b) as [user|]; [|reflexivity].
  destruct (notAssignee _ user b); [reflexivity|].
  match goal with |- context [insertTimeEntry ?r b] =>
    pose proof (insertTimeEntry_spec r b) as Hins;
    destruct (insertTimeEntry r b) as [[e|msg] b'] end.
  - destruct Hins as (-> & Hentries & _). simpl. auto.
  - assumption.
Qed.

Lemma stopTimer_spec taskId startedAt b :
  match stopTimer taskId startedAt b with
  | (Data e, b') =>
      TimeEntry.minutes e
      = enforceMinimum (Math_round_div (clock b - startedAt) 60000)
      /\ TimeEntry.task_id e = taskId
      /\ TimeEntry.started_at e = Some startedAt
      /\ TimeEntry.ended_at e = Some (clock b)
      /\ time_entries b' = (time_entries b ++ [e])%list
  | (Error _, b') => b' = b
  end.
Proof.
  unfold stopTimer. destruct (session b) as [user|]; [|reflexivity].
  destruct (notAssignee _ user b); [reflexivity|].
  match goal with |- context [insertTimeEntry ?r b] =>
    pose proof (insertTimeEntry_spec r b) as Hins;
    destruct (insertTimeEntry r b) as [[e|msg] b'] end.
  - destruct Hins as (-> & Hentries & _). simpl. auto.
  - assumption.
Qed.

Lemma deleteTimeEntry_entries timeEntryId b e :
  In e (time_entries (deleteTimeEntry timeEntryId b).2) -> In e (time_entries b).
Proof.
  unfold deleteTimeEntry. destruct (session b) as [user|]; [|auto].
  destruct (single _) as [timeEntry|]; [|auto].
  destruct (negb _); [auto|]. destruct (bool_decide _); [auto|]. simpl.
  intros Hin. apply list_elem_of_In, list_elem_of_filter in Hin as [_ Hin].
  by apply list_elem_of_In.
Qed.

Lemma oldOrMinuted_refl b : oldOrMinuted b b.
Proof. intros e He. auto. Qed.

Lemma oldOrMinuted_trans a b c : oldOrMinuted a b -> oldOrMinuted b c -> oldOrMinuted a c.
Proof. intros Hab Hbc e He. destruct (Hbc e He) as [Hb|]; auto. Qed.

Lemma addManualTimeEntry_minuted input b :
  oldOrMinuted b (addManualTimeEntry input b).2.
Proof.
  pose proof (addManualTimeEntry_spec input b) as Hspec.
  destruct (addManualTimeEntry input b) as [[e|msg] b']; simpl.
  - destruct Hspec as (Hmin & _ & _ & _ & Hentries). intros x Hx.
    rewrite Hentries in Hx. apply in_app_or in Hx as [Hx|[<-|[]]]; [auto|].
    right. rewrite Hmin. apply enforceMinimum_spec.
  - subst b'. apply oldOrMinuted_refl.
Qed.

Lemma stopTimer_minuted taskId startedAt b :
  oldOrMinuted b (stopTimer taskId startedAt b).2.
Proof.
  pose proof (stopTimer_spec taskId startedAt b) as Hspec.
  destruct (stopTimer taskId startedAt b) as [[e|msg] b']; simpl.
  - destruct Hspec as (Hmin & _ & _ & _ & Hentries). intros x Hx.
    rewrite Hentries in Hx. apply in_app_or in Hx as [Hx|[<-|[]]]; [auto|].
    right. rewrite Hmin. apply enforceMinimum_spec.
  - subst b'. apply oldOrMinuted_refl.
Qed.

Lemma deleteTimeEntry_minuted timeEntryId b :
  oldOrMinuted b (deleteTimeEntry timeEntryId b).2.
Proof. intros e He. left. eapply deleteTimeEntry_entries, He. Qed.

Lemma minuted_ret {A} (a : A) : keeps oldOrMinuted (ret a).
Proof. exact (keeps_ret oldOrMinuted oldOrMinuted_refl a). Qed.

Lemma minuted_alert message : keeps oldOrMinuted (alert message).
Proof. exact (keeps_alert oldOrMinuted oldOrMinuted_refl message). Qed.

Lemma minuted_bind {A B} (c : Client A) (k : A -> Client B) :
  keeps oldOrMinuted c -> (forall a, keeps oldOrMinuted (k a)) ->
  keeps oldOrMinuted (bind c k).
Proof. exact (keeps_bind oldOrMinuted oldOrMinuted_trans c k). Qed.

Create HintDb keeps.

#[local] Hint Resolve oldOrMinuted_refl addManualTimeEntry_minuted
  deleteTimeEntry_minuted : keeps.

(** One step through a client computation: a return, an alert, a call
    whose action is known to keep the relation, or a bind. *)
Ltac keeps_step :=
  first
    [ apply minuted_ret
    | apply minuted_alert
    | apply keeps_call; intros; simpl; auto with keeps
    | apply minuted_bind; [|intros ?a] ].

Lemma deleteEach_minuted entries : keeps oldOrMinuted (deleteEach entries).
Proof.
  induction entries as [|entry entries IH]; simpl.
  - keeps_step.
  - keeps_step; [keeps_step | exact IH].
Qed.

Lemma deleteUntilError_minuted entries : keeps oldOrMinuted (deleteUntilError entries).
Proof.
  induction entries as [|entry entries IH]; simpl.
  - keeps_step.
  - keeps_step; [keeps_step|]. destruct a; [exact IH | keeps_step].
Qed.

Lemma saveTimeEntry_minuted cell minutes : keeps oldOrMinuted (saveTimeEntry cell minutes).
Proof. unfold saveTimeEntry. keeps_step; [keeps_step|]. destruct a; keeps_step. Qed.

Lemma authGetUser_minuted : keeps oldOrMinuted authGetUser.
Proof. unfold authGetUser. keeps_step. Qed.

Lemma selectTimeEntries_minuted taskId userId :
  keeps oldOrMinuted (selectTimeEntries taskId userId).
Proof. unfold selectTimeEntries. keeps_step. Qed.

Lemma loadTimesheetData_minuted `{collation : Collator} p :
  keeps oldOrMinuted (loadTimesheetData p).
Proof. unfold loadTimesheetData. keeps_step; [keeps_step|]. destruct a; keeps_step. Qed.

Lemma reduceCell_minuted br cell totalMinutes :
  keeps oldOrMinuted (reduceCell br cell totalMinutes).
Proof.
  unfold reduceCell. keeps_step; [apply authGetUser_minuted|].
  destruct a as [user|]; [|keeps_step].
  keeps_step; [apply selectTimeEntries_minuted|].
  keeps_step.
  - destruct a as [timeEntries|]; [apply deleteEach_minuted | keeps_step].
  - destruct (0 <? totalMinutes); [apply saveTimeEntry_minuted | keeps_step].
Qed.

Lemma handleCellSave_minuted `{collation : Collator} br p :
  keeps oldOrMinuted (handleCellSave br p).
Proof.
  unfold handleCellSave. destruct (editingCell p) as [cell|]; [|keeps_step].
  destruct (_ <? 0).
  - keeps_step; keeps_step.
  - keeps_step; [|keeps_step].
    destruct (negb _); [|keeps_step].
    keeps_step; [|apply loadTimesheetData_minuted].
    destruct (_ <? 0); [apply reduceCell_minuted | apply saveTimeEntry_minuted].
Qed.

Lemma handleDeleteTimeForDay_minuted `{collation : Collator} br taskId date p :
  keeps oldOrMinuted (handleDeleteTimeForDay br taskId date p).
Proof.
  unfold handleDeleteTimeForDay. destruct (negb _); [keeps_step|].
  keeps_step; [apply authGetUser_minuted|].
  destruct a as [user|]; [|keeps_step].
  keeps_step; [apply selectTimeEntries_minuted|].
  destruct a as [[|entry entries]|]; try keeps_step.
  - apply deleteUntilError_minuted.
  - apply loadTimesheetData_minuted.
Qed.

End Writers.

Section Rounding.

(** [Math_round_div n d] is the integer nearest to [n / d], the upper one
    when [n / d] is halfway between two. *)
Lemma Math_round_div_nearest n d :
  0 < d ->
  let m := Math_round_div n d in
  2 * d * m - d <= 2 * n < 2 * d * m + d.
Proof.
  intros Hd m. unfold m, Math_round_div.
  pose proof (Z.div_mod (2 * n + d) (2 * d) ltac:(lia)) as Hdiv.
  pose proof (Z.mod_pos_bound (2 * n + d) (2 * d) ltac:(lia)) as Hmod.
  lia.
Qed.

End Rounding.

Section Reconciler.

Context `{collation : Collator}.

(** C8. An edit whose parsed target equals the current minutes of the cell
    issues no remote call and leaves the backend, hence the persisted
    entries, as they were. *)
Theorem unchanged_cell_issues_no_remote_call
  (br : Browser) (p : Page) (w : World) (cell : Cell.t) :
  editingCell p = Some cell ->
  parseTotalMinutes (editValue p) = currentMinutes p cell ->
  calls (handleCellSave br p w).2 = calls w
  /\ backend (handleCellSave br p w).2 = backend w.
Proof.
  intros Hcell Hsame. unfold handleCellSave. rewrite Hcell.
  destruct (Z.ltb_spec (parseTotalMinutes (editValue p)) 0) as [Hneg|Hpos].
  - split; reflexivity.
  - replace ((0 <? parseTotalMinutes (editValue p))
             && (parseTotalMinutes (editValue p) <? 1)) with false
      by (symmetry; apply andb_false_iff; lia).
    rewrite Hsame, Z.sub_diag. split; reflexivity.
Qed.

(** C5, as the code has it.  An edit whose computed total,
    [parseInt(hours) * 60 + parseInt(minutes)] with a part that does not
    parse counted as 0, is negative, is rejected with the alert "Time
    cannot be negative": no remote call is issued, the backend and the
    page are unchanged. *)
Theorem negative_total_is_rejected_before_any_call
  (br : Browser) (p : Page) (w : World) (cell : Cell.t) :
  editingCell p = Some cell ->
  parseTotalMinutes (editValue p) < 0 ->
  handleCellSave br p w
  = (p, mkWorld (backend w) (calls w) (alerts w ++ ["Time cannot be negative"])).
Proof.
  intros Hcell Hneg. unfold handleCellSave. rewrite Hcell.
  destruct (Z.ltb_spec (parseTotalMinutes (editValue p)) 0); [reflexivity | lia].
Qed.

(** A permitted request is written: with a session, a task assigned to its
    user and an insert that does not fail, both writers succeed and append
    one row. *)
Lemma addManualTimeEntry_written input b user :
  session b = Some user ->
  notAssignee (AddManualTimeEntryInput.task_id input) user b = false ->
  insert_fault b = false ->
  exists e b',
    addManualTimeEntry input b = (Data e, b')
    /\ TimeEntry.minutes e = enforceMinimum (AddManualTimeEntryInput.minutes input)
    /\ time_entries b' = (time_entries b ++ [e])%list.
Proof.
  intros Hsession Hna Hfault. unfold addManualTimeEntry, insertTimeEntry.
  rewrite Hsession, Hna, Hfault. do 2 eexists. split; [reflexivity|]. simpl. auto.
Qed.

Lemma stopTimer_written taskId startedAt b user :
  session b = Some user ->
  notAssignee taskId user b = false ->
  insert_fault b = false ->
  exists e b',
    stopTimer taskId startedAt b = (Data e, b')
    /\ TimeEntry.minutes e = enforceMinimum (Math_round_div (clock b - startedAt) 60000)
    /\ time_entries b' = (time_entries b ++ [e])%list.
Proof.
  intros Hsession Hna Hfault. unfold stopTimer, insertTimeEntry.
  rewrite Hsession, Hna, Hfault. do 2 eexists. split; [reflexivity|]. simpl. auto.
Qed.

(** C9. Every writer of time entries persists at least one minute: the
    minimum turns a request below 1 into exactly 1 and keeps any other;
    the row inserted by [addManualTimeEntry] and by [stopTimer] carries
    the enforced minutes; a permitted request (a session, a task assigned
    to its user, an insert that does not fail) is not refused but written,
    as exactly 1 minute when it asks for less than 1 or when the timer ran
    for less than 90 seconds; and whatever entry the backend holds after a
    cell edit or a day delete was there before or has [minutes >= 1]. *)
Theorem writers_persist_at_least_one_minute :
  (forall m, 1 <= enforceMinimum m
             /\ (m < 1 -> enforceMinimum m = 1)
             /\ (1 <= m -> enforceMinimum m = m))
  /\ (forall input b,
        match addManualTimeEntry input b with
        | (Data e, b') =>
            TimeEntry.minutes e = enforceMinimum (AddManualTimeEntryInput.minutes input)
            /\ 1 <= TimeEntry.minutes e
            /\ time_entries b' = (time_entries b ++ [e])%list
        | (Error _, b') => time_entries b' = time_entries b
        end)
  /\ (forall taskId startedAt b,
        match stopTimer taskId startedAt b with
        | (Data e, b') =>
            TimeEntry.minutes e
            = enforceMinimum (Math_round_div (clock b - startedAt) 60000)
            /\ 1 <= TimeEntry.minutes e
            /\ time_entries b' = (time_entries b ++ [e])%list
        | (Error _, b') => time_entries b' = time_entries b
        end)
  /\ (forall br p w, oldOrMinuted (backend w) (backend (handleCellSave br p w).2))
  /\ (forall br taskId date p w,
        oldOrMinuted (backend w) (backend (handleDeleteTimeForDay br taskId date p w).2))
  /\ (forall input b user,
        session b = Some user ->
        notAssignee (AddManualTimeEntryInput.task_id input) user b = false ->
        insert_fault b = false ->
        exists e b',
          addManualTimeEntry input b = (Data e, b')
          /\ TimeEntry.minutes e = enforceMinimum (AddManualTimeEntryInput.minutes input)
          /\ (AddManualTimeEntryInput.minutes input < 1 -> TimeEntry.minutes e = 1)
          /\ time_entries b' = (time_entries b ++ [e])%list)
  /\ (forall taskId startedAt b user,
        session b = Some user ->
        notAssignee taskId user b = false ->
        insert_fault b = false ->
        exists e b',
          stopTimer taskId startedAt b = (Data e, b')
          /\ TimeEntry.minutes e
             = enforceMinimum (Math_round_div (clock b - startedAt) 60000)
          /\ (clock b - startedAt < 90000 -> TimeEntry.minutes e = 1)
          /\ time_entries b' = (time_entries b ++ [e])%list).
Proof.
  split; [exact enforceMinimum_spec|]. split; [|split; [|split; [|split; [|split]]]].
  - intros input b. pose proof (addManualTimeEntry_spec input b) as Hspec.
    destruct (addManualTimeEntry input b) as [[e|msg] b'].
    + destruct Hspec as (Hmin & _ & _ & _ & Hentries).
      repeat split; try assumption. rewrite Hmin. apply enforceMinimum_spec.
    + by subst b'.
  - intros taskId startedAt b. pose proof (stopTimer_spec taskId startedAt b) as Hspec.
    destruct (stopTimer taskId startedAt b) as [[e|msg] b'].
    + destruct Hspec as (Hmin & _ & _ & _ & Hentries).
      repeat split; try assumption. rewrite Hmin. apply enforceMinimum_spec.
    + by subst b'.
  - intros br p w. apply handleCellSave_minuted.
  - intros br taskId date p w. apply handleDeleteTimeForDay_minuted.
  - intros input b user Hsession Hna Hfault.
    destruct (addManualTimeEntry_written input b user Hsession Hna Hfault)
      as (e & b' & Hadd & Hmin & Hentries).
    exists e, b'. repeat split; try assumption.
    intros Hbelow. rewrite Hmin. by apply enforceMinimum_spec.
  - intros taskId startedAt b user Hsession Hna Hfault.
    destruct (stopTimer_written taskId startedAt b user Hsession Hna Hfault)
      as (e & b' & Hstop & Hmin & Hentries).
    exists e, b'. repeat split; try assumption.
    intros Hshort. rewrite Hmin.
    assert (Hround : Math_round_div (clock b - startedAt) 60000 < 2)
      by (unfold Math_round_div; apply Z.div_lt_upper_bound; lia).
    unfold enforceMinimum. destruct (Z.ltb_spec (Math_round_div (clock b - startedAt) 60000) 1);
      lia.
Qed.

End Reconciler.

(** C10. A successful [stopTimer] persists an entry whose minutes are the
    elapsed time from [startedAt] to the stop instant, divided by 60000 ms
    and rounded to the nearest minute, a half going up, and at least 1;
    [started_at] and [ended_at] are the two instants. *)
Theorem stopTimer_records_rounded_elapsed_minutes
  (taskId : string) (startedAt : Z) (b b' : Backend) (data : TimeEntry.t) :
  stopTimer taskId startedAt b = (Data data, b') ->
  let elapsed := clock b - startedAt in
  let rounded := Math_round_div elapsed 60000 in
  60000 * rounded - 30000 <= elapsed < 60000 * rounded + 30000
  /\ TimeEntry.minutes data = Z.max 1 rounded
  /\ TimeEntry.started_at data = Some startedAt
  /\ TimeEntry.ended_at data = Some (clock b)
  /\ time_entries b' = (time_entries b ++ [data])%list.
Proof.
  intros Hstop elapsed rounded.
  pose proof (stopTimer_spec taskId startedAt b) as Hspec. rewrite Hstop in Hspec.
  destruct Hspec as (Hmin & _ & Hstart & Hend & Hentries).
  split.
  - pose proof (Math_round_div_nearest elapsed 60000 ltac:(lia)) as Hnear.
    simpl in Hnear. fold rounded in Hnear. lia.
  - repeat split; try assumption. rewrite Hmin. fold elapsed rounded.
    unfold enforceMinimum. destruct (Z.ltb_spec rounded 1); lia.
Qed.

Example stopTimer_89_seconds :
  Z.max 1 (Math_round_div 89000 60000) = 1.
Proof. reflexivity. Qed.

Example stopTimer_150_seconds :
  Z.max 1 (Math_round_div 150000 60000) = 3.
Proof. reflexivity. Qed.

(** ** The delete loop of the day delete *)

Lemma deleteTimeEntry_error_unchanged timeEntryId b message :
  (deleteTimeEntry timeEntryId b).1 = Error message -> (deleteTimeEntry timeEntryId b).2 = b.
Proof.
  unfold deleteTimeEntry. destruct (session b) as [user|]; [|reflexivity].
  destruct (single _) as [timeEntry|]; [|reflexivity].
  destruct (negb _); [reflexivity|]. destruct (bool_decide _); [reflexivity|].
  discriminate.
Qed.

(** After a delete that fails, [handleDeleteTimeForDay] shows the error and
    issues no further delete, whatever entries remain in the batch. *)
Lemma deleteUntilError_stops_at_failure entry rest w message :
  (deleteTimeEntry (TimeEntry.id entry) (backend w)).1 = Error message ->
  deleteUntilError (entry :: rest) w
  = (tt, mkWorld (backend w) (calls w ++ [CallDeleteTimeEntry (TimeEntry.id entry)])
           (alerts w ++ [message])).
Proof.
  intros Herr. pose proof (deleteTimeEntry_error_unchanged _ _ _ Herr) as Hsame.
  simpl. unfold bind, call.
  destruct (deleteTimeEntry (TimeEntry.id entry) (backend w)) as [r b'].
  simpl in Herr, Hsame. subst r b'. reflexivity.
Qed.

(** ** The model at work on the January week *)

Import Scenario.

Example stopTimer_after_89_seconds :
  (stopTimer "A" (wednesdayNoon - 89000) (backendWith [] [])).1
  = Data (TimeEntry.mk "te-100" "A" "u1" 1 None
            (Some (wednesdayNoon - 89000)) (Some wednesdayNoon) wednesdayNoon).
Proof. vm_compute. reflexivity. Qed.

Example stopTimer_after_150_seconds :
  (stopTimer "A" (wednesdayNoon - 150000) (backendWith [] [])).1
  = Data (TimeEntry.mk "te-100" "A" "u1" 3 None
            (Some (wednesdayNoon - 150000)) (Some wednesdayNoon) wednesdayNoon).
Proof. vm_compute. reflexivity. Qed.

(** The scenario of the specification: 45 and 15 minutes on task A on two
    days, 30 minutes on task B on the first; an entry of a task that is
    not assigned still counts for its day. *)
Example aggregate_scenario :
  let entry id task minutes instant :=
    TimeEntry.mk id task "u1" minutes None None None instant in
  let report :=
    aggregate (collation := codeUnitCollator)
      [entry "1" "A" 45 1704103200000; entry "2" "A" 15 1704189600000;
       entry "3" "B" 30 1704103200000; entry "4" "Z" 5 1704189600000]
      [taskB; taskA] "2024-01-01" "2024-01-02" in
  map_to_list (TimesheetData.daily_totals report)
    ≡ₚ [("2024-01-01", 75); ("2024-01-02", 20)]
  /\ TimesheetData.week_total report = 95
  /\ map (fun r => (TimesheetTaskData.task_id r, TimesheetTaskData.total_minutes r))
       (TimesheetData.tasks report) = [("A", 60); ("B", 30)].
Proof.
  vm_compute. split; [|split; reflexivity].
  apply perm_swap || reflexivity.
Qed.

(** With equal totals the titles decide. *)
Example aggregate_tie :
  map TimesheetTaskData.task_title
    (TimesheetData.tasks
       (aggregate (collation := codeUnitCollator) [] [taskB; taskA]
          "2024-01-01" "2024-01-02"))
  = ["Alpha"; "Beta"].
Proof. vm_compute. reflexivity. Qed.

(** C1, on the code.  On Wednesday 2024-01-03 the empty cell of task A for
    Monday 2024-01-01 is set to 0:30.  One entry of 30 minutes is inserted
    without [started_at]; it is attributed to the day of its creation, so
    after the reload the Monday cell still reads 0 and the Wednesday cell,
    which was not edited, went from 0 to 30. *)
Theorem increase_on_another_day_lands_on_today :
  let cell := Cell.mk "A" "2024-01-01" in
  let before := pageOf (backendWith [] []) cell "0:30" in
  let '(after, w) := save utc (backendWith [] []) cell "0:30" in
  parseTotalMinutes "0:30" = 30
  /\ alerts w = []
  /\ map TimeEntry.minutes (time_entries (backend w)) = [30]
  /\ map entryDate (time_entries (backend w)) = ["2024-01-03"]
  /\ currentMinutes before cell = 0
  /\ currentMinutes after cell = 0
  /\ currentMinutes before (Cell.mk "A" "2024-01-03") = 0
  /\ currentMinutes after (Cell.mk "A" "2024-01-03") = 30.
Proof. vm_compute. repeat split. Qed.

(** C3, on the code.  The handlers pick the entries to delete by a window
    of local time that ends at 23:59:59.000.  An entry started at
    23:59:59.500Z belongs to 2024-01-01 for the aggregator and is not
    picked for that day even in a UTC browser; in a browser one hour east
    of UTC an entry started at 23:30Z on 2024-01-01 is picked for
    2024-01-02 and not for 2024-01-01. *)
Theorem delete_window_is_not_the_effective_date :
  (entryDate lateEntry = "2024-01-01"
   /\ entriesToDelete utc "2024-01-01" [lateEntry] = []
   /\ time_entries (backend (deleteDay utc (backendWith [lateEntry] [])
                               (Cell.mk "A" "2024-01-01")).2) = [lateEntry]
   /\ calls (save utc (backendWith [lateEntry] []) (Cell.mk "A" "2024-01-01") "0:10").2
      = [AuthGetUser; SelectTimeEntries "A" "u1";
         CallAddManualTimeEntry
           (AddManualTimeEntryInput.mk "A" 10 (Some "Timesheet entry for 2024-01-01"));
         CallGetTimesheetData "2023-12-31" "2024-01-06"])
  /\ (entryDate eveningEntry = "2024-01-01"
      /\ entriesToDelete cet "2024-01-01" [eveningEntry] = []
      /\ entriesToDelete cet "2024-01-02" [eveningEntry] = [eveningEntry]).
Proof. vm_compute. repeat split. Qed.

(** C4, on the code.  Task A has two entries on 2024-01-03 and the delete
    of the first one fails.  The cell edit 1:00 -> 0:10 still issues the
    second delete and the insert, and shows no alert; the day delete stops
    at the failure and shows it. *)
Theorem cell_save_ignores_a_failed_delete :
  let b := backendWith [morning1; morning2] ["te-1"] in
  let cell := Cell.mk "A" "2024-01-03" in
  (deleteTimeEntry "te-1" b).1 = Error remoteFailure
  /\ calls (save utc b cell "0:10").2
     = [AuthGetUser; SelectTimeEntries "A" "u1";
        CallDeleteTimeEntry "te-1"; CallDeleteTimeEntry "te-2";
        CallAddManualTimeEntry
          (AddManualTimeEntryInput.mk "A" 10 (Some "Timesheet entry for 2024-01-03"));
        CallGetTimesheetData "2023-12-31" "2024-01-06"]
  /\ alerts (save utc b cell "0:10").2 = []
  /\ calls (deleteDay utc b cell).2
     = [AuthGetUser; SelectTimeEntries "A" "u1"; CallDeleteTimeEntry "te-1";
        CallGetTimesheetData "2023-12-31" "2024-01-06"]
  /\ alerts (deleteDay utc b cell).2 = [remoteFailure].
Proof. vm_compute. repeat split. Qed.

(** C5 fails on a malformed value.  "abc" is no "H:MM"; typed into the
    Wednesday cell of task A, which holds 60 minutes, it is read as 0: no
    alert is shown, and the entries of the day are deleted. *)
Lemma malformed_value_is_read_as_zero :
  let b := backendWith [morning1; morning2] [] in
  let cell := Cell.mk "A" "2024-01-03" in
  isHMM "abc" = false
  /\ parseTotalMinutes "abc" = 0
  /\ alerts (save utc b cell "abc").2 = []
  /\ calls (save utc b cell "abc").2
     = [AuthGetUser; SelectTimeEntries "A" "u1";
        CallDeleteTimeEntry "te-1"; CallDeleteTimeEntry "te-2";
        CallGetTimesheetData "2023-12-31" "2024-01-06"]
  /\ time_entries (backend (save utc b cell "abc").2) = [].
Proof. vm_compute. repeat split. Qed.

(** ** The collation by code units is a consistent comparator *)

Lemma compare_not_Gt_trans a b c :
  String.compare a b <> Gt -> String.compare b c <> Gt -> String.compare a c <> Gt.
Proof.
  revert b c. induction a as [|x a IH]; intros [|y b] [|z c]; simpl; try congruence.
  unfold Ascii.compare.
  destruct (N.compare_spec (N_of_ascii x) (N_of_ascii y)),
           (N.compare_spec (N_of_ascii y) (N_of_ascii z)),
           (N.compare_spec (N_of_ascii x) (N_of_ascii z));
    try congruence; try lia; eauto.
Qed.

Lemma codeUnitCollator_total a b :
  0 < localeCompare (Collator := codeUnitCollator) a b ->
  localeCompare (Collator := codeUnitCollator) b a <= 0.
Proof.
  unfold localeCompare, codeUnitCollator. rewrite (String.compare_antisym a b).
  destruct (String.compare b a); simpl; lia.
Qed.

Lemma codeUnitCollator_trans a b c :
  localeCompare (Collator := codeUnitCollator) a b <= 0 ->
  localeCompare (Collator := codeUnitCollator) b c <= 0 ->
  localeCompare (Collator := codeUnitCollator) a c <= 0.
Proof.
  unfold localeCompare, codeUnitCollator. intros Hab Hbc.
  pose proof (compare_not_Gt_trans a b c) as Htrans.
  destruct (String.compare a b), (String.compare b c), (String.compare a c);
    try lia; exfalso; apply Htrans; congruence.
Qed.

(** ** The theorems with a hypothesis, at an input *)

Lemma every_task_has_exactly_one_row_witness :
  NoDup (map Task.id [taskA; taskB])
  /\ In taskB [taskA; taskB]
  /\ let report :=
       aggregate (collation := codeUnitCollator) [morning1; morning2] [taskA; taskB]
         "2023-12-31" "2024-01-06" in
     exists row,
       List.filter (fun r => String.eqb (TimesheetTaskData.task_id r) (Task.id taskB))
         (TimesheetData.tasks report) = [row]
       /\ TimesheetTaskData.task_id row = Task.id taskB
       /\ TimesheetTaskData.task_title row = Task.title taskB
       /\ TimesheetTaskData.task_status row = Task.status taskB
       /\ TimesheetTaskData.assignee_id row = Task.assignee_id taskB
       /\ (List.filter (ofTask (Task.id taskB))
             (List.filter (inRange "2023-12-31" "2024-01-06") [morning1; morning2]) = [] ->
           TimesheetTaskData.total_minutes row = 0
           /\ TimesheetTaskData.daily_time row = ∅).
Proof.
  assert (Hnd : NoDup (map Task.id [taskA; taskB])).
  { apply (bool_decide_unpack _). vm_compute. exact I. }
  assert (Hin : In taskB [taskA; taskB]) by (simpl; auto).
  split; [exact Hnd|]. split; [exact Hin|].
  exact (every_task_has_exactly_one_row (collation := codeUnitCollator)
           [morning1; morning2] [taskA; taskB] "2023-12-31" "2024-01-06" taskB Hnd Hin).
Defined.

Lemma report_rows_are_sorted_witness :
  (forall a b, 0 < localeCompare (Collator := codeUnitCollator) a b ->
               localeCompare (Collator := codeUnitCollator) b a <= 0)
  /\ (forall a b c,
        localeCompare (Collator := codeUnitCollator) a b <= 0 ->
        localeCompare (Collator := codeUnitCollator) b c <= 0 ->
        localeCompare (Collator := codeUnitCollator) a c <= 0)
  /\ StronglySorted (rowOrder (collation := codeUnitCollator))
       (TimesheetData.tasks
          (aggregate (collation := codeUnitCollator) [morning1; morning2] [taskB; taskA]
             "2023-12-31" "2024-01-06"))
  /\ Permutation
       (TimesheetData.tasks
          (aggregate (collation := codeUnitCollator) [morning1; morning2] [taskB; taskA]
             "2023-12-31" "2024-01-06"))
       (map (fun kr => (rowAfter "2023-12-31" "2024-01-06" [morning1; morning2] kr).2)
          (initTaskMap [taskB; taskA])).
Proof.
  split; [exact codeUnitCollator_total|]. split; [exact codeUnitCollator_trans|].
  exact (report_rows_are_sorted (collation := codeUnitCollator)
           codeUnitCollator_total codeUnitCollator_trans
           [morning1; morning2] [taskB; taskA] "2023-12-31" "2024-01-06").
Defined.

Lemma writers_persist_at_least_one_minute_witness :
  let b := backendWith [] [] in
  (exists e b',
     addManualTimeEntry (AddManualTimeEntryInput.mk "A" 0 None) b = (Data e, b')
     /\ TimeEntry.minutes e = 1
     /\ time_entries b' = [e])
  /\ (exists e b',
        stopTimer "A" (wednesdayNoon - 1000) b = (Data e, b')
        /\ TimeEntry.minutes e = 1
        /\ time_entries b' = [e]).
Proof.
  intros b.
  destruct (writers_persist_at_least_one_minute (collation := codeUnitCollator))
    as (_ & _ & _ & _ & _ & Hadd & Hstop).
  assert (Hsession : session b = Some "u1") by reflexivity.
  assert (Hna : notAssignee "A" "u1" b = false) by (vm_compute; reflexivity).
  assert (Hfault : insert_fault b = false) by reflexivity.
  split.
  - destruct (Hadd (AddManualTimeEntryInput.mk "A" 0 None) b "u1" Hsession Hna Hfault)
      as (e & b' & Hcall & _ & Hone & Hentries).
    exists e, b'. split; [exact Hcall|]. split; [apply Hone; simpl; lia | exact Hentries].
  - destruct (Hstop "A" (wednesdayNoon - 1000) b "u1" Hsession Hna Hfault)
      as (e & b' & Hcall & _ & Hone & Hentries).
    exists e, b'. split; [exact Hcall|].
    split; [apply Hone; unfold b, backendWith, wednesdayNoon; simpl; lia | exact Hentries].
Defined.

Lemma unchanged_cell_issues_no_remote_call_witness :
  let b := backendWith [morning1; morning2] [] in
  let cell := Cell.mk "A" "2024-01-03" in
  let p := pageOf b cell "1:00" in
  editingCell p = Some cell
  /\ parseTotalMinutes (editValue p) = currentMinutes p cell
  /\ calls (handleCellSave (collation := codeUnitCollator) utc p (freshWorld b)).2
     = calls (freshWorld b)
  /\ backend (handleCellSave (collation := codeUnitCollator) utc p (freshWorld b)).2
     = backend (freshWorld b).
Proof.
  intros b cell p.
  assert (Hcell : editingCell p = Some cell) by (vm_compute; reflexivity).
  assert (Hsame : parseTotalMinutes (editValue p) = currentMinutes p cell)
    by (vm_compute; reflexivity).
  split; [exact Hcell|]. split; [exact Hsame|].
  exact (unchanged_cell_issues_no_remote_call (collation := codeUnitCollator)
           utc p (freshWorld b) cell Hcell Hsame).
Defined.

Lemma negative_total_is_rejected_before_any_call_witness :
  let b := backendWith [morning1; morning2] [] in
  let cell := Cell.mk "A" "2024-01-03" in
  let p := pageOf b cell "-1:30" in
  editingCell p = Some cell
  /\ parseTotalMinutes (editValue p) < 0
  /\ handleCellSave (collation := codeUnitCollator) utc p (freshWorld b)
     = (p, mkWorld (backend (freshWorld b)) (calls (freshWorld b))
             (alerts (freshWorld b) ++ ["Time cannot be negative"])).
Proof.
  intros b cell p.
  assert (Hcell : editingCell p = Some cell) by (vm_compute; reflexivity).
  assert (Hneg : parseTotalMinutes (editValue p) < 0) by (vm_compute; reflexivity).
  split; [exact Hcell|]. split; [exact Hneg|].
  exact (negative_total_is_rejected_before_any_call (collation := codeUnitCollator)
           utc p (freshWorld b) cell Hcell Hneg).
Defined.

Lemma stopTimer_records_rounded_elapsed_minutes_witness :
  let b := backendWith [] [] in
  let startedAt := wednesdayNoon - 150000 in
  let data :=
    TimeEntry.mk "te-100" "A" "u1" 3 None (Some startedAt) (Some wednesdayNoon)
      wednesdayNoon in
  let b' := mkBackend (Some "u1") [taskA; taskB] [data] 101 wednesdayNoon [] false false in
  stopTimer "A" startedAt b = (Data data, b')
  /\ (let elapsed := clock b - startedAt in
      let rounded := Math_round_div elapsed 60000 in
      60000 * rounded - 30000 <= elapsed < 60000 * rounded + 30000
      /\ TimeEntry.minutes data = Z.max 1 rounded
      /\ TimeEntry.started_at data = Some startedAt
      /\ TimeEntry.ended_at data = Some (clock b)
      /\ time_entries b' = (time_entries b ++ [data])%list).
Proof.
  intros b startedAt data b'.
  assert (Hstop : stopTimer "A" startedAt b = (Data data, b')) by (vm_compute; reflexivity).
  split; [exact Hstop|].
  exact (stopTimer_records_rounded_elapsed_minutes "A" startedAt b b' data Hstop).
Defined.


(** ** The order of the entries *)

Section Order.

Lemma sumMinutes_perm l l' : Permutation l l' -> sumMinutes l = sumMinutes l'.
Proof.
  induction 1 as [|x l l' _ IH|x y l|l1 l2 l3 _ IH1 _ IH2]; simpl; lia.
Qed.

Lemma option_eq_by_default (o1 o2 : option Z) :
  (is_Some o1 <-> is_Some o2) -> default 0 o1 = default 0 o2 -> o1 = o2.
Proof.
  destruct o1, o2; simpl; intros Hs Hd; try congruence.
  - destruct Hs as [Hs _]. destruct Hs; [eauto | discriminate].
  - destruct Hs as [_ Hs]. destruct Hs; [eauto | discriminate].
Qed.

Lemma addEntries_perm l l' totals :
  Permutation l l' -> addEntries l totals = addEntries l' totals.
Proof.
  intros Hperm. apply map_eq. intros d. apply option_eq_by_default.
  - rewrite !addEntries_is_Some. split; intros [?|(entry & Hin & Hd)]; auto;
      right; exists entry; split; auto.
    + eapply Permutation_in; eassumption.
    + eapply Permutation_in; [symmetry|]; eassumption.
  - rewrite !addEntries_lookup. f_equal. apply sumMinutes_perm, filter_perm, Hperm.
Qed.

Lemma row_eta (r : TimesheetTaskData.t) :
  r = TimesheetTaskData.mk (TimesheetTaskData.task_id r) (TimesheetTaskData.task_title r)
        (TimesheetTaskData.task_status r) (TimesheetTaskData.assignee_id r)
        (TimesheetTaskData.daily_time r) (TimesheetTaskData.total_minutes r).
Proof. by destruct r. Qed.

Lemma rowAfter_perm startDate endDate l l' kr :
  Permutation l l' ->
  (rowAfter startDate endDate l kr).2 = (rowAfter startDate endDate l' kr).2.
Proof.
  intros Hperm.
  pose proof (rowAfter_spec startDate endDate l kr) as (H1 & H2 & H3 & H4 & H5 & H6).
  pose proof (rowAfter_spec startDate endDate l' kr) as (G1 & G2 & G3 & G4 & G5 & G6).
  rewrite (row_eta (rowAfter startDate endDate l kr).2).
  rewrite (row_eta (rowAfter startDate endDate l' kr).2).
  rewrite H1, H2, H3, H4, H5, H6, G1, G2, G3, G4, G5, G6.
  assert (Hmine : Permutation
            (List.filter (ofTask kr.1) (List.filter (inRange startDate endDate) l))
            (List.filter (ofTask kr.1) (List.filter (inRange startDate endDate) l')))
    by (by do 2 apply filter_perm).
  f_equal; [by apply addEntries_perm | f_equal; by apply sumMinutes_perm].
Qed.

End Order.

(** X1. The report does not depend on the order of the time entries: two
    lists with the same entries, in any order, give the same rows, the same
    daily totals and the same week total. *)
Theorem aggregate_ignores_entry_order `{collation : Collator}
  (timeEntries timeEntries' : list TimeEntry.t) (tasks : list Task.t)
  (startDate endDate : string) :
  Permutation timeEntries timeEntries' ->
  aggregate timeEntries tasks startDate endDate
  = aggregate timeEntries' tasks startDate endDate.
Proof.
  intros Hperm.
  pose proof (aggregate_tasks timeEntries tasks startDate endDate) as Ht.
  pose proof (aggregate_tasks timeEntries' tasks startDate endDate) as Ht'.
  pose proof (aggregate_daily_totals timeEntries tasks startDate endDate) as Hd.
  pose proof (aggregate_daily_totals timeEntries' tasks startDate endDate) as Hd'.
  pose proof (aggregate_week_total timeEntries tasks startDate endDate) as Hw.
  pose proof (aggregate_week_total timeEntries' tasks startDate endDate) as Hw'.
  destruct (aggregate timeEntries tasks startDate endDate) as [rows totals week].
  destruct (aggregate timeEntries' tasks startDate endDate) as [rows' totals' week'].
  simpl in *. subst.
  assert (Htotals : addEntries (List.filter (inRange startDate endDate) timeEntries) ∅
                    = addEntries (List.filter (inRange startDate endDate) timeEntries') ∅)
    by (by apply addEntries_perm, filter_perm).
  rewrite Htotals. f_equal. f_equal.
  apply List.map_ext. intros kr. by apply rowAfter_perm.
Qed.


(** ** The cells of a report *)

Section Find.

Context {A : Type} (key : A -> string).

Lemma find_unique (t : string) (l : list A) (r : A) :
  NoDup (map key l) -> In r l -> key r = t ->
  find (fun x => String.eqb (key x) t) l = Some r.
Proof.
  induction l as [|x l IH]; simpl; [tauto|].
  intros Hnd Hin Hkey. apply NoDup_cons in Hnd as [Hx Hnd].
  destruct (String.eqb_spec (key x) t) as [Heq|Hne].
  - destruct Hin as [->|Hin]; [reflexivity|].
    exfalso. apply Hx. rewrite Heq, <- Hkey. apply list_elem_of_In, in_map, Hin.
  - destruct Hin as [->|Hin]; [congruence|]. by apply IH.
Qed.

Lemma find_absent (t : string) (l : list A) :
  ~ In t (map key l) -> find (fun x => String.eqb (key x) t) l = None.
Proof.
  induction l as [|x l IH]; simpl; [reflexivity|].
  intros Hnin. destruct (String.eqb_spec (key x) t) as [Heq|Hne]; [tauto|].
  apply IH. tauto.
Qed.

End Find.

Section Cells.

Context `{collation : Collator}.
Variables (timeEntries : list TimeEntry.t) (tasks : list Task.t).
Variables startDate endDate : string.

Abbreviation report := (aggregate timeEntries tasks startDate endDate).
Abbreviation inside := (List.filter (inRange startDate endDate) timeEntries).

Lemma aggregate_task_ids :
  Permutation (map TimesheetTaskData.task_id (TimesheetData.tasks report))
    (map fst (initTaskMap tasks)).
Proof.
  rewrite aggregate_tasks. rewrite (Permutation_map _ (sort_perm _ _)).
  rewrite List.map_map.
  erewrite List.map_ext_in; [reflexivity|].
  intros [k row0] Hin.
  pose proof (rowAfter_spec startDate endDate timeEntries (k, row0)) as (-> & _).
  simpl. apply seedAll_In in Hin as [[] | (t & _ & -> & ->)]. reflexivity.
Qed.

Lemma aggregate_find_assigned taskId :
  In taskId (map Task.id tasks) ->
  exists row,
    find (fun r => String.eqb (TimesheetTaskData.task_id r) taskId)
      (TimesheetData.tasks report) = Some row
    /\ TimesheetTaskData.task_id row = taskId
    /\ TimesheetTaskData.daily_time row = addEntries (List.filter (ofTask taskId) inside) ∅
    /\ TimesheetTaskData.total_minutes row
       = sumMinutes (List.filter (ofTask taskId) inside).
Proof.
  intros Hin.
  assert (Hkey : In taskId (map fst (initTaskMap tasks))).
  { unfold initTaskMap. fold (seedAll tasks []). rewrite seedAll_keys. by right. }
  apply in_map_iff in Hkey as ([k row0] & Hk & Hrow). simpl in Hk. subst k.
  pose proof (rowAfter_spec startDate endDate timeEntries (taskId, row0))
    as (Hid & _ & _ & _ & Hdaily & Htotal).
  pose proof (seedAll_In _ _ _ _ Hrow) as [[] | (t & _ & Ht & ->)].
  simpl in Hid, Hdaily, Htotal.
  exists (rowAfter startDate endDate timeEntries (taskId, seedRow t)).2.
  split; [|split; [congruence|split; [assumption|lia]]].
  apply find_unique.
  - rewrite aggregate_task_ids. apply initTaskMap_NoDup.
  - rewrite aggregate_tasks. eapply Permutation_in; [symmetry; apply sort_perm|].
    apply in_map_iff. exists (taskId, seedRow t). auto.
  - congruence.
Qed.

Lemma aggregate_find_unassigned taskId :
  ~ In taskId (map Task.id tasks) ->
  find (fun r => String.eqb (TimesheetTaskData.task_id r) taskId)
    (TimesheetData.tasks report) = None.
Proof.
  intros Hnin. apply find_absent. intros Hin. apply Hnin.
  apply (Permutation_in _ aggregate_task_ids) in Hin.
  unfold initTaskMap in Hin. fold (seedAll tasks []) in Hin.
  rewrite seedAll_keys in Hin. simpl in Hin. tauto.
Qed.

End Cells.

(** What a cell of an aggregated report holds. *)
Lemma aggregate_cell `{collation : Collator}
  (timeEntries : list TimeEntry.t) (tasks : list Task.t) (startDate endDate : string)
  (cell : Cell.t) (editing menu : option Cell.t) (value first last : string) :
  currentMinutes
    (mkPage (Some (aggregate timeEntries tasks startDate endDate)) editing value menu
       first last) cell
  = if existsb (String.eqb (Cell.taskId cell)) (map Task.id tasks)
    then sumMinutes
           (List.filter (onDate (Cell.date cell))
              (List.filter (ofTask (Cell.taskId cell))
                 (List.filter (inRange startDate endDate) timeEntries)))
    else 0.
Proof.
  unfold currentMinutes. simpl.
  destruct (existsb _ _) eqn:Hmem.
  - apply existsb_exists in Hmem as (k & Hk & Heq). apply String.eqb_eq in Heq. subst k.
    destruct (aggregate_find_assigned timeEntries tasks startDate endDate _ Hk)
      as (row & -> & _ & -> & _).
    rewrite addEntries_lookup, lookup_empty. reflexivity.
  - rewrite aggregate_find_unassigned; [reflexivity|].
    intros Hin. apply not_true_iff_false in Hmem. apply Hmem.
    apply existsb_exists. exists (Cell.taskId cell). split; [assumption|].
    apply String.eqb_refl.
Qed.


(** ** What the server actions leave alone *)

Section Frames.

Implicit Types (keep : TimeEntry.t -> bool) (b : Backend) (w : World).

Lemma sameTables_refl b : sameTables b b.
Proof. repeat split. Qed.

Lemma sameTables_trans b1 b2 b3 :
  sameTables b1 b2 -> sameTables b2 b3 -> sameTables b1 b3.
Proof.
  intros (H1 & H2 & H3 & H4 & H5 & H6) (G1 & G2 & G3 & G4 & G5 & G6).
  repeat split; congruence.
Qed.

Lemma framed_refl keep b : framed keep b b.
Proof. split; [reflexivity | apply sameTables_refl]. Qed.

Lemma framed_trans keep b1 b2 b3 :
  framed keep b1 b2 -> framed keep b2 b3 -> framed keep b1 b3.
Proof.
  intros [H1 H2] [G1 G2]. split; [congruence | eapply sameTables_trans; eassumption].
Qed.

Lemma filter_filter_out {A} (f g : A -> bool) l :
  (forall x, In x l -> g x = false -> f x = false) ->
  List.filter f (List.filter g l) = List.filter f l.
Proof.
  induction l as [|x l IH]; simpl; intros Hout; [reflexivity|].
  destruct (g x) eqn:Hg; simpl.
  - destruct (f x); [f_equal|]; apply IH; auto.
  - rewrite (Hout x) by auto. apply IH. auto.
Qed.

Lemma stdpp_filter_bool {A} (P : A -> Prop) `{forall x, Decision (P x)} (l : list A) :
  filter P l = List.filter (fun x => bool_decide (P x)) l.
Proof.
  induction l as [|x l IH]; simpl; [reflexivity|].
  rewrite filter_cons. destruct (decide (P x)).
  - rewrite bool_decide_eq_true_2 by assumption. by f_equal.
  - rewrite bool_decide_eq_false_2 by assumption. assumption.
Qed.

(** What [deleteTimeEntry] does to the entries: nothing on an error, the
    rows of that id are removed otherwise. *)
Lemma deleteTimeEntry_effect timeEntryId b :
  sameTables b (deleteTimeEntry timeEntryId b).2
  /\ (time_entries (deleteTimeEntry timeEntryId b).2 = time_entries b
      \/ time_entries (deleteTimeEntry timeEntryId b).2
         = List.filter (fun e => negb (String.eqb (TimeEntry.id e) timeEntryId))
             (time_entries b)).
Proof.
  assert (Hsame : sameTables b b /\
            (time_entries b = time_entries b
             \/ time_entries b
                = List.filter (fun e => negb (String.eqb (TimeEntry.id e) timeEntryId))
                    (time_entries b)))
    by (split; [apply sameTables_refl | by left]).
  unfold deleteTimeEntry. destruct (session b) as [user|] eqn:Hsession; [|exact Hsame].
  destruct (single _) as [timeEntry|]; [|exact Hsame].
  destruct (negb _); [exact Hsame|].
  destruct (bool_decide _); [exact Hsame|].
  simpl. split; [repeat split; by rewrite ?Hsession|]. right.
  rewrite stdpp_filter_bool. apply List.filter_ext. intros e.
  destruct (String.eqb_spec (TimeEntry.id e) timeEntryId).
  - by rewrite bool_decide_eq_false_2 by tauto.
  - by rewrite bool_decide_eq_true_2.
Qed.

Lemma deleteTimeEntry_framed keep timeEntryId b :
  (forall row, In row (time_entries b) -> TimeEntry.id row = timeEntryId -> keep row = false) ->
  framed keep b (deleteTimeEntry timeEntryId b).2
  /\ incl (time_entries (deleteTimeEntry timeEntryId b).2) (time_entries b).
Proof.
  intros Hout. unfold framed.
  destruct (deleteTimeEntry_effect timeEntryId b) as [Hsame [-> | ->]].
  - split; [split; [reflexivity | assumption] | apply incl_refl].
  - split; [split; [|assumption]|].
    + apply filter_filter_out. intros row Hin Hid.
      apply negb_false_iff, String.eqb_eq in Hid. auto.
    + intros e He. by apply filter_In in He as [He _].
Qed.

Lemma deleteEach_framed keep entries w :
  (forall row, In row (time_entries (backend w)) ->
               In (TimeEntry.id row) (map TimeEntry.id entries) -> keep row = false) ->
  framed keep (backend w) (backend (deleteEach entries w).2)
  /\ incl (time_entries (backend (deleteEach entries w).2)) (time_entries (backend w)).
Proof.
  revert w. induction entries as [|entry entries IH]; intros w Hout; simpl.
  - split; [apply framed_refl | apply incl_refl].
  - unfold bind, call.
    destruct (deleteTimeEntry_framed keep (TimeEntry.id entry) (backend w)) as [Hf Hincl].
    { intros row Hin Hid. apply Hout; [assumption | left; congruence]. }
    destruct (deleteTimeEntry (TimeEntry.id entry) (backend w)) as [r b1]. simpl in *.
    destruct (IH (mkWorld b1 (calls w ++ [CallDeleteTimeEntry (TimeEntry.id entry)])
                    (alerts w))) as [Hf' Hincl'].
    { simpl. intros row Hin Hid. apply Hout; [by apply Hincl | by right]. }
    simpl in *. split; [eapply framed_trans; eassumption|].
    eapply incl_tran; eassumption.
Qed.

Lemma deleteUntilError_framed keep entries w :
  (forall row, In row (time_entries (backend w)) ->
               In (TimeEntry.id row) (map TimeEntry.id entries) -> keep row = false) ->
  framed keep (backend w) (backend (deleteUntilError entries w).2)
  /\ incl (time_entries (backend (deleteUntilError entries w).2)) (time_entries (backend w)).
Proof.
  revert w. induction entries as [|entry entries IH]; intros w Hout; simpl.
  - split; [apply framed_refl | apply incl_refl].
  - unfold bind, call.
    destruct (deleteTimeEntry_framed keep (TimeEntry.id entry) (backend w)) as [Hf Hincl].
    { intros row Hin Hid. apply Hout; [assumption | left; congruence]. }
    destruct (deleteTimeEntry (TimeEntry.id entry) (backend w)) as [[[]|message] b1];
      simpl in *.
    + destruct (IH (mkWorld b1 (calls w ++ [CallDeleteTimeEntry (TimeEntry.id entry)])
                      (alerts w))) as [Hf' Hincl'].
      { simpl. intros row Hin Hid. apply Hout; [by apply Hincl | by right]. }
      simpl in *. split; [eapply framed_trans; eassumption|].
      eapply incl_tran; eassumption.
    + split; assumption.
Qed.

Lemma insertTimeEntry_sameTables row b : sameTables b (insertTimeEntry row b).2.
Proof.
  unfold insertTimeEntry. destruct (insert_fault b) eqn:Hfault; simpl;
    repeat split; by rewrite ?Hfault.
Qed.

Lemma addManualTimeEntry_sameTables input b : sameTables b (addManualTimeEntry input b).2.
Proof.
  unfold addManualTimeEntry. destruct (session b); [|apply sameTables_refl].
  destruct (notAssignee _ _ _); [apply sameTables_refl | apply insertTimeEntry_sameTables].
Qed.

(** The row written by [addManualTimeEntry] is of the task asked for and of
    the user of the session. *)
Lemma addManualTimeEntry_owner input b :
  match addManualTimeEntry input b with
  | (Data e, b') =>
      session b = Some (TimeEntry.user_id e)
      /\ TimeEntry.task_id e = AddManualTimeEntryInput.task_id input
      /\ notAssignee (TimeEntry.task_id e) (TimeEntry.user_id e) b = false
  | (Error _, _) => True
  end.
Proof.
  unfold addManualTimeEntry. destruct (session b) as [user|]; [|exact I].
  destruct (notAssignee _ user b) eqn:Hna; [exact I|].
  unfold insertTimeEntry. destruct (insert_fault b); simpl; auto.
Qed.

Lemma saveTimeEntry_framed keep cell minutes w :
  (forall e, TimeEntry.task_id e = Cell.taskId cell ->
             session (backend w) = Some (TimeEntry.user_id e) -> keep e = false) ->
  framed keep (backend w) (backend (saveTimeEntry cell minutes w).2).
Proof.
  intros Hout. unfold saveTimeEntry, bind, call.
  set (input := AddManualTimeEntryInput.mk _ _ _).
  pose proof (addManualTimeEntry_spec input (backend w)) as Hspec.
  pose proof (addManualTimeEntry_owner input (backend w)) as Hown.
  pose proof (addManualTimeEntry_sameTables input (backend w)) as Hsame.
  destruct (addManualTimeEntry input (backend w)) as [[e|message] b1]; simpl in *.
  - destruct Hspec as (_ & _ & _ & _ & Hentries). destruct Hown as (Hu & Ht & _).
    split; [|assumption]. rewrite Hentries, List.filter_app. simpl.
    rewrite (Hout e) by assumption. apply app_nil_r.
  - subst b1. apply framed_refl.
Qed.

End Frames.


(** ** What the handlers leave alone *)

Section HandlerFrames.

Context `{collation : Collator}.

Lemma NoDup_id_inj (entries : list TimeEntry.t) (a b : TimeEntry.t) :
  NoDup (map TimeEntry.id entries) -> In a entries -> In b entries ->
  TimeEntry.id a = TimeEntry.id b -> a = b.
Proof.
  induction entries as [|x l IH]; simpl; [tauto|].
  intros Hnd Ha Hb Hid. apply NoDup_cons in Hnd as [Hx Hnd].
  destruct Ha as [->|Ha], Hb as [->|Hb]; auto.
  - exfalso. apply Hx. rewrite Hid. apply list_elem_of_In, in_map, Hb.
  - exfalso. apply Hx. rewrite <- Hid. apply list_elem_of_In, in_map, Ha.
Qed.

Lemma foreign_own b taskId e :
  TimeEntry.task_id e = taskId -> session b = Some (TimeEntry.user_id e) ->
  foreign b taskId e = false.
Proof.
  intros Ht Hu. unfold foreign, ofTask. rewrite Ht, String.eqb_refl.
  by rewrite bool_decide_eq_true_2.
Qed.

(** The entries picked for deletion are entries of the backend, of the
    task and of the user asked for. *)
Lemma entriesToDelete_selected br date taskId user b row :
  In row (entriesToDelete br date
            (filter (fun e => TimeEntry.task_id e = taskId /\ TimeEntry.user_id e = user)
               (time_entries b))) ->
  In row (time_entries b) /\ TimeEntry.task_id row = taskId /\ TimeEntry.user_id row = user.
Proof.
  unfold entriesToDelete. intros Hin. apply filter_In in Hin as [Hin _].
  apply list_elem_of_In, list_elem_of_filter in Hin as [[Ht Hu] Hin].
  split; [by apply list_elem_of_In | auto].
Qed.

Lemma picked_not_foreign br date taskId user b :
  NoDup (map TimeEntry.id (time_entries b)) ->
  session b = Some user ->
  forall row, In row (time_entries b) ->
    In (TimeEntry.id row)
      (map TimeEntry.id
         (entriesToDelete br date
            (filter (fun e => TimeEntry.task_id e = taskId /\ TimeEntry.user_id e = user)
               (time_entries b)))) ->
    foreign b taskId row = false.
Proof.
  intros Hnd Hsession row Hrow Hid.
  apply in_map_iff in Hid as (picked & Hid & Hpicked).
  apply entriesToDelete_selected in Hpicked as (Hin & Ht & Hu).
  assert (picked = row) as -> by (eapply NoDup_id_inj; eassumption).
  apply foreign_own; congruence.
Qed.

Lemma reduceCell_framed br cell totalMinutes w :
  NoDup (map TimeEntry.id (time_entries (backend w))) ->
  framed (foreign (backend w) (Cell.taskId cell)) (backend w)
    (backend (reduceCell br cell totalMinutes w).2).
Proof.
  intros Hnd. unfold reduceCell, authGetUser, selectTimeEntries, bind, call. simpl.
  destruct (session (backend w)) as [user|] eqn:Hsession; simpl; [|apply framed_refl].
  assert (Hsave : forall w2,
            framed (foreign (backend w) (Cell.taskId cell)) (backend w) (backend w2) ->
            framed (foreign (backend w) (Cell.taskId cell)) (backend w)
              (backend ((if 0 <? totalMinutes then saveTimeEntry cell totalMinutes
                         else ret tt) w2).2)).
  { intros w2 Hw2. destruct (0 <? totalMinutes); [|exact Hw2].
    eapply framed_trans; [exact Hw2|].
    apply saveTimeEntry_framed. intros e Ht Hu.
    apply foreign_own; [assumption|]. destruct Hw2 as (_ & Hs & _). congruence. }
  destruct (select_fault (backend w)); simpl.
  - apply Hsave. apply framed_refl.
  - match goal with |- context [deleteEach ?l ?w1] =>
      pose proof (deleteEach_framed (foreign (backend w) (Cell.taskId cell)) l w1) as Hdel;
      destruct (deleteEach l w1) as [[] w2]
    end.
    simpl in Hdel. apply Hsave. apply Hdel.
    apply picked_not_foreign; assumption.
Qed.

Lemma loadTimesheetData_backend p w : backend (loadTimesheetData p w).2 = backend w.
Proof.
  unfold loadTimesheetData, bind, call. simpl.
  destruct (getTimesheetData _ _ _); reflexivity.
Qed.

Lemma handleCellSave_framed br p w cell :
  NoDup (map TimeEntry.id (time_entries (backend w))) ->
  editingCell p = Some cell ->
  framed (foreign (backend w) (Cell.taskId cell)) (backend w)
    (backend (handleCellSave br p w).2).
Proof.
  intros Hnd Hcell. unfold handleCellSave. rewrite Hcell.
  destruct (_ <? 0); [apply framed_refl|].
  unfold bind at 1. destruct (negb _); [|apply framed_refl].
  unfold bind at 1.
  match goal with |- context [(if ?c then reduceCell br cell ?t else saveTimeEntry cell ?d) w] =>
    assert (Hstep : framed (foreign (backend w) (Cell.taskId cell)) (backend w)
                      (backend ((if c then reduceCell br cell t
                                 else saveTimeEntry cell d) w).2));
    [destruct c; [by apply reduceCell_framed
                 | apply saveTimeEntry_framed; intros; by apply foreign_own]
    | destruct ((if c then reduceCell br cell t else saveTimeEntry cell d) w)
        as [[] w1] ]
  end.
  simpl in Hstep.
  pose proof (loadTimesheetData_backend p w1) as Hload.
  destruct (loadTimesheetData p w1) as [p1 w2]. simpl in *. by rewrite Hload.
Qed.

Lemma handleDeleteTimeForDay_framed br taskId date p w :
  NoDup (map TimeEntry.id (time_entries (backend w))) ->
  framed (foreign (backend w) taskId) (backend w)
    (backend (handleDeleteTimeForDay br taskId date p w).2)
  /\ incl (time_entries (backend (handleDeleteTimeForDay br taskId date p w).2))
       (time_entries (backend w)).
Proof.
  intros Hnd. unfold handleDeleteTimeForDay.
  destruct (negb _); [split; [apply framed_refl | apply incl_refl]|].
  unfold authGetUser, selectTimeEntries, bind, call. simpl.
  destruct (session (backend w)) as [user|] eqn:Hsession; simpl;
    [|split; [apply framed_refl | apply incl_refl]].
  destruct (select_fault (backend w)); simpl;
    [split; [apply framed_refl | apply incl_refl]|].
  destruct (filter _ (time_entries (backend w))) as [|first rest] eqn:Hfetched;
    [split; [apply framed_refl | apply incl_refl]|].
  lazy beta iota. rewrite <- Hfetched.
  set (w1 := mkWorld (backend w) _ (alerts w)).
  destruct (deleteUntilError_framed (foreign (backend w) taskId)
              (entriesToDelete br date
                 (filter (fun e => TimeEntry.task_id e = taskId /\ TimeEntry.user_id e = user)
                    (time_entries (backend w)))) w1) as [Hf Hincl].
  { simpl. apply picked_not_foreign; assumption. }
  destruct (deleteUntilError _ w1) as [[] w2]. simpl in *.
  rewrite loadTimesheetData_backend. auto.
Qed.

End HandlerFrames.


(** ** The loaded report and the table *)

Section LoadedReport.

Context `{collation : Collator}.

Lemma filter_filter_and {A} (f g : A -> bool) l :
  List.filter f (List.filter g l) = List.filter (fun x => g x && f x) l.
Proof.
  induction l as [|x l IH]; simpl; [reflexivity|].
  destruct (g x); simpl; [destruct (f x); by rewrite IH | exact IH].
Qed.

Lemma getTimesheetData_Data startDate endDate b report :
  getTimesheetData startDate endDate b = Data report ->
  exists user,
    session b = Some user /\ select_fault b = false
    /\ report = aggregate
                  (orderByCreatedAt (filter (fun e => TimeEntry.user_id e = user)
                                       (time_entries b)))
                  (filter (fun t => Task.assignee_id t = Some user) (tasks b))
                  startDate endDate.
Proof.
  unfold getTimesheetData. destruct (session b) as [user|]; [|discriminate].
  destruct (select_fault b); [discriminate|]. intros [= <-]. eauto.
Qed.

(** The minutes that count for a cell, summed over the sorted entries of
    the user or over the table, are the same. *)
Lemma cell_sum_of_table user startDate endDate cell entries :
  sumMinutes
    (List.filter (onDate (Cell.date cell))
       (List.filter (ofTask (Cell.taskId cell))
          (List.filter (inRange startDate endDate)
             (orderByCreatedAt (filter (fun e => TimeEntry.user_id e = user) entries)))))
  = sumMinutes (List.filter (inCell user startDate endDate cell) entries).
Proof.
  rewrite (sumMinutes_perm _
             (List.filter (onDate (Cell.date cell))
                (List.filter (ofTask (Cell.taskId cell))
                   (List.filter (inRange startDate endDate)
                      (filter (fun e => TimeEntry.user_id e = user) entries))))).
  - rewrite stdpp_filter_bool, !filter_filter_and. f_equal.
    apply List.filter_ext. intros x. unfold inCell. by rewrite !andb_assoc.
  - do 3 apply filter_perm. apply sort_perm.
Qed.

Lemma loaded_cell p b report user cell :
  timesheetData p = Some report ->
  getTimesheetData (startDateStr p) (endDateStr p) b = Data report ->
  session b = Some user ->
  currentMinutes p cell
  = if assignedTo user (tasks b) (Cell.taskId cell)
    then sumMinutes
           (List.filter (inCell user (startDateStr p) (endDateStr p) cell) (time_entries b))
    else 0.
Proof.
  intros Hp Hreport Hsession.
  apply getTimesheetData_Data in Hreport as (user' & Hsession' & _ & ->).
  assert (user' = user) as -> by congruence.
  destruct p as [data editing value menu first last]. simpl in *. subst data.
  rewrite aggregate_cell.
  unfold assignedTo. destruct (existsb _ _); [|reflexivity].
  apply cell_sum_of_table.
Qed.

End LoadedReport.


(** ** The report read on the table *)

Section ReportOfTable.

Context `{collation : Collator}.

(** X2. A report returned by [getTimesheetData] reads the table: the week
    total is the sum of the minutes of the user's entries in the range, the
    total of a day is that sum over the entries of the day, and a cell shows
    the sum over the user's entries in the range that are of the task and of
    the day, when the task is assigned to the user, and 0 otherwise. *)
Theorem loaded_report_reads_the_table
  (startDate endDate : string) (b : Backend) (report : TimesheetData.t) (user : string) :
  getTimesheetData startDate endDate b = Data report ->
  session b = Some user ->
  let mine :=
    List.filter (fun e => bool_decide (TimeEntry.user_id e = user)
                          && inRange startDate endDate e) (time_entries b) in
  TimesheetData.week_total report = sumMinutes mine
  /\ (forall date,
        default 0 (TimesheetData.daily_totals report !! date)
        = sumMinutes (List.filter (onDate date) mine))
  /\ (forall cell,
        currentMinutes (mkPage (Some report) None "" None startDate endDate) cell
        = if assignedTo user (tasks b) (Cell.taskId cell)
          then sumMinutes
                 (List.filter (inCell user startDate endDate cell) (time_entries b))
          else 0).
Proof.
  intros Hreport Hsession mine.
  pose proof (getTimesheetData_Data _ _ _ _ Hreport) as (user' & Hsession' & _ & Hagg).
  assert (user' = user) as -> by congruence.
  assert (Hmine : Permutation
            (List.filter (inRange startDate endDate)
               (orderByCreatedAt (filter (fun e => TimeEntry.user_id e = user)
                                    (time_entries b))))
            mine).
  { unfold mine. rewrite <- filter_filter_and, <- stdpp_filter_bool.
    apply filter_perm, sort_perm. }
  split; [|split].
  - rewrite Hagg, aggregate_week_total, aggregate_daily_totals.
    rewrite addEntries_sum, sumValues_empty. simpl. by apply sumMinutes_perm.
  - intros date. rewrite Hagg, aggregate_daily_totals.
    rewrite addEntries_lookup, lookup_empty. simpl.
    by apply sumMinutes_perm, filter_perm.
  - intros cell.
    by apply (loaded_cell (mkPage (Some report) None "" None startDate endDate)
                b report user cell).
Qed.

(** X3. A day is a key of [daily_totals] exactly when some entry in the
    range has it as effective date; a day of a row's [daily_time] is a key of
    [daily_totals]; and every such key lies between [startDate] and
    [endDate] in the order of strings. *)
Theorem report_has_no_day_outside_the_range
  (timeEntries : list TimeEntry.t) (tasks : list Task.t) (startDate endDate date : string) :
  let report := aggregate timeEntries tasks startDate endDate in
  (is_Some (TimesheetData.daily_totals report !! date)
   <-> exists entry, In entry timeEntries
                     /\ inRange startDate endDate entry = true
                     /\ entryDate entry = date)
  /\ (forall row,
        In row (TimesheetData.tasks report) ->
        is_Some (TimesheetTaskData.daily_time row !! date) ->
        is_Some (TimesheetData.daily_totals report !! date))
  /\ (is_Some (TimesheetData.daily_totals report !! date) ->
      JsString.ge date startDate = true /\ JsString.le date endDate = true).
Proof.
  intros report.
  assert (Htotals : is_Some (TimesheetData.daily_totals report !! date)
                    <-> exists entry, In entry timeEntries
                                      /\ inRange startDate endDate entry = true
                                      /\ entryDate entry = date).
  { unfold report. rewrite aggregate_daily_totals, addEntries_is_Some, lookup_empty.
    split.
    - intros [[? [=]] | (entry & Hin & Hd)]. apply filter_In in Hin as [Hin Hr]. eauto.
    - intros (entry & Hin & Hr & Hd). right. exists entry.
      split; [apply filter_In; auto | assumption]. }
  split; [exact Htotals|]. split.
  - intros row Hrow Hsome. apply Htotals.
    apply aggregate_row in Hrow as (t & _ & ->).
    pose proof (rowAfter_spec startDate endDate timeEntries (Task.id t, seedRow t))
      as (_ & _ & _ & _ & Hdaily & _).
    rewrite Hdaily in Hsome. simpl in Hsome.
    apply addEntries_is_Some in Hsome as [[? Hempty] | (entry & Hin & Hd)].
    { by rewrite lookup_empty in Hempty. }
    apply filter_In in Hin as [Hin _]. apply filter_In in Hin as [Hin Hr]. eauto.
  - intros Hsome. apply Htotals in Hsome as (entry & _ & Hr & <-).
    unfold inRange in Hr. by apply andb_true_iff in Hr.
Qed.

End ReportOfTable.


(** ** The writers and the entries of others *)

Section ServerActions.

Lemma notAssignee_false taskId user b :
  notAssignee taskId user b = false ->
  exists task, In task (tasks b) /\ Task.id task = taskId
               /\ Task.assignee_id task = Some user.
Proof.
  unfold notAssignee.
  destruct (filter _ (tasks b)) as [|task [|]] eqn:Hfilter; simpl; try discriminate.
  intros Hassignee. apply negb_false_iff, bool_decide_eq_true in Hassignee.
  assert (Hin : task ∈ filter (fun t => Task.id t = taskId) (tasks b))
    by (rewrite Hfilter; apply list_elem_of_here).
  apply list_elem_of_filter in Hin as [Hid Hin].
  exists task. split; [by apply list_elem_of_In | auto].
Qed.

(** X4. A time entry is only ever written in the name of the user of the
    session and for a task assigned to that user, with the clock of the
    backend as [created_at]: when [addManualTimeEntry] or [stopTimer]
    succeeds, the table is the old one followed by the returned row, which
    carries these fields, and the session and the tasks are as before; when
    either fails, the backend is left as it was. *)
Theorem entries_are_written_for_the_assignee :
  (forall input b,
     match addManualTimeEntry input b with
     | (Data e, b') =>
         time_entries b' = (time_entries b ++ [e])%list
         /\ session b' = session b /\ tasks b' = tasks b
         /\ session b = Some (TimeEntry.user_id e)
         /\ TimeEntry.task_id e = AddManualTimeEntryInput.task_id input
         /\ (exists task, In task (tasks b) /\ Task.id task = TimeEntry.task_id e
                          /\ Task.assignee_id task = Some (TimeEntry.user_id e))
         /\ TimeEntry.started_at e = None
         /\ TimeEntry.created_at e = clock b
     | (Error _, b') => b' = b
     end)
  /\ (forall taskId startedAt b,
        match stopTimer taskId startedAt b with
        | (Data e, b') =>
            time_entries b' = (time_entries b ++ [e])%list
            /\ session b' = session b /\ tasks b' = tasks b
            /\ session b = Some (TimeEntry.user_id e)
            /\ TimeEntry.task_id e = taskId
            /\ (exists task, In task (tasks b) /\ Task.id task = TimeEntry.task_id e
                             /\ Task.assignee_id task = Some (TimeEntry.user_id e))
            /\ TimeEntry.created_at e = clock b
        | (Error _, b') => b' = b
        end).
Proof.
  split.
  - intros input b. unfold addManualTimeEntry.
    destruct (session b) as [user|] eqn:Hsession; [|reflexivity].
    destruct (notAssignee _ user b) eqn:Hna; [reflexivity|].
    apply notAssignee_false in Hna. unfold insertTimeEntry.
    destruct (insert_fault b); [reflexivity|]. simpl. rewrite Hsession. auto 10.
  - intros taskId startedAt b. unfold stopTimer.
    destruct (session b) as [user|] eqn:Hsession; [|reflexivity].
    destruct (notAssignee _ user b) eqn:Hna; [reflexivity|].
    apply notAssignee_false in Hna. unfold insertTimeEntry.
    destruct (insert_fault b); [reflexivity|]. simpl. rewrite Hsession. auto 10.
Qed.

(** X5. [deleteTimeEntry] removes the rows of the given id, which is the one
    row of the user of the session, or fails and changes nothing; an entry
    of another user is never removed. *)
Theorem deleteTimeEntry_removes_only_the_users_row (timeEntryId : string) (b : Backend) :
  match deleteTimeEntry timeEntryId b with
  | (Data _, b') =>
      (exists row,
         filter (fun e => TimeEntry.id e = timeEntryId) (time_entries b) = [row]
         /\ session b = Some (TimeEntry.user_id row))
      /\ time_entries b'
         = List.filter (fun e => negb (String.eqb (TimeEntry.id e) timeEntryId))
             (time_entries b)
  | (Error _, b') => b' = b
  end
  /\ (forall e, In e (time_entries b) ->
                session b <> Some (TimeEntry.user_id e) ->
                In e (time_entries (deleteTimeEntry timeEntryId b).2)).
Proof.
  assert (Hrows : forall row user,
            filter (fun e => TimeEntry.id e = timeEntryId) (time_entries b) = [row] ->
            TimeEntry.user_id row = user ->
            forall e, In e (time_entries b) -> TimeEntry.user_id e <> user ->
                      TimeEntry.id e <> timeEntryId).
  { intros row user Hfilter Huser e He Hother Hsame. apply Hother.
    assert (He' : e ∈ filter (fun e => TimeEntry.id e = timeEntryId) (time_entries b))
      by (apply list_elem_of_filter; split; [assumption | by apply list_elem_of_In]).
    rewrite Hfilter in He'. apply list_elem_of_singleton in He'. congruence. }
  unfold deleteTimeEntry.
  destruct (session b) as [user|] eqn:Hsession; [|by split].
  destruct (filter _ (time_entries b)) as [|row [|]] eqn:Hfilter;
    [by split| |by split].
  cbn [single].
  destruct (bool_decide_reflect (TimeEntry.user_id row = user)) as [Huser|Huser];
    cbn [negb]; [|by split].
  destruct (bool_decide _); [by split|].
  split; [split|].
  - exists row. split; [reflexivity | congruence].
  - cbn [time_entries]. rewrite stdpp_filter_bool. apply List.filter_ext. intros e.
    destruct (String.eqb_spec (TimeEntry.id e) timeEntryId).
    + by rewrite bool_decide_eq_false_2 by tauto.
    + by rewrite bool_decide_eq_true_2.
  - intros e He Hother. cbn [snd time_entries].
    apply list_elem_of_In, list_elem_of_filter.
    split; [|by apply list_elem_of_In].
    apply (Hrows row user eq_refl Huser e He). congruence.
Qed.

End ServerActions.

Section HandlerTheorems.

Context `{collation : Collator}.

(** X6. A cell edit leaves alone every entry of another task and every entry
    of another user, as well as the session and the tasks. *)
Theorem cell_save_keeps_foreign_entries
  (br : Browser) (p : Page) (w : World) (cell : Cell.t) :
  NoDup (map TimeEntry.id (time_entries (backend w))) ->
  editingCell p = Some cell ->
  let b' := backend (handleCellSave br p w).2 in
  List.filter (foreign (backend w) (Cell.taskId cell)) (time_entries b')
  = List.filter (foreign (backend w) (Cell.taskId cell)) (time_entries (backend w))
  /\ session b' = session (backend w)
  /\ tasks b' = tasks (backend w).
Proof.
  intros Hnd Hcell b'.
  destruct (handleCellSave_framed br p w cell Hnd Hcell) as (Hkeep & Hs & Ht & _).
  auto.
Qed.

(** X7. The day delete adds no entry and leaves alone every entry of another
    task and every entry of another user, as well as the session and the
    tasks. *)
Theorem day_delete_keeps_foreign_entries
  (br : Browser) (taskId date : string) (p : Page) (w : World) :
  NoDup (map TimeEntry.id (time_entries (backend w))) ->
  let b' := backend (handleDeleteTimeForDay br taskId date p w).2 in
  List.filter (foreign (backend w) taskId) (time_entries b')
  = List.filter (foreign (backend w) taskId) (time_entries (backend w))
  /\ (forall e, In e (time_entries b') -> In e (time_entries (backend w)))
  /\ session b' = session (backend w)
  /\ tasks b' = tasks (backend w).
Proof.
  intros Hnd b'.
  destruct (handleDeleteTimeForDay_framed br taskId date p w Hnd)
    as ((Hkeep & Hs & Ht & _) & Hincl).
  auto.
Qed.

End HandlerTheorems.


(** ** The page after a save *)

Section AfterSave.

Context `{collation : Collator}.

Lemma currentMinutes_data p1 p2 cell :
  timesheetData p1 = timesheetData p2 -> currentMinutes p1 cell = currentMinutes p2 cell.
Proof. unfold currentMinutes. by intros ->. Qed.

Lemma loadTimesheetData_page p w :
  startDateStr (loadTimesheetData p w).1 = startDateStr p
  /\ endDateStr (loadTimesheetData p w).1 = endDateStr p
  /\ (timesheetData (loadTimesheetData p w).1 = timesheetData p
      \/ exists data,
           getTimesheetData (startDateStr p) (endDateStr p) (backend w) = Data data
           /\ timesheetData (loadTimesheetData p w).1 = Some data)
  /\ calls (loadTimesheetData p w).2
     = (calls w ++ [CallGetTimesheetData (startDateStr p) (endDateStr p)])%list
  /\ alerts (loadTimesheetData p w).2 = alerts w.
Proof.
  unfold loadTimesheetData, bind, call. simpl.
  destruct (getTimesheetData _ _ _) as [data|message]; simpl; eauto 10.
Qed.

(** [handleCellSave] case by case. *)
Lemma handleCellSave_cases br p w cell :
  editingCell p = Some cell ->
  let total := parseTotalMinutes (editValue p) in
  let target := if (0 <? total) && (total <? 1) then 1 else total in
  let difference := target - currentMinutes p cell in
  let w1 := ((if difference <? 0 then reduceCell br cell target
              else saveTimeEntry cell difference) w).2 in
  handleCellSave br p w
  = if total <? 0
    then (p, mkWorld (backend w) (calls w) (alerts w ++ ["Time cannot be negative"]))
    else if difference =? 0 then (closeEdit p, w)
    else (closeEdit (loadTimesheetData p w1).1, (loadTimesheetData p w1).2).
Proof.
  intros Hcell total target difference w1. unfold handleCellSave. rewrite Hcell.
  fold total. destruct (total <? 0); [reflexivity|].
  fold target. fold difference. unfold bind at 1.
  destruct (difference =? 0); simpl; [reflexivity|].
  unfold bind. unfold w1.
  destruct ((if difference <? 0 then reduceCell br cell target
             else saveTimeEntry cell difference) w) as [[] w2]. simpl.
  destruct (loadTimesheetData p w2) as [p1 w3]. reflexivity.
Qed.

(** The report shown after a cell edit is the one shown before, or the one
    the backend gives after the edit. *)
Lemma handleCellSave_page br p w cell :
  editingCell p = Some cell ->
  startDateStr (handleCellSave br p w).1 = startDateStr p
  /\ endDateStr (handleCellSave br p w).1 = endDateStr p
  /\ (timesheetData (handleCellSave br p w).1 = timesheetData p
      \/ exists data,
           getTimesheetData (startDateStr p) (endDateStr p)
             (backend (handleCellSave br p w).2) = Data data
           /\ timesheetData (handleCellSave br p w).1 = Some data).
Proof.
  intros Hcell. rewrite (handleCellSave_cases br p w cell Hcell).
  destruct (_ <? 0); [simpl; auto|]. destruct (_ =? 0); [simpl; auto|].
  match goal with |- context [loadTimesheetData p ?w1] =>
    pose proof (loadTimesheetData_page p w1) as (Hs & He & Hdata & _);
    pose proof (loadTimesheetData_backend p w1) as Hb;
    destruct (loadTimesheetData p w1) as [p1 w2]
  end.
  simpl in *. rewrite Hb. auto.
Qed.

(** X8. When the page shows the report of the current table, a cell edit
    changes no cell of another task: after the save every cell of another
    task shows the minutes it showed before. *)
Theorem cell_save_leaves_other_tasks_cells
  (br : Browser) (p : Page) (w : World) (cell : Cell.t) (report : TimesheetData.t) :
  NoDup (map TimeEntry.id (time_entries (backend w))) ->
  editingCell p = Some cell ->
  timesheetData p = Some report ->
  getTimesheetData (startDateStr p) (endDateStr p) (backend w) = Data report ->
  forall other date,
    other <> Cell.taskId cell ->
    currentMinutes (handleCellSave br p w).1 (Cell.mk other date)
    = currentMinutes p (Cell.mk other date).
Proof.
  intros Hnd Hcell Hp Hreport other date Hother.
  destruct (handleCellSave_page br p w cell Hcell) as (Hs & He & [Hsame | (data & Hdata & Hp')]).
  { by apply currentMinutes_data. }
  destruct (handleCellSave_framed br p w cell Hnd Hcell) as (Hkeep & Hsession & Htasks & _).
  pose proof (getTimesheetData_Data _ _ _ _ Hreport) as (user & Huser & _ & _).
  rewrite (loaded_cell p (backend w) report user _ Hp Hreport Huser).
  rewrite (loaded_cell (handleCellSave br p w).1 (backend (handleCellSave br p w).2)
             data user _ Hp'); [|by rewrite Hs, He | congruence].
  rewrite Hs, He, Htasks. destruct (assignedTo _ _ _); [|reflexivity]. f_equal.
  set (keep := foreign (backend w) (Cell.taskId cell)) in *.
  set (mine := inCell user (startDateStr p) (endDateStr p) (Cell.mk other date)).
  assert (Hmine : forall l, List.filter mine (List.filter keep l) = List.filter mine l).
  { intros l. apply filter_filter_out. intros e _ Hkeep'.
    unfold keep, foreign in Hkeep'. apply orb_false_iff in Hkeep' as [Htask _].
    apply negb_false_iff in Htask. unfold ofTask in Htask. apply String.eqb_eq in Htask.
    unfold mine, inCell, ofTask. simpl.
    destruct (String.eqb_spec other (TimeEntry.task_id e)) as [Heq|_]; [congruence|].
    by rewrite andb_false_r. }
  by rewrite <- Hmine, Hkeep, Hmine.
Qed.

End AfterSave.


(** ** Raising a cell *)

Section Increase.

Context `{collation : Collator}.

Lemma addManualTimeEntry_success input b user :
  session b = Some user ->
  notAssignee (AddManualTimeEntryInput.task_id input) user b = false ->
  insert_fault b = false ->
  exists e b',
    addManualTimeEntry input b = (Data e, b')
    /\ TimeEntry.task_id e = AddManualTimeEntryInput.task_id input
    /\ TimeEntry.user_id e = user
    /\ TimeEntry.minutes e = enforceMinimum (AddManualTimeEntryInput.minutes input)
    /\ TimeEntry.started_at e = None
    /\ TimeEntry.created_at e = clock b
    /\ time_entries b' = (time_entries b ++ [e])%list
    /\ sameTables b b'.
Proof.
  intros Hsession Hna Hfault. unfold addManualTimeEntry, insertTimeEntry.
  rewrite Hsession, Hna, Hfault. do 2 eexists. split; [reflexivity|]. simpl.
  repeat split; auto.
Qed.

Lemma assignedTo_true user tasks taskId :
  (exists task, In task tasks /\ Task.id task = taskId
                /\ Task.assignee_id task = Some user) ->
  assignedTo user tasks taskId = true.
Proof.
  intros (task & Hin & Hid & Hassignee). unfold assignedTo.
  apply existsb_exists. exists taskId. split; [|apply String.eqb_refl].
  apply in_map_iff. exists task. split; [assumption|].
  apply list_elem_of_In, list_elem_of_filter. split; [assumption | by apply list_elem_of_In].
Qed.

(** X9. Raising the cell of today: when the page shows the report of the
    current table, the edited cell is of the UTC day of the backend's clock
    and within the range, the task is assigned to the user and the insert
    does not fail, then saving a total above the current one makes the cell
    show that total, with one [addManualTimeEntry] of the difference and one
    reload as the only remote calls, and no alert. *)
Theorem raising_todays_cell_reaches_the_target
  (br : Browser) (p : Page) (w : World) (cell : Cell.t) (report : TimesheetData.t)
  (user : string) :
  editingCell p = Some cell ->
  timesheetData p = Some report ->
  getTimesheetData (startDateStr p) (endDateStr p) (backend w) = Data report ->
  session (backend w) = Some user ->
  notAssignee (Cell.taskId cell) user (backend w) = false ->
  insert_fault (backend w) = false ->
  JsDate.isoDate (clock (backend w)) = Cell.date cell ->
  JsString.ge (Cell.date cell) (startDateStr p) = true ->
  JsString.le (Cell.date cell) (endDateStr p) = true ->
  0 <= parseTotalMinutes (editValue p) ->
  currentMinutes p cell < parseTotalMinutes (editValue p) ->
  currentMinutes (handleCellSave br p w).1 cell = parseTotalMinutes (editValue p)
  /\ calls (handleCellSave br p w).2
     = (calls w
        ++ [CallAddManualTimeEntry
              (AddManualTimeEntryInput.mk (Cell.taskId cell)
                 (parseTotalMinutes (editValue p) - currentMinutes p cell)
                 (Some ("Timesheet entry for " +:+ Cell.date cell)));
            CallGetTimesheetData (startDateStr p) (endDateStr p)])%list
  /\ alerts (handleCellSave br p w).2 = alerts w.
Proof.
  intros Hcell Hp Hreport Hsession Hna Hfault Htoday Hge Hle Hpos Hmore.
  rewrite (handleCellSave_cases br p w cell Hcell).
  set (total := parseTotalMinutes (editValue p)) in *.
  destruct (Z.ltb_spec total 0); [lia|].
  replace ((0 <? total) && (total <? 1)) with false
    by (symmetry; apply andb_false_iff; lia).
  set (difference := total - currentMinutes p cell).
  destruct (Z.eqb_spec difference 0); [unfold difference in *; lia|].
  destruct (Z.ltb_spec difference 0); [unfold difference in *; lia|].
  set (input := AddManualTimeEntryInput.mk (Cell.taskId cell) difference
                  (Some ("Timesheet entry for " +:+ Cell.date cell))).
  destruct (addManualTimeEntry_success input (backend w) user Hsession Hna Hfault)
    as (e & b1 & Hadd & Htask & Huser & Hminutes & Hstarted & Hcreated & Hentries & Hsame).
  assert (Hsave : saveTimeEntry cell difference w
                  = (tt, mkWorld b1 (calls w ++ [CallAddManualTimeEntry input]) (alerts w))).
  { unfold saveTimeEntry, bind, call. fold input. by rewrite Hadd. }
  rewrite Hsave. cbn [snd].
  set (w1 := mkWorld b1 _ (alerts w)).
  pose proof (getTimesheetData_Data _ _ _ _ Hreport) as (user' & Huser' & Hselect & _).
  destruct Hsame as (Hs1 & Ht1 & _ & Hf1 & _).
  assert (Hload : exists data,
            getTimesheetData (startDateStr p) (endDateStr p) b1 = Data data).
  { unfold getTimesheetData. rewrite Hs1, Hsession, Hf1, Hselect. eauto. }
  destruct Hload as (data & Hdata).
  assert (Hpage : loadTimesheetData p w1
                  = (mkPage (Some data) (editingCell p) (editValue p) (contextMenu p)
                       (startDateStr p) (endDateStr p),
                     mkWorld b1 (calls w1 ++ [CallGetTimesheetData (startDateStr p)
                                                (endDateStr p)]) (alerts w))).
  { unfold loadTimesheetData, bind, call. simpl. by rewrite Hdata. }
  rewrite Hpage. cbn [fst snd calls alerts]. split; [|split; [|reflexivity]].
  - unfold closeEdit. cbn [timesheetData contextMenu startDateStr endDateStr].
    rewrite (loaded_cell _ b1 data user cell); [|reflexivity|exact Hdata|congruence].
    cbn [startDateStr endDateStr].
    assert (Hassigned : assignedTo user (tasks (backend w)) (Cell.taskId cell) = true)
      by (apply assignedTo_true, notAssignee_false; assumption).
    rewrite Ht1, Hassigned, Hentries, List.filter_app, sumMinutes_app.
    assert (Hbefore := loaded_cell p (backend w) report user cell Hp Hreport Hsession).
    rewrite Hassigned in Hbefore. rewrite <- Hbefore.
    assert (Hin : inCell user (startDateStr p) (endDateStr p) cell e = true).
    { unfold inCell, inRange, ofTask, onDate, entryDate.
      rewrite Hstarted, Hcreated, Htoday, Htask, Huser, Hge, Hle, !String.eqb_refl.
      by rewrite bool_decide_eq_true_2. }
    simpl. rewrite Hin. simpl. rewrite Hminutes. simpl.
    unfold enforceMinimum. destruct (Z.ltb_spec difference 1); unfold difference in *; lia.
  - unfold w1. cbn [calls]. by rewrite <- app_assoc.
Qed.

End Increase.


(** ** The text of the editor *)

Section Digits.

Lemma pretty_N_char_digit d :
  (d < 10)%N ->
  isDigit (pretty_N_char d) = true
  /\ JsString.digitValue 10 (pretty_N_char d) = Some (Z.of_N d).
Proof.
  intros Hd.
  assert (d = 0 \/ d = 1 \/ d = 2 \/ d = 3 \/ d = 4 \/ d = 5 \/ d = 6 \/ d = 7
          \/ d = 8 \/ d = 9)%N as Hcases by lia.
  repeat (destruct Hcases as [->|Hcases]; [by vm_compute|]). subst. by vm_compute.
Qed.

Lemma pretty_N_go_decimal x s : decimal s -> decimal (pretty_N_go x s).
Proof.
  revert s. induction (N.lt_wf_0 x) as [x _ IH]; intros s Hs.
  destruct (N.eq_dec x 0%N) as [->|Hx]; [by rewrite pretty_N_go_0|].
  rewrite pretty_N_go_step by lia. apply IH.
  - apply N.div_lt; lia.
  - split; [|assumption]. apply pretty_N_char_digit. apply N.mod_lt. lia.
Qed.

(** Reading back the digits written for a positive number. *)
Lemma digits_pretty_N_go x s :
  (0 < x)%N ->
  JsString.digits 10 (pretty_N_go x s) None = JsString.digits 10 s (Some (Z.of_N x)).
Proof.
  revert s. induction (N.lt_wf_0 x) as [x _ IH]; intros s Hx.
  rewrite pretty_N_go_step by assumption.
  destruct (pretty_N_char_digit (x `mod` 10)%N) as [_ Hvalue].
  { apply N.mod_lt. lia. }
  destruct (N.eq_dec (x `div` 10)%N 0%N) as [Hq|Hq].
  - rewrite Hq, pretty_N_go_0. simpl. rewrite Hvalue. simpl. do 2 f_equal.
    pose proof (N.div_mod x 10 ltac:(lia)). lia.
  - rewrite IH; [|apply N.div_lt; lia|by apply N.neq_0_lt_0].
    simpl. rewrite Hvalue. simpl. do 2 f_equal.
    pose proof (N.div_mod x 10 ltac:(lia)). lia.
Qed.

Lemma pretty_decimal n : 0 <= n -> decimal (pretty n) /\ pretty n <> "".
Proof.
  intros Hn. destruct n as [|q|q]; [by vm_compute | | lia].
  change (pretty (Z.pos q)) with (pretty (N.pos q)). unfold pretty, pretty_N.
  destruct (decide (N.pos q = 0%N)); [discriminate|]. split.
  - by apply pretty_N_go_decimal.
  - rewrite pretty_N_go_step by lia. intros Hempty.
    assert (Hlen : forall x s, (String.length s <= String.length (pretty_N_go x s))%nat).
    { intros x. induction (N.lt_wf_0 x) as [x _ IH]; intros s.
      destruct (N.eq_dec x 0%N) as [->|Hx]; [by rewrite pretty_N_go_0|].
      rewrite pretty_N_go_step by lia.
      etransitivity; [|apply IH; apply N.div_lt; lia]. simpl. lia. }
    specialize (Hlen (N.pos q `div` 10)%N
                  (String (pretty_N_char (N.pos q `mod` 10)) "")).
    rewrite Hempty in Hlen. simpl in Hlen. lia.
Qed.

Lemma digits_pretty n : 0 <= n -> JsString.digits 10 (pretty n) None = Some n.
Proof.
  intros Hn. destruct n as [|q|q]; [by vm_compute | | lia].
  change (pretty (Z.pos q)) with (pretty (N.pos q)). unfold pretty, pretty_N.
  destruct (decide (N.pos q = 0%N)); [discriminate|].
  rewrite digits_pretty_N_go by lia. reflexivity.
Qed.

(** [parseInt] of a string of digits reads all of it in base ten. *)
Lemma parseInt_decimal s :
  s <> "" -> decimal s -> JsString.parseInt s = JsString.digits 10 s None.
Proof.
  assert (Hsign : forall o : option Z,
            match o with Some n => Some (1 * n) | None => None end = o).
  { intros [n|]; [f_equal; lia | reflexivity]. }
  destruct s as [|c r]; [congruence|]. intros _ [Hc Hr].
  destruct r as [|c2 r2].
  - destruct c as [[] [] [] [] [] [] [] []]; try discriminate Hc; reflexivity.
  - destruct Hr as [Hc2 _].
    destruct c as [[] [] [] [] [] [] [] []]; try discriminate Hc;
      try (unfold JsString.parseInt; cbn [JsString.trimStart JsString.isWhiteSpace];
           apply Hsign);
      destruct c2 as [[] [] [] [] [] [] [] []]; try discriminate Hc2;
      unfold JsString.parseInt; apply Hsign.
Qed.

Lemma parseInt_pretty n : 0 <= n -> JsString.parseInt (pretty n) = Some n.
Proof.
  intros Hn. destruct (pretty_decimal n Hn) as [Hd Hne].
  rewrite parseInt_decimal by assumption. by apply digits_pretty.
Qed.

Lemma split_decimal s : decimal s -> JsString.split ":" s = [s].
Proof.
  induction s as [|c r IH]; simpl; [reflexivity|]. intros [Hc Hr].
  rewrite (IH Hr).
  destruct (Ascii.eqb_spec c ":") as [->|_]; [discriminate Hc | reflexivity].
Qed.

Lemma split_at_colon a b :
  decimal a -> JsString.split ":" (a +:+ ":" +:+ b) = a :: JsString.split ":" b.
Proof.
  induction a as [|c r IH]; simpl; [reflexivity|]. intros [Hc Hr].
  rewrite (IH Hr).
  destruct (Ascii.eqb_spec c ":") as [->|_]; [discriminate Hc | reflexivity].
Qed.

(** The minutes part of the text, for the sixty values it can take. *)
Lemma minutes_part mins :
  0 <= mins < 60 ->
  let s := padStart 2 "0" (Number_toString mins) in
  decimal s /\ JsString.parseInt s = Some mins /\ String.length s = 2%nat.
Proof.
  intros Hmins.
  assert (Hall : forallb
            (fun k => let s := padStart 2 "0" (Number_toString k) in
                      forallb isDigit (list_ascii_of_string s)
                      && bool_decide (JsString.parseInt s = Some k)
                      && Nat.eqb (String.length s) 2)
            (seqZ 0 60) = true) by (vm_compute; reflexivity).
  rewrite forallb_forall in Hall. specialize (Hall mins).
  assert (Hin : In mins (seqZ 0 60)) by (apply list_elem_of_In, elem_of_seqZ; lia).
  apply Hall in Hin. simpl in Hin. apply andb_true_iff in Hin as [Hin Hlen].
  apply andb_true_iff in Hin as [Hd Hp].
  apply bool_decide_eq_true in Hp. apply Nat.eqb_eq in Hlen.
  split; [|split; assumption].
  clear -Hd. induction (padStart 2 "0" (Number_toString mins)) as [|c r IH]; simpl in *;
    [exact I|].
  apply andb_true_iff in Hd as [Hc Hr]. auto.
Qed.

End Digits.

(** The text put in the editor reads back as the minutes of the cell. *)
Lemma editText_parse (minutes : Z) :
  0 <= minutes -> parseTotalMinutes (editText minutes) = minutes.
Proof.
  intros Hm. unfold editText.
  assert (Hrem : Z.rem minutes 60 = minutes mod 60) by (apply Z.rem_mod_nonneg; lia).
  rewrite Hrem.
  pose proof (Z.div_mod minutes 60 ltac:(lia)) as Hdiv.
  pose proof (Z.mod_pos_bound minutes 60 ltac:(lia)) as Hmod.
  assert (Hhours : 0 <= minutes / 60) by (apply Z.div_pos; lia).
  destruct ((0 <? minutes / 60) || (0 <? minutes mod 60)) eqn:Hshown.
  - destruct (pretty_decimal (minutes / 60) Hhours) as [Hd _].
    destruct (minutes_part (minutes mod 60) Hmod) as (Hd' & Hp' & _).
    unfold parseTotalMinutes, Number_toString in *.
    rewrite split_at_colon, split_decimal by assumption. simpl.
    unfold JsString.parseIntOr0. simpl.
    rewrite parseInt_pretty, Hp' by assumption. simpl. lia.
  - apply orb_false_iff in Hshown as [H1 H2].
    apply Z.ltb_ge in H1, H2. vm_compute. lia.
Qed.

Lemma decimal_forallb s : decimal s -> forallb isDigit (list_ascii_of_string s) = true.
Proof.
  induction s as [|c r IH]; simpl; [reflexivity|]. intros [Hc Hr].
  rewrite Hc. by apply IH.
Qed.

(** X10. The text the editor is opened with: for a cell of [minutes] >= 0 it
    is read back by [handleCellSave] as [minutes]; it is empty for a cell of
    0 and of the form H:MM otherwise. *)
Theorem edit_text_is_well_formed_and_reads_back (minutes : Z) :
  0 <= minutes ->
  parseTotalMinutes (editText minutes) = minutes
  /\ (minutes = 0 -> editText minutes = "")
  /\ (0 < minutes -> isHMM (editText minutes) = true).
Proof.
  intros Hm. split; [by apply editText_parse|]. split.
  - intros ->. reflexivity.
  - intros Hpos. unfold editText.
    assert (Hrem : Z.rem minutes 60 = minutes mod 60) by (apply Z.rem_mod_nonneg; lia).
    rewrite Hrem.
    pose proof (Z.div_mod minutes 60 ltac:(lia)) as Hdiv.
    pose proof (Z.mod_pos_bound minutes 60 ltac:(lia)) as Hmod.
    assert (Hhours : 0 <= minutes / 60) by (apply Z.div_pos; lia).
    replace ((0 <? minutes / 60) || (0 <? minutes mod 60)) with true
      by (symmetry; apply orb_true_iff; lia).
    destruct (pretty_decimal (minutes / 60) Hhours) as [Hd Hne].
    destruct (minutes_part (minutes mod 60) Hmod) as (Hd' & _ & Hlen).
    unfold isHMM, Number_toString in *.
    rewrite split_at_colon, split_decimal by assumption.
    rewrite !decimal_forallb by assumption. rewrite Hlen. simpl.
    destruct (String.eqb_spec (pretty (minutes / 60)) ""); [contradiction|reflexivity].
Qed.


(** ** Opening a cell and saving it *)

Section OpenAndSave.

Context `{collation : Collator}.

(** X11. Opening a cell with a left click and saving it as it stands closes
    the editor and does nothing else: no remote call, no alert, the backend
    and the report as they were. *)
Theorem opening_and_saving_a_cell_changes_nothing
  (br : Browser) (p : Page) (w : World) (button : Z) (taskId date : string) :
  button <> 2 ->
  0 <= currentMinutes p (Cell.mk taskId date) ->
  handleCellSave br (handleCellClick button taskId date p) w = (closeEdit p, w).
Proof.
  intros Hbutton Hminutes. set (cell := Cell.mk taskId date) in *.
  assert (Hclick : handleCellClick button taskId date p
                   = mkPage (timesheetData p) (Some cell)
                       (editText (currentMinutes p cell)) (contextMenu p)
                       (startDateStr p) (endDateStr p)).
  { unfold handleCellClick. by destruct (Z.eqb_spec button 2). }
  rewrite Hclick.
  set (clicked := mkPage (timesheetData p) (Some cell) _ _ _ _).
  rewrite (handleCellSave_cases br clicked w cell eq_refl). cbn [editValue clicked].
  rewrite (currentMinutes_data clicked p cell eq_refl).
  rewrite editText_parse by assumption.
  destruct (Z.ltb_spec (currentMinutes p cell) 0); [lia|].
  replace ((0 <? currentMinutes p cell) && (currentMinutes p cell <? 1)) with false
    by (symmetry; apply andb_false_iff; lia).
  by rewrite Z.sub_diag.
Qed.

End OpenAndSave.


(** ** The day delete when no call fails *)

Section DayDelete.

Context `{collation : Collator}.

Lemma NoDup_map_filter {A} (f : A -> string) (g : A -> bool) l :
  NoDup (map f l) -> NoDup (map f (List.filter g l)).
Proof.
  induction l as [|x l IH]; simpl; [auto|]. intros Hnd.
  apply NoDup_cons in Hnd as [Hx Hnd]. destruct (g x); simpl; [|auto].
  apply NoDup_cons. split; [|auto]. intros Hin. apply Hx.
  apply list_elem_of_In in Hin. apply list_elem_of_In.
  apply in_map_iff in Hin as (y & Hy & Hin). apply filter_In in Hin as [Hin _].
  apply in_map_iff. eauto.
Qed.

Lemma filter_id_single (entries : list TimeEntry.t) (e : TimeEntry.t) :
  NoDup (map TimeEntry.id entries) -> In e entries ->
  filter (fun x => TimeEntry.id x = TimeEntry.id e) entries = [e].
Proof.
  rewrite stdpp_filter_bool.
  induction entries as [|x l IH]; simpl; [tauto|]. intros Hnd Hin.
  apply NoDup_cons in Hnd as [Hx Hnd].
  destruct (bool_decide_reflect (TimeEntry.id x = TimeEntry.id e)) as [Hid|Hid].
  - assert (x = e) as ->.
    { destruct Hin as [->|Hin]; [reflexivity|]. exfalso. apply Hx. rewrite Hid.
      apply list_elem_of_In, in_map, Hin. }
    f_equal. apply filter_none. intros y Hy. apply bool_decide_eq_false_2.
    intros Hsame. apply Hx. rewrite <- Hsame. apply list_elem_of_In, in_map, Hy.
  - destruct Hin as [->|Hin]; [congruence|]. by apply IH.
Qed.

(** A delete of an entry of the user, with a unique id and no fault,
    succeeds and removes it. *)
Lemma deleteTimeEntry_success b user e :
  session b = Some user ->
  NoDup (map TimeEntry.id (time_entries b)) ->
  In e (time_entries b) ->
  TimeEntry.user_id e = user ->
  ~ In (TimeEntry.id e) (delete_faults b) ->
  exists b',
    deleteTimeEntry (TimeEntry.id e) b = (Data tt, b')
    /\ time_entries b'
       = List.filter (fun x => negb (String.eqb (TimeEntry.id x) (TimeEntry.id e)))
           (time_entries b)
    /\ sameTables b b'.
Proof.
  intros Hsession Hnd Hin Huser Hfault. unfold deleteTimeEntry.
  rewrite Hsession, (filter_id_single _ e Hnd Hin). cbn [single].
  rewrite bool_decide_eq_true_2 by assumption. cbn [negb].
  rewrite bool_decide_eq_false_2 by (by rewrite list_elem_of_In).
  eexists. split; [reflexivity|]. cbn [time_entries]. split.
  - rewrite stdpp_filter_bool. apply List.filter_ext. intros x.
    destruct (String.eqb_spec (TimeEntry.id x) (TimeEntry.id e)).
    + by rewrite bool_decide_eq_false_2 by tauto.
    + by rewrite bool_decide_eq_true_2.
  - repeat split; simpl; congruence.
Qed.

Lemma filter_notPicked_nil (l : list TimeEntry.t) : List.filter (notPicked []) l = l.
Proof. induction l as [|x l IH]; simpl; [reflexivity | by f_equal]. Qed.

Lemma deleteUntilError_success picked w user :
  session (backend w) = Some user ->
  NoDup (map TimeEntry.id (time_entries (backend w))) ->
  NoDup (map TimeEntry.id picked) ->
  (forall e, In e picked ->
             In e (time_entries (backend w)) /\ TimeEntry.user_id e = user
             /\ ~ In (TimeEntry.id e) (delete_faults (backend w))) ->
  exists b',
    deleteUntilError picked w
    = (tt, mkWorld b'
             (calls w ++ map (fun e => CallDeleteTimeEntry (TimeEntry.id e)) picked)
             (alerts w))
    /\ time_entries b' = List.filter (notPicked picked) (time_entries (backend w))
    /\ sameTables (backend w) b'.
Proof.
  revert w. induction picked as [|e rest IH]; intros w Hsession Hnd Hpicked Hall.
  - exists (backend w). simpl. unfold ret. rewrite app_nil_r. destruct w. simpl.
    split; [reflexivity|]. split; [|apply sameTables_refl].
    symmetry. apply filter_notPicked_nil.
  - destruct (Hall e (or_introl eq_refl)) as (Hin & Huser & Hfault).
    destruct (deleteTimeEntry_success (backend w) user e Hsession Hnd Hin Huser Hfault)
      as (b1 & Hdel & Hentries & Hsame).
    simpl in Hpicked. apply NoDup_cons in Hpicked as [He Hrest].
    set (w1 := mkWorld b1 (calls w ++ [CallDeleteTimeEntry (TimeEntry.id e)]) (alerts w)).
    destruct (IH w1) as (b2 & Hloop & Hentries2 & Hsame2).
    + simpl. destruct Hsame as (-> & _). assumption.
    + simpl. rewrite Hentries. by apply NoDup_map_filter.
    + assumption.
    + intros x Hx. destruct (Hall x (or_intror Hx)) as (Hxin & Hxuser & Hxfault).
      simpl. rewrite Hentries. destruct Hsame as (_ & _ & _ & _ & _ & ->).
      split; [|auto]. apply filter_In. split; [assumption|].
      apply negb_true_iff, String.eqb_neq. intros Hsame. apply He. rewrite <- Hsame.
      apply list_elem_of_In, in_map, Hx.
    + exists b2. cbn [deleteUntilError]. unfold bind, call. rewrite Hdel.
      fold w1. rewrite Hloop. simpl. rewrite <- app_assoc. simpl.
      split; [reflexivity|]. split; [|eapply sameTables_trans; eassumption].
      rewrite Hentries2. simpl. rewrite Hentries, filter_filter_and.
      apply List.filter_ext. intros x. unfold notPicked. simpl.
      by rewrite negb_orb.
Qed.

(** The day delete when no delete fails, as one equation. *)
Lemma handleDeleteTimeForDay_success
  (br : Browser) (taskId date : string) (p : Page) (w : World) (user : string) :
  confirms br = true ->
  session (backend w) = Some user ->
  select_fault (backend w) = false ->
  NoDup (map TimeEntry.id (time_entries (backend w))) ->
  let fetched :=
    filter (fun e => TimeEntry.task_id e = taskId /\ TimeEntry.user_id e = user)
      (time_entries (backend w)) in
  let picked := entriesToDelete br date fetched in
  fetched <> [] ->
  (forall e, In e picked -> ~ In (TimeEntry.id e) (delete_faults (backend w))) ->
  exists b' report',
    time_entries b' = List.filter (notPicked picked) (time_entries (backend w))
    /\ sameTables (backend w) b'
    /\ getTimesheetData (startDateStr p) (endDateStr p) b' = Data report'
    /\ handleDeleteTimeForDay br taskId date p w
       = (mkPage (Some report') (editingCell p) (editValue p) None
            (startDateStr p) (endDateStr p),
          mkWorld b'
            (calls w ++ [AuthGetUser; SelectTimeEntries taskId user]
             ++ map (fun e => CallDeleteTimeEntry (TimeEntry.id e)) picked
             ++ [CallGetTimesheetData (startDateStr p) (endDateStr p)])%list
            (alerts w)).
Proof.
  intros Hconfirm Hsession Hselect Hnd fetched picked Hfetched Hfaults.
  assert (Hpicked_nd : NoDup (map TimeEntry.id picked)).
  { unfold picked, entriesToDelete. apply NoDup_map_filter.
    unfold fetched. rewrite stdpp_filter_bool. by apply NoDup_map_filter. }
  assert (Hpicked_in : forall e, In e picked ->
            In e (time_entries (backend w)) /\ TimeEntry.user_id e = user
            /\ ~ In (TimeEntry.id e) (delete_faults (backend w))).
  { intros e He. pose proof (Hfaults e He) as Hfault.
    apply entriesToDelete_selected in He as (Hin & _ & Hu). auto. }
  unfold handleDeleteTimeForDay. rewrite Hconfirm. cbn [negb].
  unfold authGetUser, selectTimeEntries, bind, call. simpl.
  rewrite Hsession. simpl. rewrite Hselect.
  change (filter (fun e => TimeEntry.task_id e = taskId /\ TimeEntry.user_id e = user)
            (time_entries (backend w))) with fetched.
  assert (Hshape : exists first rest, fetched = first :: rest)
    by (destruct fetched; [congruence | eauto]).
  destruct Hshape as (first & rest & Hf). rewrite Hf. lazy beta iota. rewrite <- Hf.
  change (entriesToDelete br date fetched) with picked.
  set (w1 := mkWorld (backend w) _ (alerts w)).
  destruct (deleteUntilError_success picked w1 user) as (b' & Hloop & Hentries & Hsame);
    try assumption.
  rewrite Hloop.
  assert (Hreport : exists report',
            getTimesheetData (startDateStr p) (endDateStr p) b' = Data report').
  { destruct Hsame as (Hs & _ & _ & Hsel & _). simpl in Hs, Hsel.
    unfold getTimesheetData. rewrite Hs, Hsession, Hsel, Hselect. eauto. }
  destruct Hreport as [report' Hreport]. exists b', report'.
  split; [exact Hentries|]. split; [exact Hsame|]. split; [exact Hreport|].
  unfold loadTimesheetData, bind, call. simpl. rewrite Hreport. simpl.
  by rewrite <- !app_assoc.
Qed.

(** X12. The day delete when no delete fails: once confirmed, with the
    user's entries of the task not empty, the entries left are those of the
    table that the local-time window of the day did not pick; the remote
    calls are the two reads, one delete per picked entry in order and one
    reload; there is no alert and the context menu is closed. *)
Theorem day_delete_removes_the_picked_entries
  (br : Browser) (taskId date : string) (p : Page) (w : World) (user : string) :
  confirms br = true ->
  session (backend w) = Some user ->
  select_fault (backend w) = false ->
  NoDup (map TimeEntry.id (time_entries (backend w))) ->
  let fetched :=
    filter (fun e => TimeEntry.task_id e = taskId /\ TimeEntry.user_id e = user)
      (time_entries (backend w)) in
  let picked := entriesToDelete br date fetched in
  fetched <> [] ->
  (forall e, In e picked -> ~ In (TimeEntry.id e) (delete_faults (backend w))) ->
  let after := handleDeleteTimeForDay br taskId date p w in
  time_entries (backend after.2) = List.filter (notPicked picked) (time_entries (backend w))
  /\ calls after.2
     = (calls w ++ [AuthGetUser; SelectTimeEntries taskId user]
        ++ map (fun e => CallDeleteTimeEntry (TimeEntry.id e)) picked
        ++ [CallGetTimesheetData (startDateStr p) (endDateStr p)])%list
  /\ alerts after.2 = alerts w
  /\ contextMenu after.1 = None.
Proof.
  intros Hconfirm Hsession Hselect Hnd fetched picked Hfetched Hfaults after.
  destruct (handleDeleteTimeForDay_success br taskId date p w user
              Hconfirm Hsession Hselect Hnd Hfetched Hfaults)
    as (b' & report' & Hentries & _ & _ & Hafter).
  unfold after. rewrite Hafter. simpl. auto.
Qed.

End DayDelete.


(** ** The calendar *)

Ltac divmod := Z.div_mod_to_equations; lia.

Section CalendarArithmetic.

Lemma days_from_civil_shifted y m d :
  JsDate.days_from_civil y m d
  = yearStart (if m <=? 2 then y - 1 else y)
    + (153 * (if 2 <? m then m - 3 else m + 9) + 2) / 5 + d - 1.
Proof.
  unfold JsDate.days_from_civil, yearStart.
  set (Y := if m <=? 2 then y - 1 else y). clearbody Y.
  set (k := (153 * (if 2 <? m then m - 3 else m + 9) + 2) / 5). clearbody k.
  divmod.
Qed.

Lemma days_from_civil_day y m d :
  JsDate.days_from_civil y m d = JsDate.days_from_civil y m 1 + d - 1.
Proof. rewrite !days_from_civil_shifted. lia. Qed.

Lemma yearStart_step Y Y' : Y < Y' -> yearStart Y + 365 <= yearStart Y'.
Proof. unfold yearStart. intros. divmod. Qed.

(** The first days of the months follow the order of the months. *)
Lemma month_start_mono y m y' m' :
  1 <= m <= 12 -> 1 <= m' <= 12 -> 12 * y + m <= 12 * y' + m' ->
  JsDate.days_from_civil y m 1 <= JsDate.days_from_civil y' m' 1.
Proof.
  intros Hm Hm' Hle. rewrite !days_from_civil_shifted.
  set (Y := if m <=? 2 then y - 1 else y).
  set (Y' := if m' <=? 2 then y' - 1 else y').
  set (p := if 2 <? m then m - 3 else m + 9).
  set (p' := if 2 <? m' then m' - 3 else m' + 9).
  assert (Hidx : 12 * Y + p <= 12 * Y' + p' /\ 0 <= p <= 11 /\ 0 <= p' <= 11).
  { unfold Y, Y', p, p'.
    destruct (Z.leb_spec m 2), (Z.leb_spec m' 2), (Z.ltb_spec 2 m), (Z.ltb_spec 2 m'); lia. }
  clearbody Y Y' p p'. destruct Hidx as (Hidx & Hp & Hp').
  destruct (Z.lt_trichotomy Y Y') as [Hlt | [-> | Hgt]]; [| |lia].
  - pose proof (yearStart_step Y Y' Hlt). divmod.
  - divmod.
Qed.

(** The month after the month [m] of the year [y]. *)
Lemma month_length y m :
  1 <= m <= 12 ->
  JsDate.days_from_civil (if m =? 12 then y + 1 else y) (if m =? 12 then 1 else m + 1) 1
  = JsDate.days_from_civil y m 1 + JsDate.daysInMonth y m.
Proof.
  intros Hm. rewrite !days_from_civil_shifted.
  unfold JsDate.daysInMonth, JsDate.isLeap, yearStart.
  assert (Hcases : m = 1 \/ m = 2 \/ m = 3 \/ m = 4 \/ m = 5 \/ m = 6 \/ m = 7 \/ m = 8
                   \/ m = 9 \/ m = 10 \/ m = 11 \/ m = 12) by lia.
  destruct Hcases as [-> | [-> | [-> | [-> | [-> | [-> | [-> | [-> | [-> | [-> | [-> | ->]]]]]]]]]]];
    simpl; try (replace (y + 1 - 1) with y by lia); try divmod.
  destruct (Z.eqb_spec (y mod 4) 0), (Z.eqb_spec (y mod 100) 0), (Z.eqb_spec (y mod 400) 0);
    simpl; divmod.
Qed.

Lemma civil_before_next_month n :
  let '(y, m, d) := JsDate.civil_from_days n in
  1 <= m <= 12 /\ 1 <= d /\
  n < JsDate.days_from_civil (if m =? 12 then y + 1 else y) (if m =? 12 then 1 else m + 1) 1.
Proof.
  unfold JsDate.civil_from_days, JsDate.days_from_civil.
  set (z := n + 719468). set (era := z / 146097). set (doe := z - era * 146097).
  assert (Hdoe : 0 <= doe <= 146096) by (unfold doe, era; divmod).
  assert (Hn : n = era * 146097 + doe - 719468) by (unfold doe, z; lia).
  clearbody doe. clearbody era. clear z. subst n.
  set (yoe := (doe - doe / 1460 + doe / 36524 - doe / 146096) / 365).
  assert (Hyoe : 0 <= yoe <= 399) by (unfold yoe; divmod).
  set (doy := doe - (365 * yoe + yoe / 4 - yoe / 100)).
  assert (Hdoy : 0 <= doy <= 365) by (unfold doy, yoe; divmod).
  assert (Hnext : yoe < 399 -> doe < 365 * (yoe + 1) + (yoe + 1) / 4 - (yoe + 1) / 100)
    by (unfold yoe; divmod).
  assert (Hdoe' : doe = 365 * yoe + yoe / 4 - yoe / 100 + doy) by (unfold doy; lia).
  clearbody doy. clearbody yoe. subst doe.
  set (mp := (5 * doy + 2) / 153).
  assert (Hmp : 0 <= mp <= 11) by (unfold mp; divmod).
  assert (Hmp' : 153 * mp <= 5 * doy + 2 < 153 * mp + 153) by (unfold mp; divmod).
  clearbody mp.
  destruct (Z.ltb_spec mp 10).
  - destruct (Z.leb_spec (mp + 3) 2); [lia|].
    destruct (Z.eqb_spec (mp + 3) 12).
    + assert (mp = 9) by lia. subst mp. simpl.
      replace (yoe + era * 400 + 1 - 1) with (yoe + era * 400) by lia.
      replace ((yoe + era * 400) / 400) with era by divmod.
      replace (yoe + era * 400 - era * 400) with yoe by lia.
      divmod.
    + destruct (Z.leb_spec (mp + 3 + 1) 2); [lia|].
      destruct (Z.ltb_spec 2 (mp + 3 + 1)); [|lia].
      replace ((yoe + era * 400) / 400) with era by divmod.
      replace (yoe + era * 400 - era * 400) with yoe by lia.
      divmod.
  - destruct (Z.leb_spec (mp - 9) 2); [|lia].
    destruct (Z.eqb_spec (mp - 9) 12); [lia|].
    assert (mp = 10 \/ mp = 11) as [-> | ->] by lia; simpl.
    + replace (yoe + era * 400 + 1 - 1) with (yoe + era * 400) by lia.
      replace ((yoe + era * 400) / 400) with era by divmod.
      replace (yoe + era * 400 - era * 400) with yoe by lia.
      divmod.
    + destruct (Z.eq_dec yoe 399) as [->|Hne].
      * replace ((399 + era * 400 + 1) / 400) with (era + 1) by divmod.
        replace (399 + era * 400 + 1 - (era + 1) * 400) with 0 by lia.
        simpl. divmod.
      * specialize (Hnext ltac:(lia)).
        replace ((yoe + era * 400 + 1) / 400) with era by divmod.
        replace (yoe + era * 400 + 1 - era * 400) with (yoe + 1) by lia.
        simpl. divmod.
Qed.

(** [days_from_civil] undoes [civil_from_days]. *)
Lemma civil_roundtrip n :
  let '(y, m, d) := JsDate.civil_from_days n in JsDate.days_from_civil y m d = n.
Proof.
  unfold JsDate.civil_from_days, JsDate.days_from_civil.
  set (z := n + 719468). set (era := z / 146097). set (doe := z - era * 146097).
  assert (Hdoe : 0 <= doe <= 146096) by (unfold doe, era; divmod).
  assert (Hn : n = era * 146097 + doe - 719468) by (unfold doe, z; lia).
  clearbody doe. clearbody era. clear z. subst n.
  set (yoe := (doe - doe / 1460 + doe / 36524 - doe / 146096) / 365).
  assert (Hyoe : 0 <= yoe <= 399) by (unfold yoe; divmod).
  set (doy := doe - (365 * yoe + yoe / 4 - yoe / 100)).
  assert (Hdoy : 0 <= doy <= 365) by (unfold doy, yoe; divmod).
  assert (Hdoe' : doe = 365 * yoe + yoe / 4 - yoe / 100 + doy) by (unfold doy; lia).
  clearbody doy. clearbody yoe. subst doe.
  set (mp := (5 * doy + 2) / 153).
  assert (Hmp : 0 <= mp <= 11) by (unfold mp; divmod).
  assert (Hmp' : 153 * mp <= 5 * doy + 2 < 153 * mp + 153) by (unfold mp; divmod).
  clearbody mp.
  destruct (Z.ltb_spec mp 10).
  - destruct (Z.leb_spec (mp + 3) 2); [lia|]. destruct (Z.ltb_spec 2 (mp + 3)); [|lia].
    replace (mp + 3 - 3) with mp by lia.
    replace ((yoe + era * 400) / 400) with era by divmod.
    replace (yoe + era * 400 - era * 400) with yoe by lia.
    divmod.
  - destruct (Z.leb_spec (mp - 9) 2); [|lia]. destruct (Z.ltb_spec 2 (mp - 9)); [lia|].
    replace (mp - 9 + 9) with mp by lia.
    replace (yoe + era * 400 + 1 - 1) with (yoe + era * 400) by lia.
    replace ((yoe + era * 400) / 400) with era by divmod.
    replace (yoe + era * 400 - era * 400) with yoe by lia.
    divmod.
Qed.

Lemma civil_from_days_spec n y m d :
  JsDate.civil_from_days n = (y, m, d) ->
  JsDate.days_from_civil y m d = n /\ civilDate y m d.
Proof.
  intros Hc. pose proof (civil_roundtrip n) as Hr. pose proof (civil_before_next_month n) as Hb.
  rewrite Hc in Hr, Hb. destruct Hb as (Hm & Hd & Hnext).
  split; [exact Hr|]. split; [exact Hm|]. split; [exact Hd|].
  rewrite month_length in Hnext by exact Hm.
  rewrite days_from_civil_day in Hr. lia.
Qed.

Lemma civilDate_month_unique y m d y' m' d' :
  civilDate y m d -> civilDate y' m' d' ->
  JsDate.days_from_civil y m d <= JsDate.days_from_civil y' m' d' ->
  12 * y + m <= 12 * y' + m'.
Proof.
  intros (Hm & Hd) (Hm' & Hd') Hle.
  destruct (Z.le_gt_cases (12 * y + m) (12 * y' + m')) as [|Hgt]; [assumption|].
  exfalso.
  pose proof (month_length y' m' Hm') as Hlen.
  assert (Hnext : JsDate.days_from_civil
                    (if m' =? 12 then y' + 1 else y') (if m' =? 12 then 1 else m' + 1) 1
                  <= JsDate.days_from_civil y m 1).
  { apply month_start_mono; destruct (Z.eqb_spec m' 12); lia. }
  rewrite (days_from_civil_day y m d), (days_from_civil_day y' m' d') in Hle. lia.
Qed.

(** [civil_from_days] undoes [days_from_civil] on the dates of the
    calendar. *)
Lemma civil_from_days_from_civil y m d :
  civilDate y m d -> JsDate.civil_from_days (JsDate.days_from_civil y m d) = (y, m, d).
Proof.
  intros Hv.
  destruct (JsDate.civil_from_days (JsDate.days_from_civil y m d)) as [[y' m'] d'] eqn:Hc.
  apply civil_from_days_spec in Hc as (Hr & Hv').
  pose proof (civilDate_month_unique y m d y' m' d' Hv Hv' ltac:(lia)).
  pose proof (civilDate_month_unique y' m' d' y m d Hv' Hv ltac:(lia)).
  destruct Hv as (Hm & _), Hv' as (Hm' & _).
  assert (y' = y) by lia. assert (m' = m) by lia. subst y' m'.
  rewrite (days_from_civil_day y m d), (days_from_civil_day y m d') in Hr.
  f_equal. lia.
Qed.

(** The order of the day numbers is the order of the dates, year first. *)
Lemma civil_from_days_compare n n' y m d y' m' d' :
  JsDate.civil_from_days n = (y, m, d) ->
  JsDate.civil_from_days n' = (y', m', d') ->
  (n ?= n') = match y ?= y' with
              | Eq => match m ?= m' with Eq => d ?= d' | c => c end
              | c => c
              end.
Proof.
  intros Hc Hc'.
  apply civil_from_days_spec in Hc as (<- & Hv). apply civil_from_days_spec in Hc' as (<- & Hv').
  pose proof (civilDate_month_unique y m d y' m' d' Hv Hv') as Hle.
  pose proof (civilDate_month_unique y' m' d' y m d Hv' Hv) as Hge.
  pose proof Hv as (Hm & _). pose proof Hv' as (Hm' & _).
  rewrite (days_from_civil_day y m d), (days_from_civil_day y' m' d') in *.
  destruct (Z.compare_spec y y') as [-> | Hy | Hy].
  - destruct (Z.compare_spec m m') as [-> | Hmm | Hmm].
    + destruct (Z.compare_spec d d'); [apply Z.compare_eq_iff | apply Z.compare_lt_iff
                                      | apply Z.compare_gt_iff]; lia.
    + apply Z.compare_lt_iff. lia.
    + apply Z.compare_gt_iff. lia.
  - apply Z.compare_lt_iff. lia.
  - apply Z.compare_gt_iff. lia.
Qed.

End CalendarArithmetic.


(** ** The dates of the browser *)

Section Dates.

Lemma TimeClip_timeValue time : timeValue time -> JsDate.TimeClip time = Some time.
Proof.
  unfold timeValue, JsDate.TimeClip. intros H.
  destruct (Z.leb_spec (Z.abs time) 8640000000000000); [reflexivity | lia].
Qed.

Lemma Day_local_parts time :
  time = JsDate.Day time * JsDate.msPerDay + Date.TimeWithinDay time
  /\ 0 <= Date.TimeWithinDay time < JsDate.msPerDay.
Proof. unfold JsDate.Day, Date.TimeWithinDay, JsDate.msPerDay. divmod. Qed.

Lemma Day_shift time k : JsDate.Day (time + k * JsDate.msPerDay) = JsDate.Day time + k.
Proof. unfold JsDate.Day, JsDate.msPerDay. divmod. Qed.

Lemma Day_of_day day time :
  0 <= time < JsDate.msPerDay -> JsDate.Day (day * JsDate.msPerDay + time) = day.
Proof. unfold JsDate.Day, JsDate.msPerDay. intros. divmod. Qed.

Lemma WeekDay_range time : 0 <= Date.WeekDay time <= 6.
Proof. unfold Date.WeekDay. divmod. Qed.

(** The day of the month set on a date moves the date by whole days. *)
Lemma MakeDay_of_time time dt :
  Date.MakeDay (Date.YearFromTime time) (Date.MonthFromTime time) dt
  = JsDate.Day time + (dt - Date.DateFromTime time).
Proof.
  unfold Date.MakeDay, Date.YearFromTime, Date.MonthFromTime, Date.DateFromTime.
  destruct (JsDate.civil_from_days (JsDate.Day time)) as [[y m] d] eqn:Hc.
  apply civil_from_days_spec in Hc as (Hr & (Hm & Hd)). simpl.
  replace ((m - 1) / 12) with 0 by divmod.
  replace ((m - 1) mod 12 + 1) with m by divmod.
  rewrite Z.add_0_r. rewrite (days_from_civil_day y m d) in Hr. lia.
Qed.

Lemma setDate_shift tz time dt :
  Date.setDate tz (Some time) (Some dt)
  = JsDate.TimeClip (time + (dt - Date.DateFromTime (Date.LocalTime tz time)) * JsDate.msPerDay).
Proof.
  unfold Date.setDate. simpl. rewrite MakeDay_of_time. f_equal.
  pose proof (Day_local_parts (Date.LocalTime tz time)) as [Hparts _].
  unfold Date.UTC, Date.MakeDate. unfold Date.LocalTime in *. lia.
Qed.

Lemma setDate_add tz time k :
  Date.setDate tz (Some time) (Number.add (Date.getDate tz (Some time)) (Some k))
  = JsDate.TimeClip (time + k * JsDate.msPerDay).
Proof.
  change (Number.add (Date.getDate tz (Some time)) (Some k))
    with (Some (Date.DateFromTime (Date.LocalTime tz time) + k)).
  rewrite setDate_shift. f_equal. lia.
Qed.

Lemma setDate_sub tz time k :
  Date.setDate tz (Some time) (Number.sub (Date.getDate tz (Some time)) (Some k))
  = JsDate.TimeClip (time - k * JsDate.msPerDay).
Proof.
  change (Number.sub (Date.getDate tz (Some time)) (Some k))
    with (Some (Date.DateFromTime (Date.LocalTime tz time) - k)).
  rewrite setDate_shift. f_equal. lia.
Qed.

Lemma localSunday_spec tz time :
  localSunday tz time <= time < localSunday tz time + 7 * JsDate.msPerDay
  /\ Date.WeekDay (Date.LocalTime tz (localSunday tz time)) = 0
  /\ Date.TimeWithinDay (Date.LocalTime tz (localSunday tz time)) = 0
  /\ JsDate.Day (Date.LocalTime tz (localSunday tz time))
     = JsDate.Day (Date.LocalTime tz time) - Date.WeekDay (Date.LocalTime tz time).
Proof.
  unfold localSunday. cbv zeta.
  set (local := Date.LocalTime tz time).
  assert (Hlocal : Date.LocalTime tz
                     (Date.UTC tz ((JsDate.Day local - Date.WeekDay local) * JsDate.msPerDay))
                   = (JsDate.Day local - Date.WeekDay local) * JsDate.msPerDay)
    by (unfold Date.LocalTime, Date.UTC; lia).
  rewrite Hlocal.
  pose proof (Day_local_parts local) as [Hparts Hwithin].
  pose proof (WeekDay_range local) as Hweek.
  assert (Hday : JsDate.Day ((JsDate.Day local - Date.WeekDay local) * JsDate.msPerDay)
                 = JsDate.Day local - Date.WeekDay local).
  { rewrite <- (Z.add_0_r (_ * _)). apply Day_of_day. unfold JsDate.msPerDay. lia. }
  split.
  - unfold Date.UTC. unfold local, Date.LocalTime in *. unfold JsDate.msPerDay in *. lia.
  - split; [|split; [|exact Hday]].
    + unfold Date.WeekDay at 1. rewrite Hday. unfold Date.WeekDay. divmod.
    + unfold Date.TimeWithinDay. apply Z_mod_mult.
Qed.

Lemma getWeekDates_value tz date :
  -8640000000000000 + 7 * JsDate.msPerDay <= date <= 8640000000000000 - 7 * JsDate.msPerDay ->
  getWeekDates tz (Some date)
  = WeekDates.mk (Some (localSunday tz date))
      (Some (localSunday tz date + 7 * JsDate.msPerDay - 1))
      (map (fun i => Some (localSunday tz date + i * JsDate.msPerDay)) (seqZ 0 7)).
Proof.
  intros Hrange.
  pose proof (localSunday_spec tz date) as (Hweek & _ & Hmidnight & Hday).
  pose proof (WeekDay_range (Date.LocalTime tz date)) as Hwd.
  pose proof (Day_local_parts (Date.LocalTime tz (localSunday tz date))) as [Hparts _].
  rewrite Hmidnight, Z.add_0_r in Hparts.
  assert (Hclip : forall time,
            localSunday tz date <= time < localSunday tz date + 7 * JsDate.msPerDay ->
            JsDate.TimeClip time = Some time).
  { intros time Htime. apply TimeClip_timeValue. unfold timeValue. lia. }
  (* the Sunday *)
  assert (Hstart : Date.setHours tz
                     (Date.setDate tz (Some date)
                        (Number.sub (Date.getDate tz (Some date)) (Date.getDay tz (Some date))))
                     0 0 0 0
                   = Some (localSunday tz date)).
  { change (Number.sub (Date.getDate tz (Some date)) (Date.getDay tz (Some date)))
      with (Number.sub (Date.getDate tz (Some date))
              (Some (Date.WeekDay (Date.LocalTime tz date)))).
    rewrite setDate_sub, TimeClip_timeValue
      by (unfold timeValue, JsDate.msPerDay in *; lia).
    unfold Date.setHours. simpl.
    replace (Date.LocalTime tz (date - Date.WeekDay (Date.LocalTime tz date) * JsDate.msPerDay))
      with (Date.LocalTime tz date + - Date.WeekDay (Date.LocalTime tz date) * JsDate.msPerDay)
      by (unfold Date.LocalTime; lia).
    rewrite Day_shift. unfold Date.MakeDate, Date.MakeTime.
    rewrite Hclip; [f_equal; unfold localSunday; cbv zeta; unfold Date.UTC; lia|].
    unfold localSunday in *. cbv zeta in *. unfold Date.UTC in *. lia. }
  assert (Hdate : forall i, 0 <= i < 7 ->
            Date.setDate tz (Some (localSunday tz date))
              (Number.add (Date.getDate tz (Some (localSunday tz date))) (Some i))
            = Some (localSunday tz date + i * JsDate.msPerDay)).
  { intros i Hi. rewrite setDate_add. apply Hclip. unfold JsDate.msPerDay. lia. }
  unfold getWeekDates. cbv zeta. rewrite Hstart. f_equal.
  - rewrite (Hdate 6) by lia. unfold Date.setHours. simpl.
    replace (Date.LocalTime tz (localSunday tz date + 6 * JsDate.msPerDay))
      with (Date.LocalTime tz (localSunday tz date) + 6 * JsDate.msPerDay)
      by (unfold Date.LocalTime; lia).
    rewrite Day_shift. unfold Date.MakeDate, Date.MakeTime.
    rewrite Hclip; [f_equal|]; unfold Date.UTC, Date.LocalTime, JsDate.msPerDay in *; lia.
  - apply map_ext_in. intros i Hi. apply Hdate.
    apply list_elem_of_In, elem_of_seqZ in Hi. lia.
Qed.

End Dates.

Lemma localSunday_shift tz time k :
  localSunday tz (time + 7 * k * JsDate.msPerDay)
  = localSunday tz time + 7 * k * JsDate.msPerDay.
Proof.
  unfold localSunday. cbv zeta.
  replace (Date.LocalTime tz (time + 7 * k * JsDate.msPerDay))
    with (Date.LocalTime tz time + 7 * k * JsDate.msPerDay) by (unfold Date.LocalTime; lia).
  unfold Date.WeekDay. rewrite Day_shift.
  replace (JsDate.Day (Date.LocalTime tz time) + 7 * k + 4)
    with (JsDate.Day (Date.LocalTime tz time) + 4 + k * 7) by lia.
  rewrite Z_mod_plus_full. unfold Date.UTC. lia.
Qed.

(** X13. For a date at least seven days inside the range of time values,
    [getWeekDates] gives the local week of the date: [start] is the local
    midnight that begins a Sunday, the date lies in the seven days from
    [start], [end] is the last millisecond of those seven days and [dates]
    are the seven local midnights of the week, all of them valid dates. *)
Theorem getWeekDates_is_the_local_week (tz date : Z) :
  -8640000000000000 + 7 * JsDate.msPerDay <= date <= 8640000000000000 - 7 * JsDate.msPerDay ->
  exists start,
    getWeekDates tz (Some date)
    = WeekDates.mk (Some start) (Some (start + 7 * JsDate.msPerDay - 1))
        (map (fun i => Some (start + i * JsDate.msPerDay)) (seqZ 0 7))
    /\ start <= date < start + 7 * JsDate.msPerDay
    /\ Date.getDay tz (Some start) = Some 0
    /\ Date.TimeWithinDay (Date.LocalTime tz start) = 0.
Proof.
  intros Hrange. exists (localSunday tz date).
  pose proof (localSunday_spec tz date) as (Hweek & Hsunday & Hmidnight & _).
  split; [by apply getWeekDates_value|]. split; [exact Hweek|].
  split; [|exact Hmidnight]. simpl. by rewrite Hsunday.
Qed.

(** X14. The week buttons move [currentWeek] by seven days, or not at all:
    [handlePreviousWeek] goes back seven days and the week shown starts
    seven days earlier; [handleNextWeek] goes seven days on when that is
    not after [now], and leaves [currentWeek] as it is otherwise; going
    back and then on again gives [currentWeek] when it is not after
    [now]. *)
Theorem week_buttons_move_by_seven_days (tz now currentWeek : Z) :
  -8640000000000000 + 14 * JsDate.msPerDay <= currentWeek
                                           <= 8640000000000000 - 14 * JsDate.msPerDay ->
  let shown (d : Date.t) := WeekDates.start (getWeekDates tz d) in
  exists start,
    shown (Some currentWeek) = Some start
    /\ handlePreviousWeek tz (Some currentWeek) = Some (currentWeek - 7 * JsDate.msPerDay)
    /\ shown (handlePreviousWeek tz (Some currentWeek)) = Some (start - 7 * JsDate.msPerDay)
    /\ handleNextWeek tz now (Some currentWeek)
       = Some (if currentWeek + 7 * JsDate.msPerDay <=? now
               then currentWeek + 7 * JsDate.msPerDay else currentWeek)
    /\ shown (handleNextWeek tz now (Some currentWeek))
       = Some (if currentWeek + 7 * JsDate.msPerDay <=? now
               then start + 7 * JsDate.msPerDay else start)
    /\ (currentWeek <= now ->
        handleNextWeek tz now (handlePreviousWeek tz (Some currentWeek)) = Some currentWeek).
Proof.
  intros Hrange shown. exists (localSunday tz currentWeek).
  assert (Hshown : forall time,
            -8640000000000000 + 7 * JsDate.msPerDay <= time
                                                    <= 8640000000000000 - 7 * JsDate.msPerDay ->
            shown (Some time) = Some (localSunday tz time)).
  { intros time Htime. unfold shown. by rewrite getWeekDates_value. }
  assert (Hprevious : handlePreviousWeek tz (Some currentWeek)
                      = Some (currentWeek - 7 * JsDate.msPerDay)).
  { unfold handlePreviousWeek. cbv zeta. rewrite setDate_sub.
    apply TimeClip_timeValue. unfold timeValue, JsDate.msPerDay in *. lia. }
  assert (Hnext : forall time,
            -8640000000000000 + 7 * JsDate.msPerDay <= time
                                                    <= 8640000000000000 - 14 * JsDate.msPerDay ->
            handleNextWeek tz now (Some time)
            = Some (if time + 7 * JsDate.msPerDay <=? now
                    then time + 7 * JsDate.msPerDay else time)).
  { intros time Htime. unfold handleNextWeek. cbv zeta. rewrite setDate_add.
    rewrite TimeClip_timeValue by (unfold timeValue, JsDate.msPerDay in *; lia).
    simpl. by destruct (time + 7 * JsDate.msPerDay <=? now). }
  split; [apply Hshown; unfold JsDate.msPerDay in *; lia|].
  split; [exact Hprevious|]. split.
  { rewrite Hprevious, Hshown by (unfold JsDate.msPerDay in *; lia).
    f_equal. replace (currentWeek - 7 * JsDate.msPerDay)
      with (currentWeek + 7 * (-1) * JsDate.msPerDay) by lia.
    rewrite localSunday_shift. lia. }
  split; [apply Hnext; unfold JsDate.msPerDay in *; lia|]. split.
  { rewrite Hnext by (unfold JsDate.msPerDay in *; lia).
    destruct (currentWeek + 7 * JsDate.msPerDay <=? now).
    - rewrite Hshown by (unfold JsDate.msPerDay in *; lia). f_equal.
      replace (currentWeek + 7 * JsDate.msPerDay)
        with (currentWeek + 7 * 1 * JsDate.msPerDay) by lia.
      rewrite localSunday_shift. lia.
    - apply Hshown. unfold JsDate.msPerDay in *. lia. }
  intros Hnow. rewrite Hprevious, Hnext by (unfold JsDate.msPerDay in *; lia).
  replace (currentWeek - 7 * JsDate.msPerDay + 7 * JsDate.msPerDay) with currentWeek by lia.
  destruct (Z.leb_spec currentWeek now); [reflexivity | lia].
Qed.


(** ** The order of the dates that [toISOString] writes *)

Section IsoOrder.

Lemma digit_cases n :
  0 <= n < 10 ->
  n = 9 \/ n = 8 \/ n = 7 \/ n = 6 \/ n = 5 \/ n = 4 \/ n = 3 \/ n = 2 \/ n = 1 \/ n = 0.
Proof. lia. Qed.

Lemma digitChar_mod n : JsDate.digitChar n = JsDate.digitChar (n mod 10).
Proof. unfold JsDate.digitChar. by rewrite Z.mod_mod. Qed.

Lemma digitChar_compare a b :
  0 <= a < 10 -> 0 <= b < 10 ->
  Ascii.compare (JsDate.digitChar a) (JsDate.digitChar b) = (a ?= b).
Proof.
  intros Ha Hb.
  destruct (digit_cases a Ha) as [-> | [-> | [-> | [-> | [-> | [-> | [-> | [-> | [-> | ->]]]]]]]]];
    destruct (digit_cases b Hb) as [-> | [-> | [-> | [-> | [-> | [-> | [-> | [-> | [-> | ->]]]]]]]]];
    reflexivity.
Qed.

Lemma pad_compare w : forall a b s s',
  0 <= a < 10 ^ Z.of_nat w -> 0 <= b < 10 ^ Z.of_nat w ->
  String.compare (JsDate.pad w a s) (JsDate.pad w b s')
  = match a ?= b with Eq => String.compare s s' | c => c end.
Proof.
  induction w as [|w IH]; intros a b s s' Ha Hb.
  - simpl in *. assert (a = 0) as -> by lia. assert (b = 0) as -> by lia. reflexivity.
  - rewrite Nat2Z.inj_succ, Z.pow_succ_r in Ha, Hb by lia.
    cbn [JsDate.pad]. rewrite IH by divmod.
    cbn [String.compare]. rewrite (digitChar_mod a), (digitChar_mod b).
    rewrite digitChar_compare by divmod.
    destruct (Z.compare_spec (a / 10) (b / 10)) as [Hq | Hq | Hq].
    + destruct (Z.compare_spec (a mod 10) (b mod 10)) as [Hr | Hr | Hr].
      * replace (a ?= b) with Eq by (symmetry; apply Z.compare_eq_iff; divmod).
        reflexivity.
      * replace (a ?= b) with Lt by (symmetry; apply Z.compare_lt_iff; divmod).
        reflexivity.
      * replace (a ?= b) with Gt by (symmetry; apply Z.compare_gt_iff; divmod).
        reflexivity.
    + replace (a ?= b) with Lt by (symmetry; apply Z.compare_lt_iff; divmod).
      reflexivity.
    + replace (a ?= b) with Gt by (symmetry; apply Z.compare_gt_iff; divmod).
      reflexivity.
Qed.

Lemma append_assoc (a b c : string) : (a +:+ b) +:+ c = a +:+ (b +:+ c).
Proof.
  induction a as [|x a IH]; [reflexivity|].
  change (String x ((a +:+ b) +:+ c) = String x (a +:+ (b +:+ c))). by f_equal.
Qed.

Lemma pad_app w : forall n acc, JsDate.pad w n acc = JsDate.pad w n "" +:+ acc.
Proof.
  induction w as [|w IH]; intros n acc; [reflexivity|].
  cbn [JsDate.pad]. rewrite IH, (IH _ (String _ "")).
  by rewrite append_assoc.
Qed.

(** The date of a four-digit year as [toISOString] writes it. *)
Lemma isoDate_four_digits time y m d :
  JsDate.civil_from_days (JsDate.Day time) = (y, m, d) ->
  0 <= y <= 9999 ->
  JsDate.isoDate time
  = JsDate.pad 4 y (String "-" (JsDate.pad 2 m (String "-" (JsDate.pad 2 d "")))).
Proof.
  intros Hc Hy. unfold JsDate.isoDate. rewrite Hc.
  destruct (Z.leb_spec 0 y); [|lia]. destruct (Z.leb_spec y 9999); [|lia].
  cbn [andb]. rewrite (pad_app 4 y (String _ _)), (pad_app 2 m (String _ _)).
  reflexivity.
Qed.

Lemma daysInMonth_range y m : 28 <= JsDate.daysInMonth y m <= 31.
Proof.
  unfold JsDate.daysInMonth.
  destruct (m =? 2); [destruct (JsDate.isLeap y); lia|].
  destruct ((m =? 4) || (m =? 6) || (m =? 9) || (m =? 11)); lia.
Qed.

(** Among the dates of four-digit years, the order of the strings is the
    order of the days. *)
Lemma isoDate_compare time time' :
  fourDigitYear time -> fourDigitYear time' ->
  String.compare (JsDate.isoDate time) (JsDate.isoDate time')
  = (JsDate.Day time ?= JsDate.Day time').
Proof.
  unfold fourDigitYear, Date.YearFromTime. intros Hy Hy'.
  destruct (JsDate.civil_from_days (JsDate.Day time)) as [[y m] d] eqn:Hc.
  destruct (JsDate.civil_from_days (JsDate.Day time')) as [[y' m'] d'] eqn:Hc'.
  simpl in Hy, Hy'.
  rewrite (isoDate_four_digits _ _ _ _ Hc Hy), (isoDate_four_digits _ _ _ _ Hc' Hy').
  rewrite (civil_from_days_compare _ _ _ _ _ _ _ _ Hc Hc').
  apply civil_from_days_spec in Hc as (_ & Hm & Hd).
  apply civil_from_days_spec in Hc' as (_ & Hm' & Hd').
  pose proof (daysInMonth_range y m). pose proof (daysInMonth_range y' m').
  rewrite pad_compare by (simpl; lia). cbn [String.compare Ascii.compare].
  destruct (y ?= y'); try reflexivity.
  change (N_of_ascii "-" ?= N_of_ascii "-")%N with Eq. cbv iota.
  rewrite pad_compare by (simpl; lia). cbn [String.compare Ascii.compare].
  destruct (m ?= m'); try reflexivity.
  change (N_of_ascii "-" ?= N_of_ascii "-")%N with Eq. cbv iota.
  rewrite pad_compare by (simpl; lia). cbn [String.compare].
  by destruct (d ?= d').
Qed.

Lemma isoDate_leb time time' :
  fourDigitYear time -> fourDigitYear time' ->
  String.leb (JsDate.isoDate time) (JsDate.isoDate time')
  = (JsDate.Day time <=? JsDate.Day time').
Proof.
  intros Hy Hy'. unfold String.leb. rewrite isoDate_compare by assumption. reflexivity.
Qed.

Lemma sign_before_digit (sign : ascii) n :
  sign = "+"%char \/ sign = "-"%char ->
  Ascii.compare sign (JsDate.digitChar n) = Lt.
Proof.
  intros Hsign. rewrite digitChar_mod.
  assert (Hn : 0 <= n mod 10 < 10) by divmod.
  destruct (digit_cases _ Hn) as [-> | [-> | [-> | [-> | [-> | [-> | [-> | [-> | [-> | ->]]]]]]]]];
    destruct Hsign as [-> | ->]; reflexivity.
Qed.

(** A date with an expanded year, written with a sign, is before every
    date of a four-digit year in the order of strings. *)
Lemma isoDate_expanded_first time time' :
  ~ fourDigitYear time -> fourDigitYear time' ->
  String.compare (JsDate.isoDate time) (JsDate.isoDate time') = Lt.
Proof.
  unfold fourDigitYear, Date.YearFromTime. intros Hy Hy'.
  destruct (JsDate.civil_from_days (JsDate.Day time')) as [[y' m'] d'] eqn:Hc'.
  simpl in Hy'. rewrite (isoDate_four_digits _ _ _ _ Hc' Hy').
  unfold JsDate.isoDate.
  destruct (JsDate.civil_from_days (JsDate.Day time)) as [[y m] d] eqn:Hc.
  simpl in Hy.
  assert (Hout : (0 <=? y) && (y <=? 9999) = false).
  { destruct (Z.leb_spec 0 y), (Z.leb_spec y 9999); try reflexivity. lia. }
  rewrite Hout. cbn [JsDate.pad].
  change (String ?c ?s +:+ ?r) with (String c (s +:+ r)).
  cbn [String.compare]. rewrite sign_before_digit; [reflexivity|].
  destruct (y <? 0); auto.
Qed.

Lemma year_order time time' :
  Date.YearFromTime time < Date.YearFromTime time' -> JsDate.Day time < JsDate.Day time'.
Proof.
  unfold Date.YearFromTime. intros Hy.
  destruct (JsDate.civil_from_days (JsDate.Day time)) as [[y m] d] eqn:Hc.
  destruct (JsDate.civil_from_days (JsDate.Day time')) as [[y' m'] d'] eqn:Hc'.
  simpl in Hy. unfold Z.lt in *.
  rewrite (civil_from_days_compare _ _ _ _ _ _ _ _ Hc Hc'). by rewrite Hy.
Qed.

Lemma entryDate_instant entry : entryDate entry = JsDate.isoDate (entryInstant entry).
Proof. unfold entryDate, entryInstant. by destruct (TimeEntry.started_at entry). Qed.

(** The range check of the aggregator on the days of the instants. *)
Lemma inRange_days first last entry :
  fourDigitYear first -> fourDigitYear last ->
  inRange (JsDate.isoDate first) (JsDate.isoDate last) entry
  = (JsDate.Day first <=? JsDate.Day (entryInstant entry))
    && (JsDate.Day (entryInstant entry) <=? JsDate.Day last).
Proof.
  intros Hfirst Hlast. unfold inRange, JsString.ge, JsString.le.
  rewrite entryDate_instant. set (instant := entryInstant entry).
  assert (Hdec : fourDigitYear instant \/ ~ fourDigitYear instant)
    by (unfold fourDigitYear; lia).
  destruct Hdec as [Hin | Hout].
  - by rewrite !isoDate_leb.
  - unfold String.leb at 1.
    rewrite compare_antisym, (isoDate_expanded_first _ _ Hout Hfirst). simpl.
    symmetry. apply andb_false_iff.
    unfold fourDigitYear in *.
    assert (Hside : Date.YearFromTime instant < Date.YearFromTime first
                    \/ Date.YearFromTime last < Date.YearFromTime instant) by lia.
    destruct Hside as [Hbefore | Hafter]; [left | right]; apply Z.leb_gt;
      by apply year_order.
Qed.

End IsoOrder.

(** X15. The range check of [getTimesheetData] compares strings; when the
    bounds are the dates of two instants with four-digit years, an entry
    passes it exactly when the UTC day of its instant ([started_at], else
    [created_at]) is between the UTC days of the bounds, whatever the year
    of the entry. *)
Theorem range_check_is_a_check_of_days
  (first last : Z) (entry : TimeEntry.t) :
  fourDigitYear first -> fourDigitYear last ->
  inRange (JsDate.isoDate first) (JsDate.isoDate last) entry
  = (JsDate.Day first <=? JsDate.Day (entryInstant entry))
    && (JsDate.Day (entryInstant entry) <=? JsDate.Day last).
Proof. intros Hfirst Hlast. by apply inRange_days. Qed.


(** ** The columns of the week *)

Section Columns.

Lemma isoDate_day time : JsDate.isoDate time = dayKey (JsDate.Day time).
Proof.
  unfold dayKey, JsDate.isoDate.
  replace (JsDate.Day (JsDate.Day time * JsDate.msPerDay)) with (JsDate.Day time);
    [reflexivity|].
  rewrite <- (Z.add_0_r (_ * _)). symmetry. apply Day_of_day. unfold JsDate.msPerDay. lia.
Qed.

Lemma mapM_isoDate {A} (f : A -> Z) (l : list A) :
  mapM Date.isoDate (map (fun x => Some (f x)) l)
  = Some (map (fun x => JsDate.isoDate (f x)) l).
Proof. induction l as [|x l IH]; [reflexivity|]. simpl. rewrite IH. reflexivity. Qed.

(** The UTC day of an instant of the week, from the local day of the
    Sunday. *)
Lemma Day_of_local tz start offset :
  Date.TimeWithinDay (Date.LocalTime tz start) = 0 ->
  JsDate.Day (start + offset)
  = JsDate.Day (Date.LocalTime tz start) + JsDate.Day (offset - tz * 60000).
Proof.
  intros Hmidnight.
  pose proof (Day_local_parts (Date.LocalTime tz start)) as [Hparts _].
  rewrite Hmidnight, Z.add_0_r in Hparts.
  replace (start + offset)
    with (offset - tz * 60000 + JsDate.Day (Date.LocalTime tz start) * JsDate.msPerDay)
    by (unfold Date.LocalTime in *; lia).
  rewrite Day_shift. lia.
Qed.

(** The keys and the range of the week, from the local day of its Sunday. *)
Lemma week_keys tz date :
  -8640000000000000 + 7 * JsDate.msPerDay <= date <= 8640000000000000 - 7 * JsDate.msPerDay ->
  -1440 < tz < 1440 ->
  let sunday := JsDate.Day (Date.LocalTime tz (localSunday tz date)) in
  let east := if 0 <? tz then 1 else 0 in
  let west := if tz <? 0 then 1 else 0 in
  columnKeys tz (Some date) = Some (map (fun i => dayKey (sunday + i - east)) (seqZ 0 7))
  /\ weekRange tz (Some date) = Some (dayKey (sunday - east), dayKey (sunday + 6 + west)).
Proof.
  intros Hrange Hzone.
  pose proof (localSunday_spec tz date) as (_ & _ & Hmidnight & _).
  cbv zeta. split.
  - unfold columnKeys. rewrite getWeekDates_value by exact Hrange.
    cbn [WeekDates.dates]. rewrite mapM_isoDate. f_equal. apply map_ext_in. intros i Hi.
    apply list_elem_of_In, elem_of_seqZ in Hi.
    rewrite isoDate_day, (Day_of_local tz) by exact Hmidnight. f_equal.
    unfold JsDate.Day, JsDate.msPerDay. destruct (Z.ltb_spec 0 tz); divmod.
  - unfold weekRange. rewrite getWeekDates_value by exact Hrange.
    cbn [WeekDates.start WeekDates.end_ Date.isoDate fmap option_fmap option_map mbind
           option_bind].
    f_equal. f_equal.
    + rewrite isoDate_day. f_equal.
      rewrite <- (Z.add_0_r (localSunday tz date)) at 1.
      rewrite (Day_of_local tz) by exact Hmidnight.
      unfold JsDate.Day, JsDate.msPerDay. destruct (Z.ltb_spec 0 tz); divmod.
    + rewrite isoDate_day. f_equal.
      replace (localSunday tz date + 7 * JsDate.msPerDay - 1)
        with (localSunday tz date + (7 * JsDate.msPerDay - 1)) by lia.
      rewrite (Day_of_local tz) by exact Hmidnight.
      unfold JsDate.Day, JsDate.msPerDay. destruct (Z.ltb_spec tz 0); divmod.
Qed.

End Columns.

(** X16. The keys of the seven columns and the range the page asks for, in
    a zone less than a day from UTC.  With [sunday] the local day the week
    starts with, the key of the column [i], whose header shows the local
    day [sunday + i], is the date of that day at or west of UTC and of the
    day before east of UTC; the range starts with the key of the first
    column and ends with the key of the last one on UTC only: in every
    other zone it ends one day later. *)
Theorem column_keys_are_utc_days (tz date : Z) :
  -8640000000000000 + 7 * JsDate.msPerDay <= date <= 8640000000000000 - 7 * JsDate.msPerDay ->
  -1440 < tz < 1440 ->
  exists start,
    WeekDates.start (getWeekDates tz (Some date)) = Some start
    /\ let sunday := JsDate.Day (Date.LocalTime tz start) in
       let east := if 0 <? tz then 1 else 0 in
       let west := if tz <? 0 then 1 else 0 in
       (forall i, In (Some i) (WeekDates.dates (getWeekDates tz (Some date))) ->
                  exists k, 0 <= k < 7 /\ i = start + k * JsDate.msPerDay
                            /\ JsDate.Day (Date.LocalTime tz i) = sunday + k)
       /\ columnKeys tz (Some date)
          = Some (map (fun i => dayKey (sunday + i - east)) (seqZ 0 7))
       /\ weekRange tz (Some date)
          = Some (dayKey (sunday - east), dayKey (sunday + 6 + west)).
Proof.
  intros Hrange Hzone. exists (localSunday tz date).
  pose proof (week_keys tz date Hrange Hzone) as [Hkeys Hweek].
  rewrite getWeekDates_value by exact Hrange.
  split; [reflexivity|]. cbv zeta. split; [|split; assumption].
  intros i Hin. cbn [WeekDates.dates] in Hin.
  apply in_map_iff in Hin as (k & [= <-] & Hk).
  apply list_elem_of_In, elem_of_seqZ in Hk.
  exists k. split; [lia|]. split; [reflexivity|].
  replace (Date.LocalTime tz (localSunday tz date + k * JsDate.msPerDay))
    with (Date.LocalTime tz (localSunday tz date) + k * JsDate.msPerDay)
    by (unfold Date.LocalTime; lia).
  apply Day_shift.
Qed.


(** ** The week total and the days of the range *)

Section RangeDays.

Context `{collation : Collator}.

Lemma Day_dayStart n : JsDate.Day (n * JsDate.msPerDay) = n.
Proof. rewrite <- (Z.add_0_r (_ * _)). apply Day_of_day. unfold JsDate.msPerDay. lia. Qed.

Lemma year_between first last time :
  fourDigitYear first -> fourDigitYear last ->
  JsDate.Day first <= JsDate.Day time <= JsDate.Day last ->
  fourDigitYear time.
Proof.
  unfold fourDigitYear. intros Hfirst Hlast Hdays.
  destruct (Z.lt_ge_cases (Date.YearFromTime time) 0) as [Hneg|].
  { pose proof (year_order time first ltac:(lia)). lia. }
  destruct (Z.lt_ge_cases 9999 (Date.YearFromTime time)) as [Hbig|]; [|lia].
  pose proof (year_order last time ltac:(lia)). lia.
Qed.

Lemma dayKey_inj n n' :
  fourDigitYear (n * JsDate.msPerDay) -> fourDigitYear (n' * JsDate.msPerDay) ->
  dayKey n = dayKey n' -> n = n'.
Proof.
  intros Hn Hn' Hkey.
  pose proof (isoDate_compare _ _ Hn Hn') as Hcmp.
  pose proof (isoDate_compare _ _ Hn' Hn') as Hrefl.
  unfold dayKey in Hkey. rewrite Hkey, Hrefl, !Day_dayStart in Hcmp.
  rewrite Z.compare_refl in Hcmp. symmetry in Hcmp. by apply Z.compare_eq_iff in Hcmp.
Qed.

Lemma onDate_dayKey first last entry n :
  fourDigitYear first -> fourDigitYear last ->
  inRange (JsDate.isoDate first) (JsDate.isoDate last) entry = true ->
  JsDate.Day first <= n <= JsDate.Day last ->
  onDate (dayKey n) entry = (JsDate.Day (entryInstant entry) =? n).
Proof.
  intros Hfirst Hlast Hin Hn.
  rewrite inRange_days in Hin by assumption.
  apply andb_true_iff in Hin as [Hge Hle]. apply Z.leb_le in Hge, Hle.
  unfold onDate. rewrite entryDate_instant, isoDate_day.
  assert (Hyear : forall k, JsDate.Day first <= k <= JsDate.Day last ->
                            fourDigitYear (k * JsDate.msPerDay)).
  { intros k Hk. apply (year_between first last); [assumption..|]. by rewrite Day_dayStart. }
  destruct (String.eqb_spec (dayKey (JsDate.Day (entryInstant entry))) (dayKey n)) as [Heq|Hne].
  - apply dayKey_inj in Heq; [|apply Hyear; lia..]. symmetry. by apply Z.eqb_eq.
  - symmetry. apply Z.eqb_neq. intros Heq. apply Hne. by rewrite Heq.
Qed.

Lemma sumZ_zero {A} (l : list A) : sumZ (map (fun _ => 0) l) = 0.
Proof. induction l as [|x l IH]; [reflexivity|]. simpl. by rewrite IH. Qed.

Lemma sumZ_add {A} (f g : A -> Z) l :
  sumZ (map (fun n => f n + g n) l) = sumZ (map f l) + sumZ (map g l).
Proof. induction l as [|x l IH]; [reflexivity|]. simpl. rewrite IH. lia. Qed.

Lemma sumZ_app l1 l2 : sumZ (l1 ++ l2) = sumZ l1 + sumZ l2.
Proof. induction l1 as [|x l1 IH]; [reflexivity|]. simpl. rewrite IH. lia. Qed.

Lemma sumZ_indicator (k : nat) : forall a x v,
  a <= x < a + Z.of_nat k ->
  sumZ (map (fun n => if x =? n then v else 0) (seqZ a (Z.of_nat k))) = v.
Proof.
  induction k as [|k IH]; intros a x v Hx; [lia|].
  rewrite seqZ_cons by lia.
  replace (Z.pred (Z.of_nat (S k))) with (Z.of_nat k) by lia.
  cbn [map sumZ foldr]. destruct (Z.eqb_spec x a) as [->|Hne].
  - assert (Hrest : sumZ (map (fun n => if a =? n then v else 0)
                            (seqZ (Z.succ a) (Z.of_nat k))) = 0).
    { transitivity (sumZ (map (fun _ => 0) (seqZ (Z.succ a) (Z.of_nat k))));
        [|apply sumZ_zero].
      f_equal. apply map_ext_in. intros n Hin. apply list_elem_of_In, elem_of_seqZ in Hin.
      destruct (Z.eqb_spec a n); [lia | reflexivity]. }
    fold (sumZ (map (fun n => if a =? n then v else 0) (seqZ (Z.succ a) (Z.of_nat k)))).
    rewrite Hrest. lia.
  - fold (sumZ (map (fun n => if x =? n then v else 0) (seqZ (Z.succ a) (Z.of_nat k)))).
    rewrite IH by lia. lia.
Qed.

(** The minutes of entries in the range, day by day. *)
Lemma sumMinutes_by_day first last entries :
  fourDigitYear first -> fourDigitYear last ->
  (forall e, In e entries -> inRange (JsDate.isoDate first) (JsDate.isoDate last) e = true) ->
  sumMinutes entries
  = sumZ (map (fun n => sumMinutes (List.filter (onDate (dayKey n)) entries))
            (seqZ (JsDate.Day first) (JsDate.Day last - JsDate.Day first + 1))).
Proof.
  intros Hfirst Hlast. induction entries as [|e entries IH]; intros Hall.
  - simpl. by rewrite sumZ_zero.
  - assert (Hin := Hall e (or_introl eq_refl)).
    pose proof Hin as Hdays. rewrite inRange_days in Hdays by assumption.
    apply andb_true_iff in Hdays as [Hge Hle]. apply Z.leb_le in Hge, Hle.
    rewrite (map_ext_in _
               (fun n => (if JsDate.Day (entryInstant e) =? n then TimeEntry.minutes e else 0)
                         + sumMinutes (List.filter (onDate (dayKey n)) entries))).
    + rewrite sumZ_add, <- IH by (intros; apply Hall; by right).
      replace (JsDate.Day last - JsDate.Day first + 1)
        with (Z.of_nat (Z.to_nat (JsDate.Day last - JsDate.Day first + 1))) by lia.
      rewrite sumZ_indicator by lia. reflexivity.
    + intros n Hn. apply list_elem_of_In, elem_of_seqZ in Hn.
      cbn [List.filter]. rewrite (onDate_dayKey first last) by (assumption || lia).
      by destruct (JsDate.Day (entryInstant e) =? n).
Qed.

Lemma week_total_by_days
  (timeEntries : list TimeEntry.t) (tasks : list Task.t) (first last : Z) :
  fourDigitYear first -> fourDigitYear last ->
  let report := aggregate timeEntries tasks (JsDate.isoDate first) (JsDate.isoDate last) in
  TimesheetData.week_total report
  = sumZ (map (fun n => dayTotal report (dayKey n))
            (seqZ (JsDate.Day first) (JsDate.Day last - JsDate.Day first + 1))).
Proof.
  intros Hfirst Hlast report. unfold report, dayTotal.
  rewrite aggregate_week_total, aggregate_daily_totals, addEntries_sum, sumValues_empty.
  rewrite (sumMinutes_by_day first last) by (assumption || (intros e He; apply filter_In in He as [_ He]; exact He)).
  rewrite Z.add_0_l. f_equal. apply map_ext. intros n.
  rewrite addEntries_lookup, lookup_empty. reflexivity.
Qed.

Lemma week_total_by_dayKeys
  (timeEntries : list TimeEntry.t) (tasks : list Task.t) (first last : Z) :
  fourDigitYear (first * JsDate.msPerDay) -> fourDigitYear (last * JsDate.msPerDay) ->
  let report := aggregate timeEntries tasks (dayKey first) (dayKey last) in
  TimesheetData.week_total report
  = sumZ (map (fun n => dayTotal report (dayKey n)) (seqZ first (last - first + 1))).
Proof.
  intros Hfirst Hlast.
  pose proof (week_total_by_days timeEntries tasks _ _ Hfirst Hlast) as Hdays.
  cbv zeta in Hdays. rewrite !Day_dayStart in Hdays. exact Hdays.
Qed.

End RangeDays.

Lemma Day_mono time time' : time <= time' -> JsDate.Day time <= JsDate.Day time'.
Proof. unfold JsDate.Day, JsDate.msPerDay. intros. divmod. Qed.

(** The instants of the years 0 to 9999. *)
Lemma fourDigitYear_bounds time :
  fourDigitYear time -> -62167219200000 <= time < 253402300800000.
Proof.
  unfold fourDigitYear. intros Hyear.
  destruct (Z.lt_ge_cases time (-62167219200000)) as [Hlow|].
  { assert (Hy : Date.YearFromTime (-62167219200001) = -1) by (vm_compute; reflexivity).
    pose proof (year_order (-62167219200001) time ltac:(lia)).
    pose proof (Day_mono time (-62167219200001) ltac:(lia)). lia. }
  destruct (Z.lt_ge_cases time 253402300800000) as [|Hhigh]; [lia|].
  assert (Hy : Date.YearFromTime 253402300800000 = 10000) by (vm_compute; reflexivity).
  pose proof (year_order time 253402300800000 ltac:(lia)).
  pose proof (Day_mono 253402300800000 time ltac:(lia)). lia.
Qed.

(** X17. The week total of the page and its seven columns, in a zone less
    than a day from UTC and for dates of four-digit years.  With the range
    and the column keys that the page computes for [date], the week total
    of the report is the sum of the totals of the seven columns on UTC
    only: in every other zone it is that sum plus the total of the day
    after the last column, a day of the range that has no column. *)
Theorem week_total_counts_a_day_without_column `{collation : Collator}
  (tz date : Z) (timeEntries : list TimeEntry.t) (tasks : list Task.t) :
  -1440 < tz < 1440 ->
  fourDigitYear (date - 8 * JsDate.msPerDay) ->
  fourDigitYear (date + 8 * JsDate.msPerDay) ->
  exists start startDateStr endDateStr keys,
    WeekDates.start (getWeekDates tz (Some date)) = Some start
    /\ weekRange tz (Some date) = Some (startDateStr, endDateStr)
    /\ columnKeys tz (Some date) = Some keys
    /\ let report := aggregate timeEntries tasks startDateStr endDateStr in
       TimesheetData.week_total report
       = sumZ (map (dayTotal report) keys)
         + (if tz =? 0 then 0
            else dayTotal report (JsDate.isoDate (start + 7 * JsDate.msPerDay))).
Proof.
  intros Hzone Hbefore Hafter.
  pose proof (fourDigitYear_bounds _ Hbefore) as Hlow.
  pose proof (fourDigitYear_bounds _ Hafter) as Hhigh.
  assert (Hrange : -8640000000000000 + 7 * JsDate.msPerDay <= date
                   <= 8640000000000000 - 7 * JsDate.msPerDay)
    by (unfold JsDate.msPerDay in *; lia).
  pose proof (week_keys tz date Hrange Hzone) as [Hkeys Hweek]. cbv zeta in Hkeys, Hweek.
  pose proof (localSunday_spec tz date) as (Hin & _ & Hmidnight & Hsunday).
  set (start := localSunday tz date) in *.
  set (sunday := JsDate.Day (Date.LocalTime tz start)) in *.
  set (east := if 0 <? tz then 1 else 0) in *.
  set (west := if tz <? 0 then 1 else 0) in *.
  exists start, (dayKey (sunday - east)), (dayKey (sunday + 6 + west)),
    (map (fun i => dayKey (sunday + i - east)) (seqZ 0 7)).
  split; [by rewrite getWeekDates_value|]. split; [exact Hweek|]. split; [exact Hkeys|].
  assert (Heast : 0 <= east <= 1) by (unfold east; destruct (0 <? tz); lia).
  assert (Hwest : 0 <= west <= 1) by (unfold west; destruct (tz <? 0); lia).
  assert (Hdays : JsDate.Day (date - 8 * JsDate.msPerDay) <= sunday - east
                  /\ sunday + 6 + west <= JsDate.Day (date + 8 * JsDate.msPerDay)).
  { rewrite Hsunday.
    replace (date - 8 * JsDate.msPerDay) with (date + (-8) * JsDate.msPerDay) by lia.
    rewrite !Day_shift.
    pose proof (WeekDay_range (Date.LocalTime tz date)).
    assert (JsDate.Day date - 1 <= JsDate.Day (Date.LocalTime tz date) <= JsDate.Day date + 1)
      by (unfold JsDate.Day, Date.LocalTime, JsDate.msPerDay; divmod).
    assert (0 < tz -> JsDate.Day date <= JsDate.Day (Date.LocalTime tz date))
      by (intros; unfold JsDate.Day, Date.LocalTime, JsDate.msPerDay; divmod).
    assert (tz < 0 -> JsDate.Day (Date.LocalTime tz date) <= JsDate.Day date)
      by (intros; unfold JsDate.Day, Date.LocalTime, JsDate.msPerDay; divmod).
    unfold east, west. destruct (Z.ltb_spec 0 tz), (Z.ltb_spec tz 0); lia. }
  assert (Hfirst : fourDigitYear ((sunday - east) * JsDate.msPerDay)).
  { apply (year_between (date - 8 * JsDate.msPerDay) (date + 8 * JsDate.msPerDay));
      [assumption..|]. rewrite Day_dayStart. lia. }
  assert (Hlast : fourDigitYear ((sunday + 6 + west) * JsDate.msPerDay)).
  { apply (year_between (date - 8 * JsDate.msPerDay) (date + 8 * JsDate.msPerDay));
      [assumption..|]. rewrite Day_dayStart. lia. }
  intros report. unfold report.
  rewrite (week_total_by_dayKeys timeEntries tasks _ _ Hfirst Hlast). fold report.
  replace (sunday + 6 + west - (sunday - east) + 1) with (7 + (east + west)) by lia.
  rewrite seqZ_app, map_app, sumZ_app by lia. f_equal.
  - f_equal. rewrite <- (Z.add_0_r (sunday - east)), <- fmap_add_seqZ.
    change (Z.add (sunday - east) <$> seqZ 0 7) with (map (Z.add (sunday - east)) (seqZ 0 7)).
    rewrite !map_map. apply map_ext. intros i. do 2 f_equal. lia.
  - assert (Hnext : JsDate.isoDate (start + 7 * JsDate.msPerDay)
                    = dayKey (sunday - east + 7)).
    { rewrite isoDate_day, (Day_of_local tz) by exact Hmidnight. fold sunday. f_equal.
      unfold east, JsDate.Day, JsDate.msPerDay. destruct (Z.ltb_spec 0 tz); divmod. }
    rewrite Hnext. destruct (Z.eqb_spec tz 0) as [Hutc | Hne].
    + rewrite seqZ_nil; [reflexivity|].
      unfold east, west. destruct (Z.ltb_spec 0 tz), (Z.ltb_spec tz 0); lia.
    + replace (east + west) with 1
        by (unfold east, west; destruct (Z.ltb_spec 0 tz), (Z.ltb_spec tz 0); lia).
      rewrite seqZ_cons, seqZ_nil by lia. cbn [map sumZ foldr]. lia.
Qed.


(** ** Reading back the dates that [toISOString] writes *)

Section ReadingDates.

Lemma digit_digitChar n : JsDate.digit (JsDate.digitChar n) = Some (n mod 10).
Proof.
  rewrite digitChar_mod.
  assert (Hn : 0 <= n mod 10 < 10) by divmod.
  destruct (digit_cases _ Hn) as [-> | [-> | [-> | [-> | [-> | [-> | [-> | [-> | [-> | ->]]]]]]]]];
    reflexivity.
Qed.

Lemma parseLocal_digit tz c r n :
  JsDate.digit c = Some n ->
  JsDate.parseLocal tz (String c r)
  = JsDate.parseFields tz 1 4 (String c r) ≫= JsDate.TimeClip.
Proof.
  intros Hc.
  destruct c as [[] [] [] [] [] [] [] []]; try reflexivity; vm_compute in Hc; discriminate.
Qed.

Ltac read_fields :=
  lazy beta iota zeta delta [JsDate.parseFields JsDate.pad JsDate.field JsDate.number
    substring String.length Nat.eqb Nat.add negb andb String.eqb Ascii.eqb Bool.eqb];
  rewrite !digit_digitChar;
  repeat match goal with
    | |- context [JsDate.digit ?c] =>
        let v := eval vm_compute in (JsDate.digit c) in
        change (JsDate.digit c) with v
    end;
  lazy beta iota.

(** A date of a four-digit year followed by a time of day. *)
Lemma parseFields_four_digits tz y m d :
  0 <= y <= 9999 -> civilDate y m d ->
  JsDate.parseFields tz 1 4
    (JsDate.pad 4 y (String "-" (JsDate.pad 2 m (String "-" (JsDate.pad 2 d "T00:00:00")))))
  = Some (JsDate.days_from_civil y m d * JsDate.msPerDay - tz * 60000)
  /\ JsDate.parseFields tz 1 4
       (JsDate.pad 4 y (String "-" (JsDate.pad 2 m (String "-" (JsDate.pad 2 d "T23:59:59")))))
     = Some (JsDate.days_from_civil y m d * JsDate.msPerDay + 86399000 - tz * 60000).
Proof.
  intros Hy Hv.
  pose proof (daysInMonth_range y m) as Hlen. destruct Hv as (Hm & Hd).
  assert (Hchecked : (1 <=? m) = true /\ (m <=? 12) = true /\ (1 <=? d) = true
                     /\ (d <=? JsDate.daysInMonth y m) = true)
    by (repeat split; apply Z.leb_le; lia).
  destruct Hchecked as (Hm1 & Hm2 & Hd1 & Hd2).
  assert (Hyear : 1 * (10 * (10 * (10 * (10 * 0 + (y / 10 / 10 / 10) mod 10)
                                   + (y / 10 / 10) mod 10) + (y / 10) mod 10) + y mod 10) = y)
    by divmod.
  assert (Hmonth : 10 * (10 * 0 + (m / 10) mod 10) + m mod 10 = m) by divmod.
  assert (Hday : 10 * (10 * 0 + (d / 10) mod 10) + d mod 10 = d) by divmod.
  split; read_fields; rewrite Hyear, Hmonth, Hday, Hm1, Hm2, Hd1, Hd2;
    lazy beta iota delta [Z.leb Z.compare Pos.compare Pos.compare_cont];
    f_equal; lia.
Qed.

(** A date of an expanded year, after its sign, followed by a time of
    day. *)
Lemma parseFields_six_digits tz sign a m d :
  0 <= a <= 999999 -> civilDate (sign * a) m d ->
  JsDate.parseFields tz sign 6
    (JsDate.pad 6 a (String "-" (JsDate.pad 2 m (String "-" (JsDate.pad 2 d "T00:00:00")))))
  = Some (JsDate.days_from_civil (sign * a) m d * JsDate.msPerDay - tz * 60000)
  /\ JsDate.parseFields tz sign 6
       (JsDate.pad 6 a (String "-" (JsDate.pad 2 m (String "-" (JsDate.pad 2 d "T23:59:59")))))
     = Some (JsDate.days_from_civil (sign * a) m d * JsDate.msPerDay + 86399000 - tz * 60000).
Proof.
  intros Hy Hv.
  pose proof (daysInMonth_range (sign * a) m) as Hlen. destruct Hv as (Hm & Hd).
  assert (Hchecked : (1 <=? m) = true /\ (m <=? 12) = true /\ (1 <=? d) = true
                     /\ (d <=? JsDate.daysInMonth (sign * a) m) = true)
    by (repeat split; apply Z.leb_le; lia).
  destruct Hchecked as (Hm1 & Hm2 & Hd1 & Hd2).
  assert (Hyear : 10 * (10 * (10 * (10 * (10 * (10 * 0 + (a / 10 / 10 / 10 / 10 / 10) mod 10)
                                             + (a / 10 / 10 / 10 / 10) mod 10)
                                       + (a / 10 / 10 / 10) mod 10)
                                 + (a / 10 / 10) mod 10) + (a / 10) mod 10) + a mod 10 = a)
    by divmod.
  assert (Hmonth : 10 * (10 * 0 + (m / 10) mod 10) + m mod 10 = m) by divmod.
  assert (Hday : 10 * (10 * 0 + (d / 10) mod 10) + d mod 10 = d) by divmod.
  split; read_fields; rewrite Hyear, Hmonth, Hday, Hm1, Hm2, Hd1, Hd2;
    lazy beta iota delta [Z.leb Z.compare Pos.compare Pos.compare_cont];
    f_equal; lia.
Qed.

(** The six digits of a year that is not 0 are not "000000". *)
Lemma pad_six_not_zero a rest :
  1 <= a <= 999999 ->
  String.eqb (substring 0 6 (JsDate.pad 6 a rest)) "000000" = false.
Proof.
  intros Ha. destruct (String.eqb_spec (substring 0 6 (JsDate.pad 6 a rest)) "000000")
    as [Heq|]; [exfalso | reflexivity].
  lazy beta iota delta [JsDate.pad substring] in Heq.
  injection Heq as H5 H4 H3 H2 H1 H0.
  apply (f_equal JsDate.digit) in H0, H1, H2, H3, H4, H5.
  rewrite digit_digitChar in H0, H1, H2, H3, H4, H5.
  change (JsDate.digit "0") with (Some 0) in *.
  injection H0 as H0. injection H1 as H1. injection H2 as H2.
  injection H3 as H3. injection H4 as H4. injection H5 as H5.
  divmod.
Qed.

Lemma isoDate_shape w y m d rest :
  (JsDate.pad w y "" +:+ "-" +:+ JsDate.pad 2 m "" +:+ "-" +:+ JsDate.pad 2 d "") +:+ rest
  = JsDate.pad w y (String "-" (JsDate.pad 2 m (String "-" (JsDate.pad 2 d rest)))).
Proof.
  rewrite (pad_app w y (String _ _)), (pad_app 2 m (String _ _)), (pad_app 2 d rest).
  rewrite !append_assoc. reflexivity.
Qed.

(** The years of the time values. *)
Lemma timeValue_year time :
  timeValue time -> -271821 <= Date.YearFromTime time <= 275760.
Proof.
  unfold timeValue. intros Htime.
  assert (Hlow : Date.YearFromTime (-8640000000000000) = -271821) by (vm_compute; reflexivity).
  assert (Hhigh : Date.YearFromTime 8640000000000000 = 275760) by (vm_compute; reflexivity).
  pose proof (Day_mono (-8640000000000000) time ltac:(lia)).
  pose proof (Day_mono time 8640000000000000 ltac:(lia)).
  destruct (Z.lt_ge_cases (Date.YearFromTime time) (-271821)) as [Hbelow|].
  { pose proof (year_order time (-8640000000000000) ltac:(lia)). lia. }
  destruct (Z.lt_ge_cases 275760 (Date.YearFromTime time)) as [Habove|]; [|lia].
  pose proof (year_order 8640000000000000 time ltac:(lia)). lia.
Qed.

(** [new Date(date + 'T00:00:00')] and [new Date(date + 'T23:59:59')] on a
    date that [toISOString] wrote: the first and the last second of that
    day, taken as a day of the local zone, when they are time values. *)
Lemma parseLocal_isoDate tz time :
  timeValue time ->
  JsDate.parseLocal tz (JsDate.isoDate time +:+ "T00:00:00")
  = JsDate.TimeClip (JsDate.Day time * JsDate.msPerDay - tz * 60000)
  /\ JsDate.parseLocal tz (JsDate.isoDate time +:+ "T23:59:59")
     = JsDate.TimeClip (JsDate.Day time * JsDate.msPerDay + 86399000 - tz * 60000).
Proof.
  intros Htime. apply timeValue_year in Htime. unfold Date.YearFromTime in Htime.
  unfold JsDate.isoDate.
  destruct (JsDate.civil_from_days (JsDate.Day time)) as [[y m] d] eqn:Hc.
  apply civil_from_days_spec in Hc as (<- & Hv). simpl in Htime.
  destruct (Z.leb_spec 0 y) as [Hpos | Hneg]; [destruct (Z.leb_spec y 9999) as [Hfour | Hbig]|];
    cbn [andb].
  - rewrite !isoDate_shape.
    pose proof (parseFields_four_digits tz y m d ltac:(lia) Hv) as [Hfirst Hlast].
    lazy beta iota delta [JsDate.pad] in Hfirst, Hlast |- *.
    by rewrite !(parseLocal_digit tz _ _ _ (digit_digitChar _)), Hfirst, Hlast.
  - destruct (Z.ltb_spec y 0); [lia|].
    change (String "+" ?s +:+ ?r +:+ ?r' +:+ ?r'' +:+ ?r''')
      with (String "+" (s +:+ r +:+ r' +:+ r'' +:+ r''')).
    change (String "+" ?s +:+ ?r) with (String "+" (s +:+ r)).
    rewrite !isoDate_shape. unfold JsDate.parseLocal.
    replace (Z.abs y) with y by lia.
    pose proof (parseFields_six_digits tz 1 y m d) as Hsix.
    rewrite Z.mul_1_l in Hsix. destruct Hsix as [-> ->]; [lia | exact Hv |]. by split.
  - destruct (Z.ltb_spec y 0); [|lia].
    change (String "-" ?s +:+ ?r +:+ ?r' +:+ ?r'' +:+ ?r''')
      with (String "-" (s +:+ r +:+ r' +:+ r'' +:+ r''')).
    change (String "-" ?s +:+ ?r) with (String "-" (s +:+ r)).
    rewrite !isoDate_shape. unfold JsDate.parseLocal.
    rewrite !pad_six_not_zero by lia.
    pose proof (parseFields_six_digits tz (-1) (Z.abs y) m d) as Hsix.
    replace (-1 * Z.abs y) with y in Hsix by lia.
    destruct Hsix as [-> ->]; [lia | exact Hv |]. by split.
Qed.

End ReadingDates.

(** The window of the handlers for a date that [toISOString] wrote, when
    its two ends are time values. *)
Lemma entriesToDelete_window (br : Browser) (time : Z) (timeEntries : list TimeEntry.t) :
  timeValue time ->
  timeValue (Date.UTC (tz br) (JsDate.Day time * JsDate.msPerDay)) ->
  timeValue (Date.UTC (tz br) (JsDate.Day time * JsDate.msPerDay + 86399000)) ->
  entriesToDelete br (JsDate.isoDate time) timeEntries
  = List.filter
      (fun entry =>
         let local := Date.LocalTime (tz br) (entryInstant entry) in
         (JsDate.Day time * JsDate.msPerDay <=? local)
         && (local <=? JsDate.Day time * JsDate.msPerDay + 86399000))
      timeEntries.
Proof.
  intros Htime Hstart Hend.
  pose proof (parseLocal_isoDate (tz br) time Htime) as [Hfirst Hlast].
  unfold Date.UTC in Hstart, Hend.
  rewrite TimeClip_timeValue in Hfirst by exact Hstart.
  rewrite TimeClip_timeValue in Hlast by exact Hend.
  unfold entriesToDelete. rewrite Hfirst, Hlast.
  apply filter_ext. intros entry. cbv zeta.
  replace (match TimeEntry.started_at entry with
           | Some started => Some started
           | None => Some (TimeEntry.created_at entry)
           end) with (Some (entryInstant entry))
    by (unfold entryInstant; by destruct (TimeEntry.started_at entry)).
  unfold JsDate.geDate, JsDate.leDate, Date.LocalTime.
  f_equal.
  - destruct (Z.leb_spec (JsDate.Day time * JsDate.msPerDay - tz br * 60000)
                (entryInstant entry)),
             (Z.leb_spec (JsDate.Day time * JsDate.msPerDay)
                (entryInstant entry + tz br * 60000)); try reflexivity; lia.
  - destruct (Z.leb_spec (entryInstant entry)
                (JsDate.Day time * JsDate.msPerDay + 86399000 - tz br * 60000)),
             (Z.leb_spec (entryInstant entry + tz br * 60000)
                (JsDate.Day time * JsDate.msPerDay + 86399000)); try reflexivity; lia.
Qed.

(** A comparison with an invalid date is false: when an end of the window
    is no time value, no entry is picked. *)
Lemma entriesToDelete_invalid (br : Browser) (date : string) (timeEntries : list TimeEntry.t) :
  JsDate.parseLocal (tz br) (date +:+ "T00:00:00") = None
  \/ JsDate.parseLocal (tz br) (date +:+ "T23:59:59") = None ->
  entriesToDelete br date timeEntries = [].
Proof.
  intros Hinvalid. unfold entriesToDelete.
  induction timeEntries as [|entry timeEntries IH]; [reflexivity|].
  cbn [List.filter]. rewrite IH.
  destruct Hinvalid as [-> | ->]; unfold JsDate.geDate, JsDate.leDate;
    destruct (TimeEntry.started_at entry); try reflexivity;
    by rewrite ?andb_false_r.
Qed.

Lemma TimeClip_outside time : ~ timeValue time -> JsDate.TimeClip time = None.
Proof.
  unfold timeValue, JsDate.TimeClip. intros Hout.
  destruct (Z.leb_spec (Z.abs time) 8640000000000000); [contradiction | reflexivity].
Qed.

(** X18. The dates that [toISOString] writes are read back by
    [new Date(date + 'T00:00:00')] and [new Date(date + 'T23:59:59')] as
    the first and the last second of that date in the local zone, clipped
    to the range of time values.  When both are time values, the delete
    window of the handlers for such a date as key picks the entries whose
    instant ([started_at], else [created_at]), in local time, lies on the
    day of the key from 00:00:00 to 23:59:59.000: the last 999 ms of the
    day are outside the window.  When one of them is not, at the first or
    the last day of the range, the window picks no entry. *)
Theorem delete_window_is_the_local_day_of_the_key
  (br : Browser) (time : Z) (timeEntries : list TimeEntry.t) :
  timeValue time ->
  let first := Date.UTC (tz br) (JsDate.Day time * JsDate.msPerDay) in
  let last := Date.UTC (tz br) (JsDate.Day time * JsDate.msPerDay + 86399000) in
  JsDate.parseLocal (tz br) (JsDate.isoDate time +:+ "T00:00:00") = JsDate.TimeClip first
  /\ JsDate.parseLocal (tz br) (JsDate.isoDate time +:+ "T23:59:59") = JsDate.TimeClip last
  /\ (timeValue first -> timeValue last ->
      JsDate.parseLocal (tz br) (JsDate.isoDate time +:+ "T00:00:00") = Some first
      /\ JsDate.parseLocal (tz br) (JsDate.isoDate time +:+ "T23:59:59") = Some last
      /\ entriesToDelete br (JsDate.isoDate time) timeEntries
         = List.filter
             (fun entry =>
                let local := Date.LocalTime (tz br) (entryInstant entry) in
                (JsDate.Day time * JsDate.msPerDay <=? local)
                && (local <=? JsDate.Day time * JsDate.msPerDay + 86399000))
             timeEntries)
  /\ (~ (timeValue first /\ timeValue last) ->
      entriesToDelete br (JsDate.isoDate time) timeEntries = []).
Proof.
  intros Htime first last.
  pose proof (parseLocal_isoDate (tz br) time Htime) as [Hfirst Hlast].
  fold (Date.UTC (tz br) (JsDate.Day time * JsDate.msPerDay)) in Hfirst.
  fold (Date.UTC (tz br) (JsDate.Day time * JsDate.msPerDay + 86399000)) in Hlast.
  fold first in Hfirst. fold last in Hlast.
  split; [exact Hfirst|]. split; [exact Hlast|]. split.
  - intros Hstart Hend. rewrite Hfirst, Hlast, !TimeClip_timeValue by assumption.
    split; [reflexivity|]. split; [reflexivity|]. by apply entriesToDelete_window.
  - intros Hout. apply entriesToDelete_invalid. rewrite Hfirst, Hlast.
    destruct (Z.leb_spec (Z.abs first) 8640000000000000) as [Hin | Hbeyond].
    + right. apply TimeClip_outside. intros Hin'. apply Hout. by split.
    + left. apply TimeClip_outside. unfold timeValue. lia.
Qed.


(** ** The calendar of the week picker *)

Section CalendarGrid.

Lemma MakeDay_month y m dt :
  1 <= m <= 12 -> Date.MakeDay y (m - 1) dt = JsDate.days_from_civil y m 1 + dt - 1.
Proof.
  intros Hm. unfold Date.MakeDay.
  replace ((m - 1) / 12) with 0 by divmod.
  replace ((m - 1) mod 12 + 1) with m by divmod.
  by rewrite Z.add_0_r.
Qed.

Lemma MakeDay_next_month y m dt :
  1 <= m <= 12 ->
  Date.MakeDay y m dt = JsDate.days_from_civil y m 1 + JsDate.daysInMonth y m + dt - 1.
Proof.
  intros Hm. unfold Date.MakeDay. rewrite <- month_length by exact Hm.
  destruct (Z.eqb_spec m 12) as [-> | Hne].
  - reflexivity.
  - replace (m / 12) with 0 by divmod. replace (m mod 12) with m by divmod.
    by rewrite Z.add_0_r.
Qed.

Lemma make_value tz y mo dt :
  ~ 0 <= y <= 99 ->
  Date.make tz (Some y) (Some mo) (Some dt)
  = JsDate.TimeClip (Date.UTC tz (Date.MakeDay y mo dt * JsDate.msPerDay)).
Proof.
  intros Hy. unfold Date.make. simpl.
  destruct (Z.leb_spec 0 y), (Z.leb_spec y 99); try lia; cbn [andb];
    unfold Date.MakeDate, Date.MakeTime; by rewrite Z.add_0_r.
Qed.

Lemma reverse_seqZ (n : nat) :
  reverse (seqZ 0 (Z.of_nat n)) = map (fun j => Z.of_nat n - 1 - j) (seqZ 0 (Z.of_nat n)).
Proof.
  induction n as [|n IH]; [reflexivity|].
  assert (Hlast : reverse (seqZ 0 (Z.of_nat (S n)))
                  = (0 + Z.of_nat n) :: reverse (seqZ 0 (Z.of_nat n)))
    by (rewrite seqZ_S, reverse_app; reflexivity).
  rewrite Hlast, IH.
  rewrite (seqZ_cons 0 (Z.of_nat (S n))) by lia. cbn [map].
  replace (Z.of_nat (S n) - 1 - 0) with (0 + Z.of_nat n) by lia. f_equal.
  replace (Z.pred (Z.of_nat (S n))) with (Z.of_nat n) by lia.
  change (Z.succ 0) with (1 + 0). rewrite <- fmap_add_seqZ.
  change (Z.add 1 <$> seqZ 0 (Z.of_nat n)) with (map (Z.add 1) (seqZ 0 (Z.of_nat n))).
  rewrite map_map. apply map_ext. intros j. lia.
Qed.

Lemma map_seqZ_from {A} (f : Z -> A) a n :
  map f (seqZ a n) = map (fun j => f (a + j)) (seqZ 0 n).
Proof.
  rewrite <- (Z.add_0_r a) at 1. rewrite <- fmap_add_seqZ.
  change (Z.add a <$> seqZ 0 n) with (map (Z.add a) (seqZ 0 n)). by rewrite map_map.
Qed.

Lemma LocalTime_UTC tz time : Date.LocalTime tz (Date.UTC tz time) = time.
Proof. unfold Date.LocalTime, Date.UTC. lia. Qed.

(** The grid of a month, from the day number of its first day. *)
Lemma getDaysInMonth_value tz date y m d :
  JsDate.civil_from_days (JsDate.Day (Date.LocalTime tz date)) = (y, m, d) ->
  ~ 0 <= y <= 99 ->
  -8640000000000000 + 50 * JsDate.msPerDay <= date <= 8640000000000000 - 50 * JsDate.msPerDay ->
  let first := Date.UTC tz (JsDate.days_from_civil y m 1 * JsDate.msPerDay) in
  let startDay := Date.WeekDay (JsDate.days_from_civil y m 1 * JsDate.msPerDay) in
  Calendar.getDaysInMonth tz (Some date)
  = map (fun j => Some (first + (j - startDay) * JsDate.msPerDay)) (seqZ 0 42).
Proof.
  intros Hc Hy Hrange first startDay.
  pose proof Hc as Hspec. apply civil_from_days_spec in Hspec as (Hday & Hm & Hd).
  pose proof (daysInMonth_range y m) as Hlen.
  pose proof (WeekDay_range (JsDate.days_from_civil y m 1 * JsDate.msPerDay)) as Hstart.
  fold startDay in Hstart.
  pose proof (Day_local_parts (Date.LocalTime tz date)) as [Hparts Hwithin].
  rewrite (days_from_civil_day y m d) in Hday.
  set (F := JsDate.days_from_civil y m 1) in *.
  assert (Hclip : forall k, -7 <= k <= 42 ->
            JsDate.TimeClip (Date.UTC tz ((F + k) * JsDate.msPerDay))
            = Some (first + k * JsDate.msPerDay)).
  { intros k Hk. rewrite TimeClip_timeValue.
    - f_equal. unfold first, Date.UTC. lia.
    - unfold timeValue, Date.UTC, Date.LocalTime, JsDate.msPerDay in *. lia. }
  assert (Hthis : forall dt, -7 <= dt - 1 <= 42 ->
            Date.make tz (Some y) (Some (m - 1)) (Some dt)
            = Some (first + (dt - 1) * JsDate.msPerDay)).
  { intros dt Hdt. rewrite make_value, MakeDay_month by assumption. fold F.
    replace (F + dt - 1) with (F + (dt - 1)) by lia. by apply Hclip. }
  assert (Hnext : forall dt, -7 <= JsDate.daysInMonth y m + dt - 1 <= 42 ->
            Date.make tz (Some y) (Some (m - 1 + 1)) (Some dt)
            = Some (first + (JsDate.daysInMonth y m + dt - 1) * JsDate.msPerDay)).
  { intros dt Hdt. replace (m - 1 + 1) with m by lia.
    rewrite make_value, MakeDay_next_month by assumption. fold F.
    replace (F + JsDate.daysInMonth y m + dt - 1)
      with (F + (JsDate.daysInMonth y m + dt - 1)) by lia. by apply Hclip. }
  assert (Hyear : Date.getFullYear tz (Some date) = Some y)
    by (unfold Date.getFullYear, Date.YearFromTime; cbn [mbind option_bind]; by rewrite Hc).
  assert (Hmonth : Date.getMonth tz (Some date) = Some (m - 1))
    by (unfold Date.getMonth, Date.MonthFromTime; cbn [mbind option_bind]; by rewrite Hc).
  unfold Calendar.getDaysInMonth. cbv zeta. rewrite Hyear, Hmonth.
  change (Number.add (Some (m - 1)) (Some 1)) with (Some (m - 1 + 1)).
  rewrite (Hthis 1), (Hnext 0) by lia.
  replace (first + (1 - 1) * JsDate.msPerDay) with first by lia.
  assert (Hweekday : Date.getDay tz (Some first) = Some startDay).
  { unfold Date.getDay, first. cbn [mbind option_bind]. by rewrite LocalTime_UTC. }
  assert (Hlast : Date.getDate tz
                    (Some (first + (JsDate.daysInMonth y m + 0 - 1) * JsDate.msPerDay))
                  = Some (JsDate.daysInMonth y m)).
  { unfold Date.getDate, Date.DateFromTime. cbn [mbind option_bind]. f_equal.
    replace (Date.LocalTime tz (first + (JsDate.daysInMonth y m + 0 - 1) * JsDate.msPerDay))
      with ((F + JsDate.daysInMonth y m - 1) * JsDate.msPerDay)
      by (unfold first, Date.LocalTime, Date.UTC; lia).
    rewrite Day_dayStart.
    replace (F + JsDate.daysInMonth y m - 1)
      with (JsDate.days_from_civil y m (JsDate.daysInMonth y m))
      by (rewrite (days_from_civil_day y m (JsDate.daysInMonth y m)); fold F; lia).
    rewrite civil_from_days_from_civil; [reflexivity|]. split; lia. }
  rewrite Hweekday, Hlast.
  rewrite length_app, !length_map, length_reverse, !length_seqZ.
  replace (42 - Z.of_nat (Z.to_nat startDay + Z.to_nat (JsDate.daysInMonth y m)))
    with (42 - startDay - JsDate.daysInMonth y m) by lia.
  replace 42 with (startDay + (JsDate.daysInMonth y m
                               + (42 - startDay - JsDate.daysInMonth y m))) at 2 by lia.
  rewrite !seqZ_app, !map_app by lia. rewrite <- app_assoc. f_equal; [|f_equal].
  - replace startDay with (Z.of_nat (Z.to_nat startDay)) at 1 2 by lia.
    rewrite reverse_seqZ, map_map.
    replace (Z.of_nat (Z.to_nat startDay)) with startDay by lia.
    apply map_ext_in. intros j Hj. apply list_elem_of_In, elem_of_seqZ in Hj.
    rewrite Hthis by lia. f_equal. lia.
  - rewrite (map_seqZ_from _ 1), (map_seqZ_from _ (0 + startDay)).
    apply map_ext_in. intros j Hj. apply list_elem_of_In, elem_of_seqZ in Hj.
    rewrite Hthis by lia. f_equal. lia.
  - rewrite (map_seqZ_from _ 1), (map_seqZ_from _ (0 + startDay + _)).
    apply map_ext_in. intros j Hj. apply list_elem_of_In, elem_of_seqZ in Hj.
    rewrite Hnext by lia. f_equal. lia.
Qed.

End CalendarGrid.

(** X19. The grid of the calendar, for a date at least fifty days inside
    the range of time values whose local year is not one of 0 to 99: it is
    forty-two consecutive local midnights, six weeks; the first cell is a
    Sunday, and the cell at the index of the week day of the first of the
    month is the first day of the month of the date. *)
Theorem calendar_grid_is_six_weeks_from_a_sunday (tz date : Z) :
  ~ 0 <= Date.YearFromTime (Date.LocalTime tz date) <= 99 ->
  -8640000000000000 + 50 * JsDate.msPerDay <= date <= 8640000000000000 - 50 * JsDate.msPerDay ->
  exists first startDay,
    Calendar.getDaysInMonth tz (Some date)
    = map (fun j => Some (first + (j - startDay) * JsDate.msPerDay)) (seqZ 0 42)
    /\ 0 <= startDay <= 6
    /\ Date.getDay tz (Some first) = Some startDay
    /\ Date.getDay tz (Some (first - startDay * JsDate.msPerDay)) = Some 0
    /\ Date.getFullYear tz (Some first) = Date.getFullYear tz (Some date)
    /\ Date.getMonth tz (Some first) = Date.getMonth tz (Some date)
    /\ Date.getDate tz (Some first) = Some 1
    /\ Date.TimeWithinDay (Date.LocalTime tz first) = 0.
Proof.
  unfold Date.YearFromTime. intros Hyear Hrange.
  destruct (JsDate.civil_from_days (JsDate.Day (Date.LocalTime tz date))) as [[y m] d] eqn:Hc.
  simpl in Hyear.
  pose proof (getDaysInMonth_value tz date y m d Hc Hyear Hrange) as Hgrid.
  cbv zeta in Hgrid.
  pose proof Hc as Hspec. apply civil_from_days_spec in Hspec as (_ & Hm & Hd).
  pose proof (daysInMonth_range y m) as Hlen.
  set (F := JsDate.days_from_civil y m 1) in *.
  exists (Date.UTC tz (F * JsDate.msPerDay)), (Date.WeekDay (F * JsDate.msPerDay)).
  assert (Hfirst : JsDate.civil_from_days (JsDate.Day (F * JsDate.msPerDay)) = (y, m, 1)).
  { rewrite Day_dayStart. apply civil_from_days_from_civil. split; lia. }
  split; [exact Hgrid|]. split; [apply WeekDay_range|].
  unfold Date.getDay, Date.getFullYear, Date.getMonth, Date.getDate, Date.YearFromTime,
    Date.MonthFromTime, Date.DateFromTime. cbn [mbind option_bind].
  rewrite LocalTime_UTC, Hfirst, Hc. cbn [fst snd].
  split; [reflexivity|]. split; [|split; [reflexivity|split; [reflexivity|split; [reflexivity|]]]].
  - f_equal.
    replace (Date.LocalTime tz (Date.UTC tz (F * JsDate.msPerDay)
                                - Date.WeekDay (F * JsDate.msPerDay) * JsDate.msPerDay))
      with ((F - Date.WeekDay (F * JsDate.msPerDay)) * JsDate.msPerDay)
      by (unfold Date.LocalTime, Date.UTC; lia).
    unfold Date.WeekDay. rewrite !Day_dayStart. divmod.
  - unfold Date.TimeWithinDay. apply Z_mod_mult.
Qed.


(** ** The selection of the calendar *)

Section Selection.

(** Two dates are of the same day when their local days are the same. *)
Lemma isSameDay_days tz a b :
  Calendar.isSameDay tz (Some a) (Some b)
  = (JsDate.Day (Date.LocalTime tz a) =? JsDate.Day (Date.LocalTime tz b)).
Proof.
  unfold Calendar.isSameDay, Date.getFullYear, Date.getMonth, Date.getDate,
    Date.YearFromTime, Date.MonthFromTime, Date.DateFromTime.
  cbn [mbind option_bind Number.eq].
  destruct (Z.eqb_spec (JsDate.Day (Date.LocalTime tz a)) (JsDate.Day (Date.LocalTime tz b)))
    as [-> | Hne].
  - by rewrite !Z.eqb_refl.
  - pose proof (civil_roundtrip (JsDate.Day (Date.LocalTime tz a))) as Ha.
    pose proof (civil_roundtrip (JsDate.Day (Date.LocalTime tz b))) as Hb.
    destruct (JsDate.civil_from_days (JsDate.Day (Date.LocalTime tz a))) as [[y m] d].
    destruct (JsDate.civil_from_days (JsDate.Day (Date.LocalTime tz b))) as [[y' m'] d'].
    cbn [fst snd].
    destruct (Z.eqb_spec y y') as [-> |]; [|reflexivity].
    destruct (Z.eqb_spec (m - 1) (m' - 1)) as [Hm |]; [|reflexivity].
    destruct (Z.eqb_spec d d') as [-> |]; [|reflexivity].
    exfalso. apply Hne. replace m' with m in Hb by lia. congruence.
Qed.

Lemma getWeekStart_value tz date :
  timeValue (date - Date.WeekDay (Date.LocalTime tz date) * JsDate.msPerDay) ->
  timeValue (localSunday tz date) ->
  Calendar.getWeekStart tz (Some date)
  = (Some (localSunday tz date),
     Some (date - Date.WeekDay (Date.LocalTime tz date) * JsDate.msPerDay)).
Proof.
  intros Hmoved Hstart. unfold Calendar.getWeekStart. cbv zeta.
  change (Number.sub (Date.getDate tz (Some date)) (Date.getDay tz (Some date)))
    with (Number.sub (Date.getDate tz (Some date))
            (Some (Date.WeekDay (Date.LocalTime tz date)))).
  rewrite setDate_sub, TimeClip_timeValue by exact Hmoved. f_equal.
  unfold Date.setHours. cbn [mbind option_bind].
  replace (Date.LocalTime tz (date - Date.WeekDay (Date.LocalTime tz date) * JsDate.msPerDay))
    with (Date.LocalTime tz date + - Date.WeekDay (Date.LocalTime tz date) * JsDate.msPerDay)
    by (unfold Date.LocalTime; lia).
  rewrite Day_shift. unfold Date.MakeDate, Date.MakeTime.
  replace (Date.UTC tz _) with (localSunday tz date)
    by (unfold localSunday; cbv zeta; unfold Date.UTC; lia).
  by apply TimeClip_timeValue.
Qed.

End Selection.

(** X20. [getWeekStart] changes the date it is given.  For a date at least
    seven days inside the range of time values it returns the start of the
    week of [getWeekDates], and leaves its argument on the Sunday of that
    week, at the same local time of day; a second call changes nothing
    more.  The calendar calls it on [selectedDate] before it draws the
    cells: the cell drawn in the style of the selected day is the one of
    that Sunday, whatever the day of the week that was selected; the flag
    [isInSelectedWeek] holds of the cells from the start of the week to six
    days later, and the week style is drawn for those of them that are of
    the month shown, so the days of a selected week that belong to the
    month before or after are not drawn in it. *)
Theorem getWeekStart_moves_its_argument_to_sunday (tz date : Z) :
  -8640000000000000 + 7 * JsDate.msPerDay <= date <= 8640000000000000 - 7 * JsDate.msPerDay ->
  exists start,
    WeekDates.start (getWeekDates tz (Some date)) = Some start
    /\ let moved := start + Date.TimeWithinDay (Date.LocalTime tz date) in
       Calendar.getWeekStart tz (Some date) = (Some start, Some moved)
       /\ Date.getDay tz (Some moved) = Some 0
       /\ moved <= date < moved + 7 * JsDate.msPerDay
       /\ Calendar.getWeekStart tz (Some moved) = (Some start, Some moved)
       /\ (forall cell,
             Calendar.isSelected tz (Some date) (Some cell)
             = (JsDate.Day (Date.LocalTime tz cell) =? JsDate.Day (Date.LocalTime tz start)))
       /\ (forall cell,
             Calendar.isInSelectedWeek tz (Some date) (Some cell)
             = (start <=? cell) && (cell <=? start + 6 * JsDate.msPerDay))
       /\ (forall currentMonth cell,
             Calendar.weekStyle tz (Some date) (Some currentMonth) (Some cell)
             = (start <=? cell) && (cell <=? start + 6 * JsDate.msPerDay)
               && (Date.MonthFromTime (Date.LocalTime tz cell)
                   =? Date.MonthFromTime (Date.LocalTime tz currentMonth)))
       /\ (forall currentMonth,
             Date.MonthFromTime (Date.LocalTime tz start)
             <> Date.MonthFromTime (Date.LocalTime tz currentMonth) ->
             Calendar.isSelected tz (Some date) (Some start) = true
             /\ Calendar.weekStyle tz (Some date) (Some currentMonth) (Some start) = false).
Proof.
  intros Hrange. exists (localSunday tz date).
  pose proof (localSunday_spec tz date) as (Hweek & Hsunday & Hmidnight & Hday).
  pose proof (WeekDay_range (Date.LocalTime tz date)) as Hwd.
  pose proof (Day_local_parts (Date.LocalTime tz date)) as [Hparts Hwithin].
  pose proof (Day_local_parts (Date.LocalTime tz (localSunday tz date))) as [Hstart _].
  rewrite Hmidnight, Z.add_0_r, Hday in Hstart.
  split; [by rewrite getWeekDates_value|]. cbv zeta.
  set (start := localSunday tz date) in *.
  set (within := Date.TimeWithinDay (Date.LocalTime tz date)) in *.
  assert (Hmoved : start + within
                   = date - Date.WeekDay (Date.LocalTime tz date) * JsDate.msPerDay)
    by (unfold Date.LocalTime in *; lia).
  assert (Hlocal : Date.LocalTime tz (start + within)
                   = (JsDate.Day (Date.LocalTime tz date)
                      - Date.WeekDay (Date.LocalTime tz date)) * JsDate.msPerDay + within)
    by (unfold Date.LocalTime in *; lia).
  assert (Hfirst : Calendar.getWeekStart tz (Some date) = (Some start, Some (start + within))).
  { rewrite Hmoved. apply getWeekStart_value; unfold timeValue, JsDate.msPerDay in *; lia. }
  assert (Hzero : Date.WeekDay (Date.LocalTime tz (start + within)) = 0).
  { unfold Date.WeekDay. rewrite Hlocal, Day_of_day by exact Hwithin.
    unfold Date.WeekDay. divmod. }
  assert (Hsame : localSunday tz (start + within) = start).
  { unfold localSunday at 1. cbv zeta. rewrite Hzero, Hlocal, Day_of_day by exact Hwithin.
    unfold Date.UTC. unfold Date.LocalTime in *. lia. }
  split; [exact Hfirst|]. split.
  { unfold Date.getDay. cbn [mbind option_bind]. by rewrite Hzero. }
  split; [unfold JsDate.msPerDay in *; lia|]. split.
  { assert (Hagain : Calendar.getWeekStart tz (Some (start + within))
                     = (Some (localSunday tz (start + within)),
                        Some (start + within
                              - Date.WeekDay (Date.LocalTime tz (start + within))
                                * JsDate.msPerDay))).
    { apply getWeekStart_value.
      - rewrite Hzero. unfold timeValue, JsDate.msPerDay in *. lia.
      - rewrite Hsame. unfold timeValue, JsDate.msPerDay in *. lia. }
    rewrite Hsame, Hzero in Hagain.
    by replace (start + within - 0 * JsDate.msPerDay) with (start + within) in Hagain by lia. }
  assert (Hselected : forall cell,
            Calendar.isSelected tz (Some date) (Some cell)
            = (JsDate.Day (Date.LocalTime tz cell) =? JsDate.Day (Date.LocalTime tz start))).
  { intros cell. unfold Calendar.isSelected. rewrite Hfirst. cbn [snd].
    rewrite isSameDay_days. f_equal.
    by rewrite Hlocal, Hstart, Day_of_day, Day_dayStart by exact Hwithin. }
  assert (Hflag : forall cell,
            Calendar.isInSelectedWeek tz (Some date) (Some cell)
            = (start <=? cell) && (cell <=? start + 6 * JsDate.msPerDay)).
  { intros cell.
    unfold Calendar.isInSelectedWeek, Calendar.selectedWeekStart, Calendar.isInWeek.
    rewrite Hfirst. cbn [fst]. rewrite setDate_add, TimeClip_timeValue
      by (unfold timeValue, JsDate.msPerDay in *; lia).
    reflexivity. }
  assert (Hweek' : forall currentMonth cell,
            Calendar.weekStyle tz (Some date) (Some currentMonth) (Some cell)
            = (start <=? cell) && (cell <=? start + 6 * JsDate.msPerDay)
              && (Date.MonthFromTime (Date.LocalTime tz cell)
                  =? Date.MonthFromTime (Date.LocalTime tz currentMonth))).
  { intros currentMonth cell. unfold Calendar.weekStyle. by rewrite Hflag. }
  split; [exact Hselected|]. split; [exact Hflag|]. split; [exact Hweek'|].
  intros currentMonth Hmonth. rewrite Hselected, Hweek'. split.
  - apply Z.eqb_refl.
  - apply andb_false_iff. right. by apply Z.eqb_neq.
Qed.


(** ** A written entry in the report *)

Section WrittenEntry.

Context `{collation : Collator}.

Lemma stopTimer_owner taskId startedAt b :
  match stopTimer taskId startedAt b with
  | (Data e, b') =>
      session b = Some (TimeEntry.user_id e)
      /\ notAssignee (TimeEntry.task_id e) (TimeEntry.user_id e) b = false
      /\ sameTables b b'
  | (Error _, _) => True
  end.
Proof.
  unfold stopTimer. destruct (session b) as [user|] eqn:Hs; [|exact I].
  destruct (notAssignee taskId user b) eqn:Hn; [exact I|].
  match goal with |- context [insertTimeEntry ?row b] =>
    pose proof (insertTimeEntry_spec row b) as Hspec;
    pose proof (insertTimeEntry_sameTables row b) as Hsame;
    destruct (insertTimeEntry row b) as [[e|?] b'] end; [|exact I].
  destruct Hspec as (-> & _). simpl. auto.
Qed.

Lemma week_total_of_table startDate endDate b report user :
  getTimesheetData startDate endDate b = Data report ->
  session b = Some user ->
  TimesheetData.week_total report
  = sumMinutes (List.filter (fun e => bool_decide (TimeEntry.user_id e = user)
                                      && inRange startDate endDate e) (time_entries b)).
Proof.
  intros Hreport Hsession.
  apply getTimesheetData_Data in Hreport as (user' & Hsession' & _ & ->).
  assert (user' = user) as -> by congruence.
  rewrite aggregate_week_total, aggregate_daily_totals, addEntries_sum, sumValues_empty.
  rewrite Z.add_0_l. apply sumMinutes_perm.
  rewrite <- filter_filter_and, <- stdpp_filter_bool. apply filter_perm, sort_perm.
Qed.

(** The report after one more entry of the user of the session, for a
    task assigned to that user. *)
Lemma report_after_insert startDate endDate b b' entry report :
  getTimesheetData startDate endDate b = Data report ->
  session b = Some (TimeEntry.user_id entry) ->
  notAssignee (TimeEntry.task_id entry) (TimeEntry.user_id entry) b = false ->
  sameTables b b' ->
  time_entries b' = (time_entries b ++ [entry])%list ->
  exists report',
    getTimesheetData startDate endDate b' = Data report'
    /\ (forall cell,
          currentMinutes (mkPage (Some report') None "" None startDate endDate) cell
          = currentMinutes (mkPage (Some report) None "" None startDate endDate) cell
            + (if ofTask (Cell.taskId cell) entry && onDate (Cell.date cell) entry
                  && inRange startDate endDate entry
               then TimeEntry.minutes entry else 0))
    /\ TimesheetData.week_total report'
       = TimesheetData.week_total report
         + (if inRange startDate endDate entry then TimeEntry.minutes entry else 0).
Proof.
  intros Hreport Hsession Hassigned (Hs & Ht & _ & Hselect & _) Hentries.
  set (user := TimeEntry.user_id entry) in *.
  pose proof (getTimesheetData_Data _ _ _ _ Hreport) as (user' & Hsession' & Hfault & _).
  assert (Hreport' : exists report', getTimesheetData startDate endDate b' = Data report').
  { unfold getTimesheetData. rewrite Hs, Hsession, Hselect, Hfault. eauto. }
  destruct Hreport' as [report' Hreport']. exists report'.
  split; [exact Hreport'|]. split.
  - intros cell.
    rewrite (loaded_cell (mkPage (Some report') None "" None startDate endDate)
               b' report' user cell eq_refl Hreport') by (by rewrite Hs).
    rewrite (loaded_cell (mkPage (Some report) None "" None startDate endDate)
               b report user cell eq_refl Hreport Hsession).
    cbn [startDateStr endDateStr]. rewrite Ht, Hentries, List.filter_app, sumMinutes_app.
    cbn [List.filter]. unfold inCell at 2. fold user.
    rewrite bool_decide_eq_true_2 by reflexivity. cbn [andb].
    destruct (ofTask (Cell.taskId cell) entry) eqn:Htask.
    + assert (Hid : Cell.taskId cell = TimeEntry.task_id entry)
        by (by apply String.eqb_eq in Htask).
      rewrite Hid, (assignedTo_true user (tasks b) (TimeEntry.task_id entry))
        by (by apply notAssignee_false).
      destruct (onDate (Cell.date cell) entry), (inRange startDate endDate entry);
        simpl; lia.
    + rewrite andb_false_r. cbn [andb sumMinutes foldr].
      destruct (assignedTo user (tasks b) (Cell.taskId cell)); lia.
  - rewrite (week_total_of_table _ _ _ _ user Hreport') by (by rewrite Hs).
    rewrite (week_total_of_table _ _ _ _ user Hreport Hsession).
    rewrite Hentries, List.filter_app, sumMinutes_app. cbn [List.filter]. fold user.
    rewrite bool_decide_eq_true_2 by reflexivity. cbn [andb].
    destruct (inRange startDate endDate entry); simpl; lia.
Qed.

End WrittenEntry.

(** X21. An entry written by [addManualTimeEntry] or [stopTimer] shows in
    the report of the same range as follows.  Its day is the UTC day of
    [started_at] for a timer, which is the day the timer was started, and
    the UTC day of the backend clock for a manual entry.  The cell of its
    task and that day grows by its minutes when that day is in the range,
    every other cell shows what it showed, and the week total grows by its
    minutes when the day is in the range. *)
Theorem a_written_entry_adds_to_one_cell `{collation : Collator}
  (b b' : Backend) (entry : TimeEntry.t) (startDate endDate : string)
  (report : TimesheetData.t) :
  (exists input, addManualTimeEntry input b = (Data entry, b'))
  \/ (exists taskId startedAt, stopTimer taskId startedAt b = (Data entry, b')) ->
  getTimesheetData startDate endDate b = Data report ->
  exists report',
    getTimesheetData startDate endDate b' = Data report'
    /\ entryDate entry = JsDate.isoDate (default (clock b) (TimeEntry.started_at entry))
    /\ (forall cell,
          currentMinutes (mkPage (Some report') None "" None startDate endDate) cell
          = currentMinutes (mkPage (Some report) None "" None startDate endDate) cell
            + (if ofTask (Cell.taskId cell) entry && onDate (Cell.date cell) entry
                  && inRange startDate endDate entry
               then TimeEntry.minutes entry else 0))
    /\ TimesheetData.week_total report'
       = TimesheetData.week_total report
         + (if inRange startDate endDate entry then TimeEntry.minutes entry else 0).
Proof.
  intros Hwritten Hreport.
  assert (Hfacts : session b = Some (TimeEntry.user_id entry)
                   /\ notAssignee (TimeEntry.task_id entry) (TimeEntry.user_id entry) b = false
                   /\ sameTables b b'
                   /\ time_entries b' = (time_entries b ++ [entry])%list
                   /\ entryDate entry
                      = JsDate.isoDate (default (clock b) (TimeEntry.started_at entry))).
  { destruct Hwritten as [[input Hadd] | (taskId & startedAt & Hstop)].
    - pose proof (addManualTimeEntry_owner input b) as Howner.
      pose proof (addManualTimeEntry_spec input b) as Hspec.
      pose proof (addManualTimeEntry_sameTables input b) as Hsame.
      rewrite Hadd in Howner, Hspec, Hsame.
      destruct Howner as (Hsession & _ & Hassigned).
      destruct Hspec as (_ & _ & Hstarted & Hcreated & Hentries).
      repeat (split; [assumption|]).
      unfold entryDate. by rewrite Hstarted, Hcreated.
    - pose proof (stopTimer_owner taskId startedAt b) as Howner.
      pose proof (stopTimer_spec taskId startedAt b) as Hspec.
      rewrite Hstop in Howner, Hspec.
      destruct Howner as (Hsession & Hassigned & Hsame).
      destruct Hspec as (_ & _ & Hstarted & _ & Hentries).
      repeat (split; [assumption|]).
      unfold entryDate. by rewrite Hstarted. }
  destruct Hfacts as (Hsession & Hassigned & Hsame & Hentries & Hdate).
  destruct (report_after_insert startDate endDate b b' entry report
              Hreport Hsession Hassigned Hsame Hentries) as (report' & Hreport' & Hcells & Hweek).
  exists report'. auto.
Qed.


(** ** The day delete on UTC *)

Section DayDeleteOnUtc.

Context `{collation : Collator}.

(** Only the instants of a day are written as the date of that day, when
    its year has four digits. *)
Lemma isoDate_same_day time instant :
  fourDigitYear time ->
  JsDate.isoDate instant = JsDate.isoDate time ->
  JsDate.Day instant = JsDate.Day time.
Proof.
  intros Htime Hsame.
  pose proof (isoDate_compare time time Htime Htime) as Hrefl.
  rewrite Z.compare_refl in Hrefl.
  assert (Hdec : fourDigitYear instant \/ ~ fourDigitYear instant)
    by (unfold fourDigitYear; lia).
  destruct Hdec as [Hin | Hout].
  - pose proof (isoDate_compare instant time Hin Htime) as Hcmp.
    rewrite Hsame, Hrefl in Hcmp. symmetry in Hcmp. by apply Z.compare_eq_iff in Hcmp.
  - pose proof (isoDate_expanded_first instant time Hout Htime) as Hcmp.
    rewrite Hsame, Hrefl in Hcmp. discriminate.
Qed.

Lemma notPicked_filter (entries : list TimeEntry.t) (keep window : TimeEntry.t -> bool) e :
  NoDup (map TimeEntry.id entries) -> In e entries ->
  notPicked (List.filter window (List.filter keep entries)) e = negb (keep e && window e).
Proof.
  intros Hnd Hin. unfold notPicked. f_equal.
  destruct (keep e && window e) eqn:Hboth.
  - apply andb_true_iff in Hboth as [Hkeep Hwindow].
    apply existsb_exists. exists (TimeEntry.id e). split; [|apply String.eqb_refl].
    apply in_map, filter_In. split; [|exact Hwindow]. by apply filter_In.
  - destruct (existsb _ _) eqn:Hex; [|reflexivity].
    apply existsb_exists in Hex as (id & Hid & Heq). apply String.eqb_eq in Heq. subst id.
    apply in_map_iff in Hid as (e' & Hid & Hin').
    apply filter_In in Hin' as [Hin' Hwindow]. apply filter_In in Hin' as [Hin' Hkeep].
    assert (e' = e) as -> by (by apply (NoDup_id_inj entries)).
    by rewrite Hkeep, Hwindow in Hboth.
Qed.

(** What the window of a day leaves of a cell, on UTC. *)
Lemma unpicked_of_cell br taskId time user startDate endDate entries :
  tz br = 0 -> fourDigitYear time -> NoDup (map TimeEntry.id entries) ->
  List.filter (inCell user startDate endDate (Cell.mk taskId (JsDate.isoDate time)))
    (List.filter
       (notPicked
          (entriesToDelete br (JsDate.isoDate time)
             (filter (fun e => TimeEntry.task_id e = taskId /\ TimeEntry.user_id e = user)
                entries)))
       entries)
  = List.filter
      (fun e => inCell user startDate endDate (Cell.mk taskId (JsDate.isoDate time)) e
                && (86399000 <? Date.TimeWithinDay (entryInstant e)))
      entries.
Proof.
  intros Hutc Hyear Hnd.
  pose proof (fourDigitYear_bounds time Hyear) as Hbounds.
  assert (Htime : timeValue time) by (unfold timeValue; lia).
  assert (Hstart : timeValue (Date.UTC (tz br) (JsDate.Day time * JsDate.msPerDay)))
    by (rewrite Hutc; unfold timeValue, Date.UTC, JsDate.Day, JsDate.msPerDay; divmod).
  assert (Hend : timeValue (Date.UTC (tz br) (JsDate.Day time * JsDate.msPerDay + 86399000)))
    by (rewrite Hutc; unfold timeValue, Date.UTC, JsDate.Day, JsDate.msPerDay; divmod).
  rewrite filter_filter_and. apply filter_ext_in. intros e Hin.
  rewrite entriesToDelete_window, stdpp_filter_bool by assumption.
  rewrite (notPicked_filter entries) by assumption.
  rewrite andb_comm.
  destruct (inCell user startDate endDate (Cell.mk taskId (JsDate.isoDate time)) e)
    eqn:Hcell; [|reflexivity].
  cbn [andb]. unfold inCell in Hcell.
  apply andb_true_iff in Hcell as [Hcell Hdate].
  apply andb_true_iff in Hcell as [Hcell Htask].
  apply andb_true_iff in Hcell as [Huser _].
  apply bool_decide_eq_true_1 in Huser. apply String.eqb_eq in Htask, Hdate.
  cbn [Cell.taskId Cell.date] in Htask, Hdate.
  rewrite bool_decide_eq_true_2 by (by split). cbn [andb]. cbv zeta.
  rewrite entryDate_instant in Hdate. apply (isoDate_same_day time) in Hdate; [|exact Hyear].
  pose proof (Day_local_parts (entryInstant e)) as [Hparts Hwithin].
  rewrite Hdate in Hparts. unfold Date.LocalTime. rewrite Hutc.
  destruct (Z.leb_spec (JsDate.Day time * JsDate.msPerDay) (entryInstant e + 0 * 60000));
    [|lia].
  destruct (Z.leb_spec (entryInstant e + 0 * 60000)
              (JsDate.Day time * JsDate.msPerDay + 86399000)),
           (Z.ltb_spec 86399000 (Date.TimeWithinDay (entryInstant e)));
    try reflexivity; lia.
Qed.

End DayDeleteOnUtc.

(** X22. The day delete in a browser on UTC, for the key of a day of a
    four-digit year, when the user confirms, is signed in, has an entry of
    the task, and no remote call fails: afterwards the cell of the task and
    the day shows the minutes of the entries of that cell that lie in the
    last 999 ms of the day, the only ones the delete window leaves; it
    shows 0 when there is none. *)
Theorem day_delete_on_utc_leaves_the_last_second `{collation : Collator}
  (br : Browser) (taskId : string) (time : Z) (p : Page) (w : World) (user : string) :
  tz br = 0 ->
  confirms br = true ->
  session (backend w) = Some user ->
  select_fault (backend w) = false ->
  delete_faults (backend w) = [] ->
  NoDup (map TimeEntry.id (time_entries (backend w))) ->
  fourDigitYear time ->
  filter (fun e => TimeEntry.task_id e = taskId /\ TimeEntry.user_id e = user)
    (time_entries (backend w)) <> [] ->
  let cell := Cell.mk taskId (JsDate.isoDate time) in
  currentMinutes (handleDeleteTimeForDay br taskId (JsDate.isoDate time) p w).1 cell
  = if assignedTo user (tasks (backend w)) taskId
    then sumMinutes
           (List.filter
              (fun e => inCell user (startDateStr p) (endDateStr p) cell e
                        && (86399000 <? Date.TimeWithinDay (entryInstant e)))
              (time_entries (backend w)))
    else 0.
Proof.
  intros Hutc Hconfirm Hsession Hselect Hfaults Hnd Hyear Hfetched cell.
  destruct (handleDeleteTimeForDay_success br taskId (JsDate.isoDate time) p w user
              Hconfirm Hsession Hselect Hnd Hfetched)
    as (b' & report' & Hentries & Hsame & Hreport & Hafter).
  { intros e _. rewrite Hfaults. intros []. }
  rewrite Hafter. cbn [fst].
  destruct Hsame as (Hs & Ht & _).
  rewrite (loaded_cell
             (mkPage (Some report') (editingCell p) (editValue p) None
                (startDateStr p) (endDateStr p))
             b' report' user cell eq_refl Hreport) by (by rewrite Hs).
  cbn [startDateStr endDateStr]. change (Cell.taskId cell) with taskId. rewrite Ht.
  destruct (assignedTo user (tasks (backend w)) taskId); [|reflexivity].
  f_equal. rewrite Hentries. by apply unpicked_of_cell.
Qed.


(** ** Lowering a cell *)

Section Lowering.

Context `{collation : Collator}.

(** The delete loop of [handleCellSave] when no delete fails. *)
Lemma deleteEach_success picked w user :
  session (backend w) = Some user ->
  NoDup (map TimeEntry.id (time_entries (backend w))) ->
  NoDup (map TimeEntry.id picked) ->
  (forall e, In e picked ->
             In e (time_entries (backend w)) /\ TimeEntry.user_id e = user
             /\ ~ In (TimeEntry.id e) (delete_faults (backend w))) ->
  exists b',
    deleteEach picked w
    = (tt, mkWorld b'
             (calls w ++ map (fun e => CallDeleteTimeEntry (TimeEntry.id e)) picked)
             (alerts w))
    /\ time_entries b' = List.filter (notPicked picked) (time_entries (backend w))
    /\ sameTables (backend w) b'.
Proof.
  revert w. induction picked as [|e rest IH]; intros w Hsession Hnd Hpicked Hall.
  - exists (backend w). simpl. unfold ret. rewrite app_nil_r. destruct w. simpl.
    split; [reflexivity|]. split; [|apply sameTables_refl].
    symmetry. apply filter_notPicked_nil.
  - destruct (Hall e (or_introl eq_refl)) as (Hin & Huser & Hfault).
    destruct (deleteTimeEntry_success (backend w) user e Hsession Hnd Hin Huser Hfault)
      as (b1 & Hdel & Hentries & Hsame).
    simpl in Hpicked. apply NoDup_cons in Hpicked as [He Hrest].
    set (w1 := mkWorld b1 (calls w ++ [CallDeleteTimeEntry (TimeEntry.id e)]) (alerts w)).
    destruct (IH w1) as (b2 & Hloop & Hentries2 & Hsame2).
    + simpl. destruct Hsame as (-> & _). assumption.
    + simpl. rewrite Hentries. by apply NoDup_map_filter.
    + assumption.
    + intros x Hx. destruct (Hall x (or_intror Hx)) as (Hxin & Hxuser & Hxfault).
      simpl. rewrite Hentries. destruct Hsame as (_ & _ & _ & _ & _ & ->).
      split; [|auto]. apply filter_In. split; [assumption|].
      apply negb_true_iff, String.eqb_neq. intros Hsame. apply He. rewrite <- Hsame.
      apply list_elem_of_In, in_map, Hx.
    + exists b2. cbn [deleteEach]. unfold bind, call. rewrite Hdel.
      fold w1. rewrite Hloop. simpl. rewrite <- app_assoc. simpl.
      split; [reflexivity|]. split; [|eapply sameTables_trans; eassumption].
      rewrite Hentries2. simpl. rewrite Hentries, filter_filter_and.
      apply List.filter_ext. intros x. unfold notPicked. simpl.
      by rewrite negb_orb.
Qed.

End Lowering.

(** X23. Lowering the cell of today in a browser on UTC.  When the page
    shows the report of the current table, the edited cell is of the UTC
    day of the backend clock (a day of a four-digit year) and within the
    range, the task is assigned to the user, the entry ids are distinct and
    no remote call fails, then saving a total from 0 up to below the
    current one makes the cell show that total plus the minutes of the
    entries of the cell in the last 999 ms of the day, which the delete
    window leaves.  The remote calls are the two reads, one delete per
    entry in the window, one [addManualTimeEntry] of the whole total when
    it is positive, and one reload; there is no alert. *)
Theorem lowering_todays_cell_on_utc `{collation : Collator}
  (br : Browser) (p : Page) (w : World) (cell : Cell.t) (report : TimesheetData.t)
  (user : string) :
  tz br = 0 ->
  editingCell p = Some cell ->
  timesheetData p = Some report ->
  getTimesheetData (startDateStr p) (endDateStr p) (backend w) = Data report ->
  session (backend w) = Some user ->
  notAssignee (Cell.taskId cell) user (backend w) = false ->
  insert_fault (backend w) = false ->
  delete_faults (backend w) = [] ->
  NoDup (map TimeEntry.id (time_entries (backend w))) ->
  fourDigitYear (clock (backend w)) ->
  JsDate.isoDate (clock (backend w)) = Cell.date cell ->
  JsString.ge (Cell.date cell) (startDateStr p) = true ->
  JsString.le (Cell.date cell) (endDateStr p) = true ->
  0 <= parseTotalMinutes (editValue p) < currentMinutes p cell ->
  let total := parseTotalMinutes (editValue p) in
  let picked :=
    entriesToDelete br (Cell.date cell)
      (filter (fun e => TimeEntry.task_id e = Cell.taskId cell /\ TimeEntry.user_id e = user)
         (time_entries (backend w))) in
  let late :=
    List.filter
      (fun e => inCell user (startDateStr p) (endDateStr p) cell e
                && (86399000 <? Date.TimeWithinDay (entryInstant e)))
      (time_entries (backend w)) in
  currentMinutes (handleCellSave br p w).1 cell = total + sumMinutes late
  /\ calls (handleCellSave br p w).2
     = (calls w ++ [AuthGetUser; SelectTimeEntries (Cell.taskId cell) user]
        ++ map (fun e => CallDeleteTimeEntry (TimeEntry.id e)) picked
        ++ (if 0 <? total
            then [CallAddManualTimeEntry
                    (AddManualTimeEntryInput.mk (Cell.taskId cell) total
                       (Some ("Timesheet entry for " +:+ Cell.date cell)))]
            else [])
        ++ [CallGetTimesheetData (startDateStr p) (endDateStr p)])%list
  /\ alerts (handleCellSave br p w).2 = alerts w.
Proof.
  intros Hutc Hcell Hp Hreport Hsession Hna Hinsert Hfaults Hnd Hyear Htoday Hge Hle Hless
    total picked late.
  pose proof (getTimesheetData_Data _ _ _ _ Hreport) as (user' & _ & Hselect & _).
  rewrite (handleCellSave_cases br p w cell Hcell). fold total.
  destruct (Z.ltb_spec total 0); [unfold total in *; lia|].
  replace ((0 <? total) && (total <? 1)) with false
    by (symmetry; apply andb_false_iff; lia).
  destruct (Z.eqb_spec (total - currentMinutes p cell) 0); [unfold total in *; lia|].
  destruct (Z.ltb_spec (total - currentMinutes p cell) 0); [|unfold total in *; lia].
  (* the deletes *)
  assert (Hpicked_nd : NoDup (map TimeEntry.id picked)).
  { unfold picked, entriesToDelete. apply NoDup_map_filter.
    rewrite stdpp_filter_bool. by apply NoDup_map_filter. }
  assert (Hpicked_in : forall e, In e picked ->
            In e (time_entries (backend w)) /\ TimeEntry.user_id e = user
            /\ ~ In (TimeEntry.id e) (delete_faults (backend w))).
  { intros e He. apply entriesToDelete_selected in He as (Hin & _ & Hu).
    rewrite Hfaults. auto. }
  set (w0 := mkWorld (backend w)
               (calls w ++ [AuthGetUser; SelectTimeEntries (Cell.taskId cell) user])
               (alerts w)).
  destruct (deleteEach_success picked w0 user Hsession Hnd Hpicked_nd Hpicked_in)
    as (b1 & Hloop & Hentries1 & Hsame1).
  cbn [backend calls alerts w0] in Hloop, Hentries1, Hsame1.
  set (w1 := mkWorld b1 _ (alerts w)) in Hloop.
  (* the insert *)
  set (input := AddManualTimeEntryInput.mk (Cell.taskId cell) total
                  (Some ("Timesheet entry for " +:+ Cell.date cell))).
  assert (Hreduce : exists b2,
            reduceCell br cell total w
            = (tt, mkWorld b2
                     (calls w1 ++ (if 0 <? total then [CallAddManualTimeEntry input] else []))
                     (alerts w))
            /\ sameTables (backend w) b2
            /\ sumMinutes (List.filter (inCell user (startDateStr p) (endDateStr p) cell)
                             (time_entries b2))
               = sumMinutes (List.filter (inCell user (startDateStr p) (endDateStr p) cell)
                               (time_entries b1)) + total).
  { assert (Hfirst : reduceCell br cell total w
                     = (if 0 <? total then saveTimeEntry cell total else ret tt) w1).
    { unfold reduceCell, authGetUser, selectTimeEntries, bind, call. simpl.
      rewrite Hsession. simpl. rewrite Hselect. fold picked.
      replace ((calls w ++ [AuthGetUser]) ++ [SelectTimeEntries (Cell.taskId cell) user])%list
        with (calls w ++ [AuthGetUser; SelectTimeEntries (Cell.taskId cell) user])%list
        by (by rewrite <- app_assoc).
      fold w0. by rewrite Hloop. }
    rewrite Hfirst. destruct (Z.ltb_spec 0 total) as [Hpositive | Hzero].
    - destruct Hsame1 as (Hs1 & Ht1 & Hc1 & Hsel1 & Hins1 & Hdel1).
      destruct (addManualTimeEntry_success input b1 user) as
        (e & b2 & Hadd & Htask & Huser & Hminutes & Hstarted & Hcreated & Hentries2 & Hsame2).
      { by rewrite Hs1. }
      { unfold notAssignee in *. by rewrite Ht1. }
      { by rewrite Hins1. }
      exists b2. split; [|split].
      + unfold saveTimeEntry, bind, call. fold input. cbn [backend w1].
        rewrite Hadd. reflexivity.
      + eapply sameTables_trans; [|exact Hsame2]. by repeat split.
      + rewrite Hentries2, List.filter_app, sumMinutes_app. f_equal.
        assert (Hin : inCell user (startDateStr p) (endDateStr p) cell e = true).
        { unfold inCell, inRange, ofTask, onDate, entryDate.
          rewrite Hstarted, Hcreated, Hc1, Htoday, Htask, Huser, Hge, Hle, !String.eqb_refl.
          by rewrite bool_decide_eq_true_2. }
        cbn [List.filter]. rewrite Hin. cbn [sumMinutes foldr]. rewrite Hminutes.
        cbn [AddManualTimeEntryInput.minutes input]. unfold enforceMinimum.
        destruct (Z.ltb_spec total 1); lia.
    - exists b1. split; [|split].
      + unfold ret. by rewrite app_nil_r.
      + exact Hsame1.
      + lia. }
  destruct Hreduce as (b2 & Hreduce & Hsame2 & Hsum). rewrite Hreduce. cbn [snd].
  set (w2 := mkWorld b2 _ (alerts w)).
  destruct Hsame2 as (Hs2 & Ht2 & _ & Hsel2 & _).
  assert (Hload : exists data,
            getTimesheetData (startDateStr p) (endDateStr p) b2 = Data data).
  { unfold getTimesheetData. rewrite Hs2, Hsession, Hsel2, Hselect. eauto. }
  destruct Hload as (data & Hdata).
  assert (Hpage : loadTimesheetData p w2
                  = (mkPage (Some data) (editingCell p) (editValue p) (contextMenu p)
                       (startDateStr p) (endDateStr p),
                     mkWorld b2 (calls w2 ++ [CallGetTimesheetData (startDateStr p)
                                                (endDateStr p)]) (alerts w))).
  { unfold loadTimesheetData, bind, call. simpl. by rewrite Hdata. }
  rewrite Hpage. cbn [fst snd calls alerts]. split; [|split; [|reflexivity]].
  - unfold closeEdit. cbn [timesheetData contextMenu startDateStr endDateStr].
    rewrite (loaded_cell
               (mkPage (Some data) None "" (contextMenu p) (startDateStr p) (endDateStr p))
               b2 data user cell eq_refl Hdata) by congruence.
    cbn [startDateStr endDateStr].
    rewrite Ht2, (assignedTo_true user (tasks (backend w)) (Cell.taskId cell))
      by (by apply notAssignee_false).
    rewrite Hsum, Hentries1. unfold picked, late. rewrite <- Htoday.
    destruct cell as [taskId date]. cbn [Cell.taskId Cell.date] in *. subst date.
    rewrite (unpicked_of_cell br taskId (clock (backend w)) user) by assumption. lia.
  - unfold w2, w1. cbn [calls]. by rewrite <- !app_assoc.
Qed.


(** ** The rows and the totals of a report *)

Section RowsAddUp.

Context `{collation : Collator}.

Lemma sumDay_perm rows rows' date :
  Permutation rows rows' -> sumDay rows date = sumDay rows' date.
Proof.
  induction 1 as [|x l l' _ IH|x y l|l1 l2 l3 _ IH1 _ IH2]; simpl; lia.
Qed.

Lemma sumMinutes_split (f : TimeEntry.t -> bool) entries :
  sumMinutes entries
  = sumMinutes (List.filter f entries)
    + sumMinutes (List.filter (fun e => negb (f e)) entries).
Proof.
  induction entries as [|e entries IH]; [reflexivity|].
  simpl. destruct (f e); simpl; lia.
Qed.

Lemma filter_swap {A} (f g : A -> bool) l :
  List.filter f (List.filter g l) = List.filter g (List.filter f l).
Proof.
  rewrite !filter_filter_and. apply List.filter_ext. intros x. apply andb_comm.
Qed.

Lemma ofTasks_seeds tasks entry :
  ofTasks (map fst (initTaskMap tasks)) entry = ofTasks (map Task.id tasks) entry.
Proof.
  apply existsb_same_elements. intros k.
  unfold initTaskMap. fold (seedAll tasks []). rewrite seedAll_keys. simpl. tauto.
Qed.

End RowsAddUp.

(** X24. The rows and the totals of a report add up as follows.  The total
    of a row is the sum of what the row holds for its days.  The total of a
    day is the sum of what the rows hold for that day, plus the minutes of
    the entries of that day in the range whose task has no row; and the
    week total is the sum of the totals of the rows plus the minutes of
    the entries in the range whose task has no row. *)
Theorem report_rows_add_up `{collation : Collator}
  (timeEntries : list TimeEntry.t) (tasks : list Task.t) (startDate endDate : string) :
  let report := aggregate timeEntries tasks startDate endDate in
  let inside := List.filter (inRange startDate endDate) timeEntries in
  (forall row,
     In row (TimesheetData.tasks report) ->
     TimesheetTaskData.total_minutes row = sumValues (TimesheetTaskData.daily_time row))
  /\ (forall date,
        dayTotal report date
        = sumDay (TimesheetData.tasks report) date
          + sumMinutes (List.filter (withoutRow tasks) (List.filter (onDate date) inside)))
  /\ TimesheetData.week_total report
     = sumTotals (TimesheetData.tasks report)
       + sumMinutes (List.filter (withoutRow tasks) inside).
Proof.
  intros report inside. split; [|split].
  - intros row Hrow. apply aggregate_row in Hrow as (t & _ & ->).
    pose proof (rowAfter_spec startDate endDate timeEntries (Task.id t, seedRow t))
      as (_ & _ & _ & _ & Hdaily & Htotal).
    rewrite Hdaily, Htotal. cbn [fst snd seedRow TimesheetTaskData.daily_time
                                   TimesheetTaskData.total_minutes].
    by rewrite addEntries_sum, sumValues_empty.
  - intros date. unfold dayTotal, report.
    rewrite aggregate_daily_totals, addEntries_lookup, lookup_empty. cbn [default].
    rewrite Z.add_0_l, (sumMinutes_split (ofTasks (map Task.id tasks))). f_equal.
    rewrite aggregate_tasks, (sumDay_perm _ _ _ (sort_perm _ _)).
    transitivity (sumByTask (map fst (initTaskMap tasks))
                    (List.filter (onDate date) inside)).
    + rewrite sumByTask_once by apply initTaskMap_NoDup.
      f_equal. apply List.filter_ext. intros entry. symmetry. apply ofTasks_seeds.
    + assert (Hseed : forall kr, In kr (initTaskMap tasks) ->
                                 TimesheetTaskData.daily_time kr.2 = ∅).
      { intros [k row] Hin. apply seedAll_In in Hin as [[] | (t & _ & _ & ->)].
        reflexivity. }
      induction (initTaskMap tasks) as [|kr m IH]; [reflexivity|].
      cbn [map sumByTask sumDay foldr fst].
      fold (sumByTask (map fst m) (List.filter (onDate date) inside)).
      fold (sumDay (map (fun kr => (rowAfter startDate endDate timeEntries kr).2) m) date).
      rewrite IH by (intros; apply Hseed; by right).
      pose proof (rowAfter_spec startDate endDate timeEntries kr)
        as (_ & _ & _ & _ & Hdaily & _).
      rewrite Hdaily, (Hseed kr) by (by left).
      rewrite addEntries_lookup, lookup_empty. cbn [default].
      by rewrite Z.add_0_l, filter_swap.
  - unfold report.
    rewrite aggregate_week_total, aggregate_daily_totals, addEntries_sum, sumValues_empty.
    rewrite aggregate_sumTotals, Z.add_0_l. apply sumMinutes_split.
Qed.


(** ** The rows of the calendar *)

Section CalendarRows.

Lemma lookup_map_seqZ {A} (f : Z -> A) (n j : Z) :
  0 <= j < n -> map f (seqZ 0 n) !! Z.to_nat j = Some (f j).
Proof.
  intros Hj. change (map f (seqZ 0 n)) with (f <$> seqZ 0 n).
  rewrite list_lookup_fmap, lookup_seqZ_lt by lia. simpl. f_equal. f_equal. lia.
Qed.

(** The Sunday of the week of a day counted from a Sunday. *)
Lemma localSunday_from_sunday tz sunday j :
  Date.WeekDay (Date.LocalTime tz sunday) = 0 ->
  Date.TimeWithinDay (Date.LocalTime tz sunday) = 0 ->
  0 <= j ->
  localSunday tz (sunday + j * JsDate.msPerDay) = sunday + 7 * (j / 7) * JsDate.msPerDay.
Proof.
  intros Hweekday Hmidnight Hj.
  pose proof (Day_local_parts (Date.LocalTime tz sunday)) as [Hparts _].
  rewrite Hmidnight, Z.add_0_r in Hparts.
  unfold localSunday. cbv zeta.
  replace (Date.LocalTime tz (sunday + j * JsDate.msPerDay))
    with (Date.LocalTime tz sunday + j * JsDate.msPerDay) by (unfold Date.LocalTime; lia).
  unfold Date.WeekDay in *. rewrite Day_shift.
  set (L := JsDate.Day (Date.LocalTime tz sunday)) in *.
  assert (Hmod : (L + j + 4) mod 7 = j mod 7) by divmod.
  rewrite Hmod. unfold Date.UTC. unfold Date.LocalTime in Hparts.
  assert (Hrow : j - j mod 7 = 7 * (j / 7)) by divmod.
  replace ((L + j - j mod 7) * JsDate.msPerDay)
    with (L * JsDate.msPerDay + (j - j mod 7) * JsDate.msPerDay) by lia.
  rewrite Hrow. lia.
Qed.

End CalendarRows.

(** X25. Each row of the calendar grid is a week of the timesheet.  For a
    date at least sixty days inside the range of time values whose local
    year is not one of 0 to 99: the cell at the index [j] of the grid is
    [j mod 7] days after the first cell of its row, and when that cell is
    selected, which makes it [currentWeek], the week that [getWeekDates]
    gives starts at the first cell of that row. *)
Theorem calendar_rows_are_weeks_of_the_timesheet (tz date : Z) :
  ~ 0 <= Date.YearFromTime (Date.LocalTime tz date) <= 99 ->
  -8640000000000000 + 60 * JsDate.msPerDay <= date <= 8640000000000000 - 60 * JsDate.msPerDay ->
  forall j, 0 <= j < 42 ->
    exists rowStart,
      Calendar.getDaysInMonth tz (Some date) !! Z.to_nat (7 * (j / 7)) = Some (Some rowStart)
      /\ Calendar.getDaysInMonth tz (Some date) !! Z.to_nat j
         = Some (Some (rowStart + (j mod 7) * JsDate.msPerDay))
      /\ WeekDates.start (getWeekDates tz (Some (rowStart + (j mod 7) * JsDate.msPerDay)))
         = Some rowStart.
Proof.
  unfold Date.YearFromTime. intros Hyear Hrange j Hj.
  destruct (JsDate.civil_from_days (JsDate.Day (Date.LocalTime tz date))) as [[y m] d] eqn:Hc.
  simpl in Hyear.
  assert (Hrange' : -8640000000000000 + 50 * JsDate.msPerDay <= date
                    <= 8640000000000000 - 50 * JsDate.msPerDay)
    by (unfold JsDate.msPerDay in *; lia).
  rewrite (getDaysInMonth_value tz date y m d Hc Hyear Hrange').
  apply civil_from_days_spec in Hc as (Hday & Hm & Hd).
  pose proof (daysInMonth_range y m) as Hlen.
  rewrite (days_from_civil_day y m d) in Hday.
  set (F := JsDate.days_from_civil y m 1) in *.
  set (first := Date.UTC tz (F * JsDate.msPerDay)).
  set (startDay := Date.WeekDay (F * JsDate.msPerDay)).
  pose proof (WeekDay_range (F * JsDate.msPerDay)) as Hstart. fold startDay in Hstart.
  pose proof (Day_local_parts (Date.LocalTime tz date)) as [Hparts Hwithin].
  set (sunday := first - startDay * JsDate.msPerDay).
  assert (Hlocal : Date.LocalTime tz sunday = (F - startDay) * JsDate.msPerDay)
    by (unfold sunday, first, Date.LocalTime, Date.UTC; lia).
  assert (Hweekday : Date.WeekDay (Date.LocalTime tz sunday) = 0).
  { rewrite Hlocal. unfold Date.WeekDay. rewrite Day_dayStart.
    unfold startDay, Date.WeekDay. rewrite Day_dayStart. divmod. }
  assert (Hmidnight : Date.TimeWithinDay (Date.LocalTime tz sunday) = 0)
    by (rewrite Hlocal; unfold Date.TimeWithinDay; apply Z_mod_mult).
  assert (Hrow : 0 <= 7 * (j / 7) < 42 /\ j = 7 * (j / 7) + j mod 7 /\ 0 <= j mod 7 < 7)
    by divmod.
  destruct Hrow as (Hrow & Hsplit & Hcol).
  exists (sunday + 7 * (j / 7) * JsDate.msPerDay).
  rewrite !lookup_map_seqZ by lia. split; [|split].
  - do 2 f_equal. unfold sunday. lia.
  - do 2 f_equal. unfold sunday. lia.
  - replace (sunday + 7 * (j / 7) * JsDate.msPerDay + j mod 7 * JsDate.msPerDay)
      with (sunday + j * JsDate.msPerDay) by lia.
    rewrite getWeekDates_value.
    + cbn [WeekDates.start]. f_equal. by apply localSunday_from_sunday; [..|lia].
    + unfold sunday, first, Date.UTC, Date.LocalTime, JsDate.msPerDay in *. lia.
Qed.


(** ** The months of the calendar *)

Section Months.

Lemma monthStart_civil tz y m :
  1 <= m <= 12 ->
  JsDate.civil_from_days (JsDate.Day (Date.LocalTime tz (monthStart tz y m))) = (y, m, 1).
Proof.
  intros Hm. unfold monthStart. rewrite LocalTime_UTC, Day_dayStart.
  apply civil_from_days_from_civil. pose proof (daysInMonth_range y m). split; lia.
Qed.

Lemma monthStart_after y m tz :
  1 <= m <= 12 ->
  monthStart tz (monthAfter y m).1 (monthAfter y m).2
  = monthStart tz y m + JsDate.daysInMonth y m * JsDate.msPerDay.
Proof.
  intros Hm. unfold monthStart, monthAfter.
  pose proof (month_length y m Hm) as Hlen.
  destruct (Z.eqb_spec m 12); cbn [fst snd]; rewrite Hlen; unfold Date.UTC; lia.
Qed.

Lemma monthBefore_after y m :
  1 <= m <= 12 ->
  monthAfter (monthBefore y m).1 (monthBefore y m).2 = (y, m)
  /\ monthBefore (monthAfter y m).1 (monthAfter y m).2 = (y, m)
  /\ 1 <= (monthBefore y m).2 <= 12 /\ 1 <= (monthAfter y m).2 <= 12.
Proof.
  intros Hm. unfold monthAfter, monthBefore.
  destruct (Z.eqb_spec m 1), (Z.eqb_spec m 12); cbn [fst snd]; try lia.
  - subst m. cbn. repeat split; try lia. f_equal. lia.
  - subst m. cbn. repeat split; try lia. f_equal. lia.
  - destruct (Z.eqb_spec (m - 1) 12), (Z.eqb_spec (m + 1) 1); try lia.
    repeat split; try lia; f_equal; lia.
Qed.

(** [new Date(year, month + k, 1)] for the month of a date, [k] from -1
    to 1. *)
Lemma make_month tz y m k :
  1 <= m <= 12 -> ~ 0 <= y <= 99 -> -1 <= k <= 1 ->
  let target := if k =? 0 then (y, m) else if k =? 1 then monthAfter y m else monthBefore y m in
  timeValue (monthStart tz target.1 target.2) ->
  Date.make tz (Some y) (Some (m - 1 + k)) (Some 1) = Some (monthStart tz target.1 target.2).
Proof.
  intros Hm Hy Hk target Hvalue. rewrite make_value by exact Hy.
  assert (Hday : Date.MakeDay y (m - 1 + k) 1
                 = JsDate.days_from_civil target.1 target.2 1).
  { unfold target. assert (Hcases : k = -1 \/ k = 0 \/ k = 1) by lia.
    destruct Hcases as [-> | [-> | ->]]; cbn [Z.eqb Pos.eqb fst snd].
    - unfold monthBefore. destruct (Z.eqb_spec m 1) as [-> | Hne]; cbn [fst snd].
      + unfold Date.MakeDay. change ((1 - 1 + -1) / 12) with (-1).
        change ((1 - 1 + -1) mod 12 + 1) with 12.
        replace (y + -1) with (y - 1) by lia. lia.
      + replace (m - 1 + -1) with (m - 1 - 1) by lia.
        rewrite MakeDay_month by lia. lia.
    - rewrite Z.add_0_r, MakeDay_month by lia. lia.
    - replace (m - 1 + 1) with m by lia. rewrite MakeDay_next_month by exact Hm.
      unfold monthAfter. pose proof (month_length y m Hm) as Hlen.
      destruct (Z.eqb_spec m 12); cbn [fst snd]; lazy beta iota in Hlen; lia. }
  rewrite Hday. by apply TimeClip_timeValue.
Qed.

End Months.

Section MonthButtons.

(** The three dates that the calendar makes of the month of a date. *)
Lemma month_dates tz time y m d :
  JsDate.civil_from_days (JsDate.Day (Date.LocalTime tz time)) = (y, m, d) ->
  ~ 0 <= y <= 99 ->
  timeValue (monthStart tz y m) ->
  timeValue (monthStart tz (monthBefore y m).1 (monthBefore y m).2) ->
  timeValue (monthStart tz (monthAfter y m).1 (monthAfter y m).2) ->
  Calendar.initialMonth tz (Some time) = Some (monthStart tz y m)
  /\ Calendar.handlePreviousMonth tz (Some time)
     = Some (monthStart tz (monthBefore y m).1 (monthBefore y m).2)
  /\ forall maxDate,
       Calendar.handleNextMonth tz (Some maxDate) (Some time)
       = Some (if monthStart tz (monthAfter y m).1 (monthAfter y m).2 <=? maxDate
               then monthStart tz (monthAfter y m).1 (monthAfter y m).2 else time).
Proof.
  intros Hc Hy Hthis Hbefore Hafter.
  pose proof Hc as Hspec. apply civil_from_days_spec in Hspec as (_ & Hm & _).
  assert (Hyear : Date.getFullYear tz (Some time) = Some y)
    by (unfold Date.getFullYear, Date.YearFromTime; cbn [mbind option_bind]; by rewrite Hc).
  assert (Hmonth : Date.getMonth tz (Some time) = Some (m - 1))
    by (unfold Date.getMonth, Date.MonthFromTime; cbn [mbind option_bind]; by rewrite Hc).
  unfold Calendar.initialMonth, Calendar.handlePreviousMonth, Calendar.handleNextMonth.
  rewrite Hyear, Hmonth.
  change (Number.sub (Some (m - 1)) (Some 1)) with (Some (m - 1 - 1)).
  change (Number.add (Some (m - 1)) (Some 1)) with (Some (m - 1 + 1)).
  replace (m - 1 - 1) with (m - 1 + -1) by lia.
  replace (Some (m - 1)) with (Some (m - 1 + 0)) by (f_equal; lia).
  rewrite (make_month tz y m 0), (make_month tz y m (-1)), (make_month tz y m 1)
    by (assumption || lia).
  cbn [Z.eqb Pos.eqb fst snd]. split; [reflexivity|]. split; [reflexivity|].
  intros maxDate. cbn [JsDate.leDate].
  by destruct (monthStart tz (monthAfter y m).1 (monthAfter y m).2 <=? maxDate).
Qed.

End MonthButtons.

(** X26. The month buttons of the calendar, for a date at least a hundred
    days inside the range of time values whose local year is not one of -1
    to 100.  [currentMonth] starts as the local midnight that begins the
    month of the date; [handlePreviousMonth] gives the beginning of the
    month before, also from January to the December of the year before;
    [handleNextMonth] gives the beginning of the month after when that is
    not after [maxDate], and changes nothing otherwise.  The month after
    begins as many days later as the month has, and going back and then on
    again, or on and then back, returns to the beginning of the month. *)
Theorem month_buttons_move_by_one_month (tz maxDate date : Z) :
  let y := Date.YearFromTime (Date.LocalTime tz date) in
  let m := Date.MonthFromTime (Date.LocalTime tz date) + 1 in
  ~ -1 <= y <= 100 ->
  -8640000000000000 + 100 * JsDate.msPerDay <= date
                                            <= 8640000000000000 - 100 * JsDate.msPerDay ->
  let this := monthStart tz y m in
  let previous := monthStart tz (monthBefore y m).1 (monthBefore y m).2 in
  let next := monthStart tz (monthAfter y m).1 (monthAfter y m).2 in
  Calendar.initialMonth tz (Some date) = Some this
  /\ Calendar.handlePreviousMonth tz (Some date) = Some previous
  /\ Calendar.handleNextMonth tz (Some maxDate) (Some date)
     = Some (if next <=? maxDate then next else date)
  /\ next = this + JsDate.daysInMonth y m * JsDate.msPerDay
  /\ this = previous
            + JsDate.daysInMonth (monthBefore y m).1 (monthBefore y m).2 * JsDate.msPerDay
  /\ Calendar.handleNextMonth tz (Some maxDate) (Calendar.handlePreviousMonth tz (Some this))
     = Some (if this <=? maxDate then this else previous)
  /\ (next <= maxDate ->
      Calendar.handlePreviousMonth tz (Calendar.handleNextMonth tz (Some maxDate) (Some this))
      = Some this).
Proof.
  unfold Date.YearFromTime, Date.MonthFromTime. cbv zeta.
  destruct (JsDate.civil_from_days (JsDate.Day (Date.LocalTime tz date))) as [[y m] d] eqn:Hc.
  cbn [fst snd]. replace (m - 1 + 1) with m by lia. intros Hy Hrange.
  pose proof Hc as Hspec. apply civil_from_days_spec in Hspec as (Hday & Hm & Hd).
  pose proof (monthBefore_after y m Hm) as (Hba & Hab & Hbm & Ham).
  pose proof (daysInMonth_range y m) as Hlen.
  pose proof (daysInMonth_range (monthBefore y m).1 (monthBefore y m).2) as Hlen'.
  pose proof (monthStart_after y m tz Hm) as Hnext.
  pose proof (monthStart_after (monthBefore y m).1 (monthBefore y m).2 tz Hbm) as Hthis.
  rewrite Hba in Hthis. cbn [fst snd] in Hthis.
  pose proof (Day_local_parts (Date.LocalTime tz date)) as [Hparts Hwithin].
  rewrite (days_from_civil_day y m d) in Hday.
  assert (Hnear : date - 31 * JsDate.msPerDay <= monthStart tz y m <= date).
  { unfold monthStart, Date.UTC, Date.LocalTime, JsDate.msPerDay in *. lia. }
  assert (Hvalues : timeValue (monthStart tz y m)
                    /\ timeValue (monthStart tz (monthBefore y m).1 (monthBefore y m).2)
                    /\ timeValue (monthStart tz (monthAfter y m).1 (monthAfter y m).2)).
  { unfold timeValue, JsDate.msPerDay in *. lia. }
  destruct Hvalues as (Hv & Hvb & Hva).
  assert (Hyears : ~ 0 <= y <= 99 /\ ~ 0 <= (monthBefore y m).1 <= 99
                   /\ ~ 0 <= (monthAfter y m).1 <= 99).
  { unfold monthBefore, monthAfter.
    destruct (m =? 1), (m =? 12); cbn [fst]; lia. }
  destruct Hyears as (Hy0 & Hyb & Hya).
  destruct (month_dates tz date y m d Hc Hy0 Hv Hvb Hva) as (Hinitial & Hprevious & Hforward).
  destruct (month_dates tz (monthStart tz y m) y m 1 (monthStart_civil tz y m Hm)
              Hy0 Hv Hvb Hva) as (_ & Hback & Hon).
  split; [exact Hinitial|]. split; [exact Hprevious|]. split; [apply Hforward|].
  split; [exact Hnext|]. split; [exact Hthis|]. split.
  - rewrite Hback.
    destruct (month_dates tz (monthStart tz (monthBefore y m).1 (monthBefore y m).2)
                (monthBefore y m).1 (monthBefore y m).2 1
                (monthStart_civil tz _ _ Hbm) Hyb Hvb) as (_ & _ & Hon').
    + pose proof (monthStart_after
                    (monthBefore (monthBefore y m).1 (monthBefore y m).2).1
                    (monthBefore (monthBefore y m).1 (monthBefore y m).2).2 tz) as Hstep.
      pose proof (monthBefore_after (monthBefore y m).1 (monthBefore y m).2 Hbm)
        as (Hba2 & _ & Hbm2 & _).
      rewrite Hba2 in Hstep. cbn [fst snd] in Hstep. specialize (Hstep Hbm2).
      pose proof (daysInMonth_range
                    (monthBefore (monthBefore y m).1 (monthBefore y m).2).1
                    (monthBefore (monthBefore y m).1 (monthBefore y m).2).2).
      unfold timeValue, JsDate.msPerDay in *. lia.
    + by rewrite Hba.
    + rewrite Hon', Hba. reflexivity.
  - intros Hmax. rewrite Hon.
    destruct (Z.leb_spec (monthStart tz (monthAfter y m).1 (monthAfter y m).2) maxDate);
      [|lia].
    destruct (month_dates tz (monthStart tz (monthAfter y m).1 (monthAfter y m).2)
                (monthAfter y m).1 (monthAfter y m).2 1
                (monthStart_civil tz _ _ Ham) Hya Hva) as (_ & Hback' & _).
    + by rewrite Hab.
    + pose proof (monthStart_after (monthAfter y m).1 (monthAfter y m).2 tz Ham) as Hstep.
      pose proof (daysInMonth_range (monthAfter y m).1 (monthAfter y m).2).
      unfold timeValue, JsDate.msPerDay in *. lia.
    + rewrite Hback', Hab. reflexivity.
Qed.


(** ** The further theorems with a hypothesis, at an input *)

Lemma aggregate_ignores_entry_order_witness :
  Permutation [morning1; morning2] [morning2; morning1]
  /\ aggregate (collation := codeUnitCollator) [morning1; morning2] [taskA; taskB]
       "2023-12-31" "2024-01-06"
     = aggregate (collation := codeUnitCollator) [morning2; morning1] [taskA; taskB]
         "2023-12-31" "2024-01-06".
Proof.
  assert (Hperm : Permutation [morning1; morning2] [morning2; morning1])
    by apply perm_swap.
  split; [exact Hperm|].
  exact (aggregate_ignores_entry_order (collation := codeUnitCollator)
           [morning1; morning2] [morning2; morning1] [taskA; taskB]
           "2023-12-31" "2024-01-06" Hperm).
Defined.

Lemma loaded_report_reads_the_table_witness :
  let b := backendWith [morning1; morning2] [] in
  let report :=
    aggregate (collation := codeUnitCollator) [morning1; morning2] [taskA; taskB]
      "2023-12-31" "2024-01-06" in
  getTimesheetData (collation := codeUnitCollator) "2023-12-31" "2024-01-06" b = Data report
  /\ session b = Some "u1"
  /\ (let mine :=
        List.filter (fun e => bool_decide (TimeEntry.user_id e = "u1")
                              && inRange "2023-12-31" "2024-01-06" e) (time_entries b) in
      TimesheetData.week_total report = sumMinutes mine
      /\ (forall date,
            default 0 (TimesheetData.daily_totals report !! date)
            = sumMinutes (List.filter (onDate date) mine))
      /\ (forall cell,
            currentMinutes (mkPage (Some report) None "" None "2023-12-31" "2024-01-06") cell
            = if assignedTo "u1" (tasks b) (Cell.taskId cell)
              then sumMinutes
                     (List.filter (inCell "u1" "2023-12-31" "2024-01-06" cell)
                        (time_entries b))
              else 0)).
Proof.
  intros b report.
  assert (Hreport : getTimesheetData (collation := codeUnitCollator)
                      "2023-12-31" "2024-01-06" b = Data report)
    by (vm_compute; reflexivity).
  assert (Hsession : session b = Some "u1") by reflexivity.
  split; [exact Hreport|]. split; [exact Hsession|].
  exact (loaded_report_reads_the_table (collation := codeUnitCollator)
           "2023-12-31" "2024-01-06" b report "u1" Hreport Hsession).
Defined.

Lemma cell_save_keeps_foreign_entries_witness :
  let b := backendWith [morning1; morning2] [] in
  let cell := Cell.mk "A" "2024-01-03" in
  let p := pageOf b cell "0:10" in
  let w := freshWorld b in
  NoDup (map TimeEntry.id (time_entries (backend w)))
  /\ editingCell p = Some cell
  /\ (let b' := backend (handleCellSave (collation := codeUnitCollator) utc p w).2 in
      List.filter (foreign (backend w) (Cell.taskId cell)) (time_entries b')
      = List.filter (foreign (backend w) (Cell.taskId cell)) (time_entries (backend w))
      /\ session b' = session (backend w)
      /\ tasks b' = tasks (backend w)).
Proof.
  intros b cell p w.
  assert (Hids : NoDup (map TimeEntry.id (time_entries (backend w)))).
  { apply (bool_decide_unpack _). vm_compute. exact I. }
  assert (Hcell : editingCell p = Some cell) by (vm_compute; reflexivity).
  split; [exact Hids|]. split; [exact Hcell|].
  exact (cell_save_keeps_foreign_entries (collation := codeUnitCollator)
           utc p w cell Hids Hcell).
Defined.

Lemma day_delete_keeps_foreign_entries_witness :
  let b := backendWith [morning1; morning2] ["te-2"] in
  let p := pageOf b (Cell.mk "A" "2024-01-03") "" in
  let w := freshWorld b in
  NoDup (map TimeEntry.id (time_entries (backend w)))
  /\ (let b' := backend (handleDeleteTimeForDay (collation := codeUnitCollator)
                           utc "A" "2024-01-03" p w).2 in
      List.filter (foreign (backend w) "A") (time_entries b')
      = List.filter (foreign (backend w) "A") (time_entries (backend w))
      /\ (forall e, In e (time_entries b') -> In e (time_entries (backend w)))
      /\ session b' = session (backend w)
      /\ tasks b' = tasks (backend w)).
Proof.
  intros b p w.
  assert (Hids : NoDup (map TimeEntry.id (time_entries (backend w)))).
  { apply (bool_decide_unpack _). vm_compute. exact I. }
  split; [exact Hids|].
  exact (day_delete_keeps_foreign_entries (collation := codeUnitCollator)
           utc "A" "2024-01-03" p w Hids).
Defined.

Lemma cell_save_leaves_other_tasks_cells_witness :
  let b := backendWith [morning1; morning2] [] in
  let cell := Cell.mk "A" "2024-01-03" in
  let p := pageOf b cell "0:10" in
  let w := freshWorld b in
  let report :=
    aggregate (collation := codeUnitCollator) [morning1; morning2] [taskA; taskB]
      "2023-12-31" "2024-01-06" in
  NoDup (map TimeEntry.id (time_entries (backend w)))
  /\ editingCell p = Some cell
  /\ timesheetData p = Some report
  /\ getTimesheetData (collation := codeUnitCollator)
       (startDateStr p) (endDateStr p) (backend w) = Data report
  /\ (forall other date,
        other <> Cell.taskId cell ->
        currentMinutes (handleCellSave (collation := codeUnitCollator) utc p w).1
          (Cell.mk other date)
        = currentMinutes p (Cell.mk other date)).
Proof.
  intros b cell p w report.
  assert (Hids : NoDup (map TimeEntry.id (time_entries (backend w)))).
  { apply (bool_decide_unpack _). vm_compute. exact I. }
  assert (Hcell : editingCell p = Some cell) by (vm_compute; reflexivity).
  assert (Hshown : timesheetData p = Some report) by (vm_compute; reflexivity).
  assert (Hfresh : getTimesheetData (collation := codeUnitCollator)
                     (startDateStr p) (endDateStr p) (backend w) = Data report)
    by (vm_compute; reflexivity).
  split; [exact Hids|]. split; [exact Hcell|]. split; [exact Hshown|].
  split; [exact Hfresh|].
  exact (cell_save_leaves_other_tasks_cells (collation := codeUnitCollator)
           utc p w cell report Hids Hcell Hshown Hfresh).
Defined.

Lemma raising_todays_cell_reaches_the_target_witness :
  let b := backendWith [] [] in
  let cell := Cell.mk "A" "2024-01-03" in
  let p := pageOf b cell "0:30" in
  let w := freshWorld b in
  let report :=
    aggregate (collation := codeUnitCollator) [] [taskA; taskB]
      "2023-12-31" "2024-01-06" in
  editingCell p = Some cell
  /\ timesheetData p = Some report
  /\ getTimesheetData (collation := codeUnitCollator)
       (startDateStr p) (endDateStr p) (backend w) = Data report
  /\ session (backend w) = Some "u1"
  /\ notAssignee (Cell.taskId cell) "u1" (backend w) = false
  /\ insert_fault (backend w) = false
  /\ JsDate.isoDate (clock (backend w)) = Cell.date cell
  /\ JsString.ge (Cell.date cell) (startDateStr p) = true
  /\ JsString.le (Cell.date cell) (endDateStr p) = true
  /\ 0 <= parseTotalMinutes (editValue p)
  /\ currentMinutes p cell < parseTotalMinutes (editValue p)
  /\ (currentMinutes (handleCellSave (collation := codeUnitCollator) utc p w).1 cell
      = parseTotalMinutes (editValue p)
      /\ calls (handleCellSave (collation := codeUnitCollator) utc p w).2
         = (calls w
            ++ [CallAddManualTimeEntry
                  (AddManualTimeEntryInput.mk (Cell.taskId cell)
                     (parseTotalMinutes (editValue p) - currentMinutes p cell)
                     (Some ("Timesheet entry for " +:+ Cell.date cell)));
                CallGetTimesheetData (startDateStr p) (endDateStr p)])%list
      /\ alerts (handleCellSave (collation := codeUnitCollator) utc p w).2 = alerts w).
Proof.
  intros b cell p w report.
  assert (Hcell : editingCell p = Some cell) by (vm_compute; reflexivity).
  assert (Hshown : timesheetData p = Some report) by (vm_compute; reflexivity).
  assert (Hfresh : getTimesheetData (collation := codeUnitCollator)
                     (startDateStr p) (endDateStr p) (backend w) = Data report)
    by (vm_compute; reflexivity).
  assert (Hsession : session (backend w) = Some "u1") by reflexivity.
  assert (Hassigned : notAssignee (Cell.taskId cell) "u1" (backend w) = false)
    by (vm_compute; reflexivity).
  assert (Hinsert : insert_fault (backend w) = false) by reflexivity.
  assert (Htoday : JsDate.isoDate (clock (backend w)) = Cell.date cell)
    by (vm_compute; reflexivity).
  assert (Hge : JsString.ge (Cell.date cell) (startDateStr p) = true)
    by (vm_compute; reflexivity).
  assert (Hle : JsString.le (Cell.date cell) (endDateStr p) = true)
    by (vm_compute; reflexivity).
  assert (Hpos : 0 <= parseTotalMinutes (editValue p)) by (vm_compute; discriminate).
  assert (Hup : currentMinutes p cell < parseTotalMinutes (editValue p))
    by (vm_compute; reflexivity).
  repeat (split; [assumption|]).
  exact (raising_todays_cell_reaches_the_target (collation := codeUnitCollator)
           utc p w cell report "u1" Hcell Hshown Hfresh Hsession Hassigned Hinsert
           Htoday Hge Hle Hpos Hup).
Defined.

Lemma edit_text_is_well_formed_and_reads_back_witness :
  0 <= 90
  /\ parseTotalMinutes (editText 90) = 90
  /\ (90 = 0 -> editText 90 = "")
  /\ (0 < 90 -> isHMM (editText 90) = true).
Proof.
  assert (Hpos : 0 <= 90) by lia.
  split; [exact Hpos|].
  exact (edit_text_is_well_formed_and_reads_back 90 Hpos).
Defined.

Lemma opening_and_saving_a_cell_changes_nothing_witness :
  let b := backendWith [morning1; morning2] [] in
  let p := pageOf b (Cell.mk "B" "2024-01-02") "" in
  let w := freshWorld b in
  0 <> 2
  /\ 0 <= currentMinutes p (Cell.mk "A" "2024-01-03")
  /\ handleCellSave (collation := codeUnitCollator) utc
       (handleCellClick 0 "A" "2024-01-03" p) w
     = (closeEdit p, w).
Proof.
  intros b p w.
  assert (Hleft : 0 <> 2) by lia.
  assert (Hpos : 0 <= currentMinutes p (Cell.mk "A" "2024-01-03"))
    by (vm_compute; discriminate).
  split; [exact Hleft|]. split; [exact Hpos|].
  exact (opening_and_saving_a_cell_changes_nothing (collation := codeUnitCollator)
           utc p w 0 "A" "2024-01-03" Hleft Hpos).
Defined.

Lemma day_delete_removes_the_picked_entries_witness :
  let b := backendWith [morning1; morning2] [] in
  let p := pageOf b (Cell.mk "A" "2024-01-03") "" in
  let w := freshWorld b in
  let fetched :=
    filter (fun e => TimeEntry.task_id e = "A" /\ TimeEntry.user_id e = "u1")
      (time_entries (backend w)) in
  let picked := entriesToDelete utc "2024-01-03" fetched in
  let after := handleDeleteTimeForDay (collation := codeUnitCollator)
                 utc "A" "2024-01-03" p w in
  confirms utc = true
  /\ session (backend w) = Some "u1"
  /\ select_fault (backend w) = false
  /\ NoDup (map TimeEntry.id (time_entries (backend w)))
  /\ fetched <> []
  /\ (forall e, In e picked -> ~ In (TimeEntry.id e) (delete_faults (backend w)))
  /\ (time_entries (backend after.2)
      = List.filter (notPicked picked) (time_entries (backend w))
      /\ calls after.2
         = (calls w ++ [AuthGetUser; SelectTimeEntries "A" "u1"]
            ++ map (fun e => CallDeleteTimeEntry (TimeEntry.id e)) picked
            ++ [CallGetTimesheetData (startDateStr p) (endDateStr p)])%list
      /\ alerts after.2 = alerts w
      /\ contextMenu after.1 = None).
Proof.
  intros b p w fetched picked after.
  assert (Hconfirm : confirms utc = true) by reflexivity.
  assert (Hsession : session (backend w) = Some "u1") by reflexivity.
  assert (Hselect : select_fault (backend w) = false) by reflexivity.
  assert (Hids : NoDup (map TimeEntry.id (time_entries (backend w)))).
  { apply (bool_decide_unpack _). vm_compute. exact I. }
  assert (Hfetched : fetched <> []) by (vm_compute; discriminate).
  assert (Hfaults : forall e, In e picked ->
                              ~ In (TimeEntry.id e) (delete_faults (backend w)))
    by (intros e _ []).
  repeat (split; [assumption|]).
  exact (day_delete_removes_the_picked_entries (collation := codeUnitCollator)
           utc "A" "2024-01-03" p w "u1" Hconfirm Hsession Hselect Hids Hfetched Hfaults).
Defined.



Lemma getWeekDates_is_the_local_week_witness :
  -8640000000000000 + 7 * JsDate.msPerDay <= wednesdayNoon
                                          <= 8640000000000000 - 7 * JsDate.msPerDay
  /\ exists start,
       getWeekDates 60 (Some wednesdayNoon)
       = WeekDates.mk (Some start) (Some (start + 7 * JsDate.msPerDay - 1))
           (map (fun i => Some (start + i * JsDate.msPerDay)) (seqZ 0 7))
       /\ start <= wednesdayNoon < start + 7 * JsDate.msPerDay
       /\ Date.getDay 60 (Some start) = Some 0
       /\ Date.TimeWithinDay (Date.LocalTime 60 start) = 0.
Proof.
  assert (Hrange : -8640000000000000 + 7 * JsDate.msPerDay <= wednesdayNoon
                   <= 8640000000000000 - 7 * JsDate.msPerDay)
    by (unfold JsDate.msPerDay, wednesdayNoon; lia).
  split; [exact Hrange|].
  exact (getWeekDates_is_the_local_week 60 wednesdayNoon Hrange).
Defined.

Lemma week_buttons_move_by_seven_days_witness :
  -8640000000000000 + 14 * JsDate.msPerDay <= wednesdayNoon
                                           <= 8640000000000000 - 14 * JsDate.msPerDay
  /\ let shown (d : Date.t) := WeekDates.start (getWeekDates 0 d) in
     exists start,
       shown (Some wednesdayNoon) = Some start
       /\ handlePreviousWeek 0 (Some wednesdayNoon)
          = Some (wednesdayNoon - 7 * JsDate.msPerDay)
       /\ shown (handlePreviousWeek 0 (Some wednesdayNoon))
          = Some (start - 7 * JsDate.msPerDay)
       /\ handleNextWeek 0 wednesdayNoon (Some wednesdayNoon)
          = Some (if wednesdayNoon + 7 * JsDate.msPerDay <=? wednesdayNoon
                  then wednesdayNoon + 7 * JsDate.msPerDay else wednesdayNoon)
       /\ shown (handleNextWeek 0 wednesdayNoon (Some wednesdayNoon))
          = Some (if wednesdayNoon + 7 * JsDate.msPerDay <=? wednesdayNoon
                  then start + 7 * JsDate.msPerDay else start)
       /\ (wednesdayNoon <= wednesdayNoon ->
           handleNextWeek 0 wednesdayNoon (handlePreviousWeek 0 (Some wednesdayNoon))
           = Some wednesdayNoon).
Proof.
  assert (Hrange : -8640000000000000 + 14 * JsDate.msPerDay <= wednesdayNoon
                   <= 8640000000000000 - 14 * JsDate.msPerDay)
    by (unfold JsDate.msPerDay, wednesdayNoon; lia).
  split; [exact Hrange|].
  exact (week_buttons_move_by_seven_days 0 wednesdayNoon wednesdayNoon Hrange).
Defined.

Lemma range_check_is_a_check_of_days_witness :
  fourDigitYear 1703980800000
  /\ fourDigitYear 1704585599999
  /\ inRange (JsDate.isoDate 1703980800000) (JsDate.isoDate 1704585599999) morning1
     = (JsDate.Day 1703980800000 <=? JsDate.Day (entryInstant morning1))
       && (JsDate.Day (entryInstant morning1) <=? JsDate.Day 1704585599999).
Proof.
  assert (Hfirst : fourDigitYear 1703980800000) by (vm_compute; split; discriminate).
  assert (Hlast : fourDigitYear 1704585599999) by (vm_compute; split; discriminate).
  split; [exact Hfirst|]. split; [exact Hlast|].
  exact (range_check_is_a_check_of_days 1703980800000 1704585599999 morning1 Hfirst Hlast).
Defined.

Lemma column_keys_are_utc_days_witness :
  -8640000000000000 + 7 * JsDate.msPerDay <= wednesdayNoon
                                          <= 8640000000000000 - 7 * JsDate.msPerDay
  /\ -1440 < 60 < 1440
  /\ exists start,
       WeekDates.start (getWeekDates 60 (Some wednesdayNoon)) = Some start
       /\ let sunday := JsDate.Day (Date.LocalTime 60 start) in
          let east := if 0 <? 60 then 1 else 0 in
          let west := if 60 <? 0 then 1 else 0 in
          (forall i, In (Some i) (WeekDates.dates (getWeekDates 60 (Some wednesdayNoon))) ->
                     exists k, 0 <= k < 7 /\ i = start + k * JsDate.msPerDay
                               /\ JsDate.Day (Date.LocalTime 60 i) = sunday + k)
          /\ columnKeys 60 (Some wednesdayNoon)
             = Some (map (fun i => dayKey (sunday + i - east)) (seqZ 0 7))
          /\ weekRange 60 (Some wednesdayNoon)
             = Some (dayKey (sunday - east), dayKey (sunday + 6 + west)).
Proof.
  assert (Hrange : -8640000000000000 + 7 * JsDate.msPerDay <= wednesdayNoon
                   <= 8640000000000000 - 7 * JsDate.msPerDay)
    by (unfold JsDate.msPerDay, wednesdayNoon; lia).
  assert (Hzone : -1440 < 60 < 1440) by lia.
  split; [exact Hrange|]. split; [exact Hzone|].
  exact (column_keys_are_utc_days 60 wednesdayNoon Hrange Hzone).
Defined.

Lemma week_total_counts_a_day_without_column_witness :
  -1440 < 60 < 1440
  /\ fourDigitYear (wednesdayNoon - 8 * JsDate.msPerDay)
  /\ fourDigitYear (wednesdayNoon + 8 * JsDate.msPerDay)
  /\ exists start startDateStr endDateStr keys,
       WeekDates.start (getWeekDates 60 (Some wednesdayNoon)) = Some start
       /\ weekRange 60 (Some wednesdayNoon) = Some (startDateStr, endDateStr)
       /\ columnKeys 60 (Some wednesdayNoon) = Some keys
       /\ let report :=
            aggregate (collation := codeUnitCollator) [morning1; morning2] [taskA; taskB]
              startDateStr endDateStr in
          TimesheetData.week_total report
          = sumZ (map (dayTotal report) keys)
            + (if 60 =? 0 then 0
               else dayTotal report (JsDate.isoDate (start + 7 * JsDate.msPerDay))).
Proof.
  assert (Hzone : -1440 < 60 < 1440) by lia.
  assert (Hbefore : fourDigitYear (wednesdayNoon - 8 * JsDate.msPerDay))
    by (vm_compute; split; discriminate).
  assert (Hafter : fourDigitYear (wednesdayNoon + 8 * JsDate.msPerDay))
    by (vm_compute; split; discriminate).
  split; [exact Hzone|]. split; [exact Hbefore|]. split; [exact Hafter|].
  exact (week_total_counts_a_day_without_column (collation := codeUnitCollator)
           60 wednesdayNoon [morning1; morning2] [taskA; taskB] Hzone Hbefore Hafter).
Defined.

Lemma delete_window_is_the_local_day_of_the_key_witness :
  let lastInstant := 8640000000000000 in
  let lastEntry := TimeEntry.mk "te-1" "A" "u1" 5 None (Some lastInstant) None lastInstant in
  timeValue wednesdayNoon
  /\ JsDate.parseLocal (tz cet) (JsDate.isoDate wednesdayNoon +:+ "T00:00:00")
     = Some (Date.UTC (tz cet) (JsDate.Day wednesdayNoon * JsDate.msPerDay))
  /\ entriesToDelete cet (JsDate.isoDate wednesdayNoon) [morning1; morning2]
     = List.filter
         (fun entry =>
            let local := Date.LocalTime (tz cet) (entryInstant entry) in
            (JsDate.Day wednesdayNoon * JsDate.msPerDay <=? local)
            && (local <=? JsDate.Day wednesdayNoon * JsDate.msPerDay + 86399000))
         [morning1; morning2]
  /\ timeValue lastInstant
  /\ JsDate.parseLocal (tz utc) (JsDate.isoDate lastInstant +:+ "T23:59:59") = None
  /\ entriesToDelete utc (JsDate.isoDate lastInstant) [lastEntry] = [].
Proof.
  intros lastInstant lastEntry.
  assert (Htime : timeValue wednesdayNoon) by (vm_compute; discriminate).
  assert (Hstart : timeValue (Date.UTC (tz cet) (JsDate.Day wednesdayNoon * JsDate.msPerDay)))
    by (vm_compute; discriminate).
  assert (Hend : timeValue (Date.UTC (tz cet)
                              (JsDate.Day wednesdayNoon * JsDate.msPerDay + 86399000)))
    by (vm_compute; discriminate).
  assert (Hlast : timeValue lastInstant) by (vm_compute; discriminate).
  assert (Hout : ~ (timeValue (Date.UTC (tz utc) (JsDate.Day lastInstant * JsDate.msPerDay))
                    /\ timeValue (Date.UTC (tz utc)
                                    (JsDate.Day lastInstant * JsDate.msPerDay + 86399000))))
    by (vm_compute; intros [_ Hle]; apply Hle; reflexivity).
  destruct (delete_window_is_the_local_day_of_the_key cet wednesdayNoon [morning1; morning2]
              Htime) as (_ & _ & Hinside & _).
  destruct (Hinside Hstart Hend) as (Hfirst & _ & Hpicked).
  destruct (delete_window_is_the_local_day_of_the_key utc lastInstant [lastEntry] Hlast)
    as (_ & Hclipped & _ & Hnone).
  split; [exact Htime|]. split; [exact Hfirst|]. split; [exact Hpicked|].
  split; [exact Hlast|]. split; [rewrite Hclipped; reflexivity | exact (Hnone Hout)].
Defined.

Lemma calendar_grid_is_six_weeks_from_a_sunday_witness :
  ~ 0 <= Date.YearFromTime (Date.LocalTime 60 wednesdayNoon) <= 99
  /\ -8640000000000000 + 50 * JsDate.msPerDay <= wednesdayNoon
                                              <= 8640000000000000 - 50 * JsDate.msPerDay
  /\ exists first startDay,
       Calendar.getDaysInMonth 60 (Some wednesdayNoon)
       = map (fun j => Some (first + (j - startDay) * JsDate.msPerDay)) (seqZ 0 42)
       /\ 0 <= startDay <= 6
       /\ Date.getDay 60 (Some first) = Some startDay
       /\ Date.getDay 60 (Some (first - startDay * JsDate.msPerDay)) = Some 0
       /\ Date.getFullYear 60 (Some first) = Date.getFullYear 60 (Some wednesdayNoon)
       /\ Date.getMonth 60 (Some first) = Date.getMonth 60 (Some wednesdayNoon)
       /\ Date.getDate 60 (Some first) = Some 1
       /\ Date.TimeWithinDay (Date.LocalTime 60 first) = 0.
Proof.
  assert (Hyear : ~ 0 <= Date.YearFromTime (Date.LocalTime 60 wednesdayNoon) <= 99)
    by (intros [_ Hle]; vm_compute in Hle; by apply Hle).
  assert (Hrange : -8640000000000000 + 50 * JsDate.msPerDay <= wednesdayNoon
                   <= 8640000000000000 - 50 * JsDate.msPerDay)
    by (unfold JsDate.msPerDay, wednesdayNoon; lia).
  split; [exact Hyear|]. split; [exact Hrange|].
  exact (calendar_grid_is_six_weeks_from_a_sunday 60 wednesdayNoon Hyear Hrange).
Defined.

Lemma getWeekStart_moves_its_argument_to_sunday_witness :
  -8640000000000000 + 7 * JsDate.msPerDay <= wednesdayNoon
                                          <= 8640000000000000 - 7 * JsDate.msPerDay
  /\ exists start,
       WeekDates.start (getWeekDates 60 (Some wednesdayNoon)) = Some start
       /\ let moved := start + Date.TimeWithinDay (Date.LocalTime 60 wednesdayNoon) in
          Calendar.getWeekStart 60 (Some wednesdayNoon) = (Some start, Some moved)
          /\ Date.getDay 60 (Some moved) = Some 0
          /\ moved <= wednesdayNoon < moved + 7 * JsDate.msPerDay
          /\ Calendar.getWeekStart 60 (Some moved) = (Some start, Some moved)
          /\ (forall cell,
                Calendar.isSelected 60 (Some wednesdayNoon) (Some cell)
                = (JsDate.Day (Date.LocalTime 60 cell)
                   =? JsDate.Day (Date.LocalTime 60 start)))
          /\ (forall cell,
                Calendar.isInSelectedWeek 60 (Some wednesdayNoon) (Some cell)
                = (start <=? cell) && (cell <=? start + 6 * JsDate.msPerDay))
          /\ (forall currentMonth cell,
                Calendar.weekStyle 60 (Some wednesdayNoon) (Some currentMonth) (Some cell)
                = (start <=? cell) && (cell <=? start + 6 * JsDate.msPerDay)
                  && (Date.MonthFromTime (Date.LocalTime 60 cell)
                      =? Date.MonthFromTime (Date.LocalTime 60 currentMonth)))
          /\ (forall currentMonth,
                Date.MonthFromTime (Date.LocalTime 60 start)
                <> Date.MonthFromTime (Date.LocalTime 60 currentMonth) ->
                Calendar.isSelected 60 (Some wednesdayNoon) (Some start) = true
                /\ Calendar.weekStyle 60 (Some wednesdayNoon) (Some currentMonth) (Some start)
                   = false).
Proof.
  assert (Hrange : -8640000000000000 + 7 * JsDate.msPerDay <= wednesdayNoon
                   <= 8640000000000000 - 7 * JsDate.msPerDay)
    by (unfold JsDate.msPerDay, wednesdayNoon; lia).
  split; [exact Hrange|].
  exact (getWeekStart_moves_its_argument_to_sunday 60 wednesdayNoon Hrange).
Defined.



Lemma a_written_entry_adds_to_one_cell_witness :
  let b := backendWith [] [] in
  let startedAt := wednesdayNoon - 150000 in
  let entry :=
    TimeEntry.mk "te-100" "A" "u1" 3 None (Some startedAt) (Some wednesdayNoon)
      wednesdayNoon in
  let b' := mkBackend (Some "u1") [taskA; taskB] [entry] 101 wednesdayNoon [] false false in
  let report :=
    aggregate (collation := codeUnitCollator) [] [taskA; taskB] "2023-12-31" "2024-01-06" in
  ((exists input, addManualTimeEntry input b = (Data entry, b'))
   \/ (exists taskId started, stopTimer taskId started b = (Data entry, b')))
  /\ getTimesheetData (collation := codeUnitCollator) "2023-12-31" "2024-01-06" b
     = Data report
  /\ exists report',
       getTimesheetData (collation := codeUnitCollator) "2023-12-31" "2024-01-06" b'
       = Data report'
       /\ entryDate entry = JsDate.isoDate (default (clock b) (TimeEntry.started_at entry))
       /\ (forall cell,
             currentMinutes (mkPage (Some report') None "" None "2023-12-31" "2024-01-06") cell
             = currentMinutes (mkPage (Some report) None "" None "2023-12-31" "2024-01-06") cell
               + (if ofTask (Cell.taskId cell) entry && onDate (Cell.date cell) entry
                     && inRange "2023-12-31" "2024-01-06" entry
                  then TimeEntry.minutes entry else 0))
       /\ TimesheetData.week_total report'
          = TimesheetData.week_total report
            + (if inRange "2023-12-31" "2024-01-06" entry
               then TimeEntry.minutes entry else 0).
Proof.
  intros b startedAt entry b' report.
  assert (Hwritten : (exists input, addManualTimeEntry input b = (Data entry, b'))
                     \/ (exists taskId started, stopTimer taskId started b = (Data entry, b'))).
  { right. exists "A", startedAt. vm_compute. reflexivity. }
  assert (Hreport : getTimesheetData (collation := codeUnitCollator)
                      "2023-12-31" "2024-01-06" b = Data report)
    by (vm_compute; reflexivity).
  split; [exact Hwritten|]. split; [exact Hreport|].
  exact (a_written_entry_adds_to_one_cell (collation := codeUnitCollator)
           b b' entry "2023-12-31" "2024-01-06" report Hwritten Hreport).
Defined.

Lemma day_delete_on_utc_leaves_the_last_second_witness :
  let b := backendWith [morning1; morning2] [] in
  let p := pageOf b (Cell.mk "A" "2024-01-03") "" in
  let w := freshWorld b in
  tz utc = 0
  /\ confirms utc = true
  /\ session (backend w) = Some "u1"
  /\ select_fault (backend w) = false
  /\ delete_faults (backend w) = []
  /\ NoDup (map TimeEntry.id (time_entries (backend w)))
  /\ fourDigitYear wednesdayNoon
  /\ filter (fun e => TimeEntry.task_id e = "A" /\ TimeEntry.user_id e = "u1")
       (time_entries (backend w)) <> []
  /\ (let cell := Cell.mk "A" (JsDate.isoDate wednesdayNoon) in
      currentMinutes
        (handleDeleteTimeForDay (collation := codeUnitCollator) utc "A"
           (JsDate.isoDate wednesdayNoon) p w).1 cell
      = if assignedTo "u1" (tasks (backend w)) "A"
        then sumMinutes
               (List.filter
                  (fun e => inCell "u1" (startDateStr p) (endDateStr p) cell e
                            && (86399000 <? Date.TimeWithinDay (entryInstant e)))
                  (time_entries (backend w)))
        else 0).
Proof.
  intros b p w.
  assert (Hutc : tz utc = 0) by reflexivity.
  assert (Hconfirm : confirms utc = true) by reflexivity.
  assert (Hsession : session (backend w) = Some "u1") by reflexivity.
  assert (Hselect : select_fault (backend w) = false) by reflexivity.
  assert (Hfaults : delete_faults (backend w) = []) by reflexivity.
  assert (Hids : NoDup (map TimeEntry.id (time_entries (backend w)))).
  { apply (bool_decide_unpack _). vm_compute. exact I. }
  assert (Hyear : fourDigitYear wednesdayNoon) by (vm_compute; split; discriminate).
  assert (Hfetched : filter (fun e => TimeEntry.task_id e = "A" /\ TimeEntry.user_id e = "u1")
                       (time_entries (backend w)) <> [])
    by (vm_compute; discriminate).
  repeat (split; [assumption|]).
  exact (day_delete_on_utc_leaves_the_last_second (collation := codeUnitCollator)
           utc "A" wednesdayNoon p w "u1" Hutc Hconfirm Hsession Hselect Hfaults Hids
           Hyear Hfetched).
Defined.

Lemma lowering_todays_cell_on_utc_witness :
  let b := backendWith [morning1; morning2] [] in
  let cell := Cell.mk "A" "2024-01-03" in
  let p := pageOf b cell "0:10" in
  let w := freshWorld b in
  let report :=
    aggregate (collation := codeUnitCollator) [morning1; morning2] [taskA; taskB]
      "2023-12-31" "2024-01-06" in
  tz utc = 0
  /\ editingCell p = Some cell
  /\ timesheetData p = Some report
  /\ getTimesheetData (collation := codeUnitCollator)
       (startDateStr p) (endDateStr p) (backend w) = Data report
  /\ session (backend w) = Some "u1"
  /\ notAssignee (Cell.taskId cell) "u1" (backend w) = false
  /\ insert_fault (backend w) = false
  /\ delete_faults (backend w) = []
  /\ NoDup (map TimeEntry.id (time_entries (backend w)))
  /\ fourDigitYear (clock (backend w))
  /\ JsDate.isoDate (clock (backend w)) = Cell.date cell
  /\ JsString.ge (Cell.date cell) (startDateStr p) = true
  /\ JsString.le (Cell.date cell) (endDateStr p) = true
  /\ 0 <= parseTotalMinutes (editValue p) < currentMinutes p cell
  /\ (let total := parseTotalMinutes (editValue p) in
      let picked :=
        entriesToDelete utc (Cell.date cell)
          (filter (fun e => TimeEntry.task_id e = Cell.taskId cell
                            /\ TimeEntry.user_id e = "u1")
             (time_entries (backend w))) in
      let late :=
        List.filter
          (fun e => inCell "u1" (startDateStr p) (endDateStr p) cell e
                    && (86399000 <? Date.TimeWithinDay (entryInstant e)))
          (time_entries (backend w)) in
      currentMinutes (handleCellSave (collation := codeUnitCollator) utc p w).1 cell
      = total + sumMinutes late
      /\ calls (handleCellSave (collation := codeUnitCollator) utc p w).2
         = (calls w ++ [AuthGetUser; SelectTimeEntries (Cell.taskId cell) "u1"]
            ++ map (fun e => CallDeleteTimeEntry (TimeEntry.id e)) picked
            ++ (if 0 <? total
                then [CallAddManualTimeEntry
                        (AddManualTimeEntryInput.mk (Cell.taskId cell) total
                           (Some ("Timesheet entry for " +:+ Cell.date cell)))]
                else [])
            ++ [CallGetTimesheetData (startDateStr p) (endDateStr p)])%list
      /\ alerts (handleCellSave (collation := codeUnitCollator) utc p w).2 = alerts w).
Proof.
  intros b cell p w report.
  assert (Hutc : tz utc = 0) by reflexivity.
  assert (Hcell : editingCell p = Some cell) by (vm_compute; reflexivity).
  assert (Hshown : timesheetData p = Some report) by (vm_compute; reflexivity).
  assert (Hfresh : getTimesheetData (collation := codeUnitCollator)
                     (startDateStr p) (endDateStr p) (backend w) = Data report)
    by (vm_compute; reflexivity).
  assert (Hsession : session (backend w) = Some "u1") by reflexivity.
  assert (Hassigned : notAssignee (Cell.taskId cell) "u1" (backend w) = false)
    by (vm_compute; reflexivity).
  assert (Hinsert : insert_fault (backend w) = false) by reflexivity.
  assert (Hfaults : delete_faults (backend w) = []) by reflexivity.
  assert (Hids : NoDup (map TimeEntry.id (time_entries (backend w)))).
  { apply (bool_decide_unpack _). vm_compute. exact I. }
  assert (Hyear : fourDigitYear (clock (backend w))) by (vm_compute; split; discriminate).
  assert (Htoday : JsDate.isoDate (clock (backend w)) = Cell.date cell)
    by (vm_compute; reflexivity).
  assert (Hge : JsString.ge (Cell.date cell) (startDateStr p) = true)
    by (vm_compute; reflexivity).
  assert (Hle : JsString.le (Cell.date cell) (endDateStr p) = true)
    by (vm_compute; reflexivity).
  assert (Hless : 0 <= parseTotalMinutes (editValue p) < currentMinutes p cell)
    by (vm_compute; split; [discriminate | reflexivity]).
  repeat (split; [assumption|]).
  exact (lowering_todays_cell_on_utc (collation := codeUnitCollator)
           utc p w cell report "u1" Hutc Hcell Hshown Hfresh Hsession Hassigned Hinsert
           Hfaults Hids Hyear Htoday Hge Hle Hless).
Defined.

Lemma calendar_rows_are_weeks_of_the_timesheet_witness :
  ~ 0 <= Date.YearFromTime (Date.LocalTime 60 wednesdayNoon) <= 99
  /\ -8640000000000000 + 60 * JsDate.msPerDay <= wednesdayNoon
                                              <= 8640000000000000 - 60 * JsDate.msPerDay
  /\ 0 <= 10 < 42
  /\ exists rowStart,
       Calendar.getDaysInMonth 60 (Some wednesdayNoon) !! Z.to_nat (7 * (10 / 7))
       = Some (Some rowStart)
       /\ Calendar.getDaysInMonth 60 (Some wednesdayNoon) !! Z.to_nat 10
          = Some (Some (rowStart + (10 mod 7) * JsDate.msPerDay))
       /\ WeekDates.start
            (getWeekDates 60 (Some (rowStart + (10 mod 7) * JsDate.msPerDay)))
          = Some rowStart.
Proof.
  assert (Hyear : ~ 0 <= Date.YearFromTime (Date.LocalTime 60 wednesdayNoon) <= 99)
    by (intros [_ Hle]; vm_compute in Hle; by apply Hle).
  assert (Hrange : -8640000000000000 + 60 * JsDate.msPerDay <= wednesdayNoon
                   <= 8640000000000000 - 60 * JsDate.msPerDay)
    by (unfold JsDate.msPerDay, wednesdayNoon; lia).
  assert (Hindex : 0 <= 10 < 42) by lia.
  split; [exact Hyear|]. split; [exact Hrange|]. split; [exact Hindex|].
  exact (calendar_rows_are_weeks_of_the_timesheet 60 wednesdayNoon Hyear Hrange 10 Hindex).
Defined.

Lemma month_buttons_move_by_one_month_witness :
  let y := Date.YearFromTime (Date.LocalTime 60 wednesdayNoon) in
  let m := Date.MonthFromTime (Date.LocalTime 60 wednesdayNoon) + 1 in
  ~ -1 <= y <= 100
  /\ -8640000000000000 + 100 * JsDate.msPerDay <= wednesdayNoon
                                               <= 8640000000000000 - 100 * JsDate.msPerDay
  /\ (let this := monthStart 60 y m in
      let previous := monthStart 60 (monthBefore y m).1 (monthBefore y m).2 in
      let next := monthStart 60 (monthAfter y m).1 (monthAfter y m).2 in
      Calendar.initialMonth 60 (Some wednesdayNoon) = Some this
      /\ Calendar.handlePreviousMonth 60 (Some wednesdayNoon) = Some previous
      /\ Calendar.handleNextMonth 60 (Some wednesdayNoon) (Some wednesdayNoon)
         = Some (if next <=? wednesdayNoon then next else wednesdayNoon)
      /\ next = this + JsDate.daysInMonth y m * JsDate.msPerDay
      /\ this = previous
                + JsDate.daysInMonth (monthBefore y m).1 (monthBefore y m).2
                  * JsDate.msPerDay
      /\ Calendar.handleNextMonth 60 (Some wednesdayNoon)
           (Calendar.handlePreviousMonth 60 (Some this))
         = Some (if this <=? wednesdayNoon then this else previous)
      /\ (next <= wednesdayNoon ->
          Calendar.handlePreviousMonth 60
            (Calendar.handleNextMonth 60 (Some wednesdayNoon) (Some this))
          = Some this)).
Proof.
  intros y m.
  assert (Hyear : ~ -1 <= y <= 100) by (intros [_ Hle]; vm_compute in Hle; by apply Hle).
  assert (Hrange : -8640000000000000 + 100 * JsDate.msPerDay <= wednesdayNoon
                   <= 8640000000000000 - 100 * JsDate.msPerDay)
    by (unfold JsDate.msPerDay, wednesdayNoon; lia).
  split; [exact Hyear|]. split; [exact Hrange|].
  exact (month_buttons_move_by_one_month 60 wednesdayNoon wednesdayNoon Hyear Hrange).
Defined.

